(** * Octopus mini dashboard: price-window reconciliation and chart layout

    A shallow embedding of [dashboard.py] (the continuous dashboard) and
    [dashboard-snap.py] (the snapshot variant): the per-day price cache, the
    today/tomorrow display window, the Now/Min/Max statistics, and the
    bar-chart layout of [draw_dashboard].

    Python floats are IEEE binary64 values, modelled by Rocq's primitive
    floats; Python ints are unbounded, modelled by [Z].  Drawing on the PIL
    canvas is modelled by the list of drawing calls, in program order. *)

From Stdlib Require Import ZArith List String Ascii Bool Lia Floats.
Import ListNotations.

Set Warnings "-inexact-float".

Local Open Scope Z_scope.

(* ================================================================== *)
(** * Python builtins used by the sources *)
(* ================================================================== *)

Module Py.

(** Exceptions that the modelled code can raise. *)
Inductive exn : Type :=
| ZeroDivisionError
| ValueError
| OverflowError
| TypeError
| KeyError.

Inductive result (A : Type) : Type :=
| Ok (a : A)
| Raise (e : exn).
Arguments Ok {A} a.
Arguments Raise {A} e.

Definition bind {A B : Type} (c : result A) (k : A -> result B) : result B :=
  match c with
  | Ok a => k a
  | Raise e => Raise e
  end.

(** [for x in l: f x], collecting the results, stopping at the first
    exception. *)
Fixpoint mapM {A B : Type} (f : A -> result B) (l : list A) : result (list B) :=
  match l with
  | [] => Ok []
  | x :: t =>
      bind (f x) (fun y => bind (mapM f t) (fun ys => Ok (y :: ys)))
  end.

(** ** Floats *)

(** [bool(x)] for a float: false exactly for [0.0] and [-0.0]. *)
Definition truthy (x : float) : bool := negb (x =? 0)%float.

(** [a != b] on floats. *)
Definition ne (a b : float) : bool := negb (a =? b)%float.

(** [min(iterable)]: the first item is kept until a later one is strictly
    smaller; [ValueError] on an empty iterable. *)
Definition min_from (m : float) (l : list float) : float :=
  fold_left (fun acc x => if (x <? acc)%float then x else acc) l m.

Definition min (l : list float) : result float :=
  match l with
  | [] => Raise ValueError
  | x :: t => Ok (min_from x t)
  end.

(** [max(iterable)]: dually, with [item > current]. *)
Definition max_from (m : float) (l : list float) : float :=
  fold_left (fun acc x => if (acc <? x)%float then x else acc) l m.

Definition max (l : list float) : result float :=
  match l with
  | [] => Raise ValueError
  | x :: t => Ok (max_from x t)
  end.

(** [min(a, b)] with two positional arguments. *)
Definition min2 (a b : float) : float := min_from a [b].

(** The magnitude [m * 2^e] truncated to an integer. *)
Definition trunc_mag (m : positive) (e : Z) : Z :=
  match e with
  | Zneg k => Z.shiftr (Zpos m) (Zpos k)
  | _ => Z.shiftl (Zpos m) e
  end.

(** [int(x)] for a float: truncation toward zero; [ValueError] on NaN,
    [OverflowError] on an infinity. *)
Definition int (x : float) : result Z :=
  match Prim2SF x with
  | S754_nan => Raise ValueError
  | S754_infinity _ => Raise OverflowError
  | S754_zero _ => Ok 0
  | S754_finite s m e => Ok (cond_Zopp s (trunc_mag m e))
  end.

(** [round(x)] with one argument: the nearest integer, ties to even. *)
Definition round_mag (m : positive) (e : Z) : Z :=
  match e with
  | Zneg k =>
      let q := Z.shiftr (Zpos m) (Zpos k) in
      let r := Z.land (Zpos m) (Z.ones (Zpos k)) in
      let half := Z.shiftl 1 (Zpos k - 1) in
      match r ?= half with
      | Lt => q
      | Gt => q + 1
      | Eq => if Z.even q then q else q + 1
      end
  | _ => Z.shiftl (Zpos m) e
  end.

Definition round (x : float) : result Z :=
  match Prim2SF x with
  | S754_nan => Raise ValueError
  | S754_infinity _ => Raise OverflowError
  | S754_zero _ => Ok 0
  | S754_finite s m e => Ok (cond_Zopp s (round_mag m e))
  end.

(** [float(n)] for an int: the nearest binary64 value. *)
Definition float_of_int (n : Z) : float :=
  SF2Prim (binary_normalize prec emax n 0 false).

(** [a / b] on floats: [ZeroDivisionError] when [b == 0.0]. *)
Definition truediv (a b : float) : result float :=
  if (b =? 0)%float then Raise ZeroDivisionError else Ok (a / b)%float.

(** [math.fmod]: the exact remainder, with the sign of [x]. *)
Definition fmod (x y : float) : float :=
  match Prim2SF x, Prim2SF y with
  | S754_nan, _ | _, S754_nan => nan
  | S754_infinity _, _ => nan
  | _, S754_zero _ => nan
  | _, S754_infinity _ => x
  | S754_zero _, _ => x
  | S754_finite sx mx ex, S754_finite _ my ey =>
      let e := Z.min ex ey in
      let r := Z.shiftl (Zpos mx) (ex - e) mod Z.shiftl (Zpos my) (ey - e) in
      if r =? 0 then (if sx then neg_zero else zero)
      else SF2Prim (binary_normalize prec emax (cond_Zopp sx r) e false)
  end.

(** [math.floor] as a float (the C function). *)
Definition floor (x : float) : float :=
  match Prim2SF x with
  | S754_finite s m (Zneg k) =>
      let q := Z.shiftr (Zpos m) (Zpos k) in
      let exact := Z.land (Zpos m) (Z.ones (Zpos k)) =? 0 in
      let n := if s then (if exact then - q else - q - 1) else q in
      if n =? 0 then zero else float_of_int n
  | _ => x
  end.

Definition copysign (x y : float) : float :=
  if get_sign y then (- abs x)%float else abs x.

(** [a // b] on floats, following [_float_div_mod] of CPython. *)
Definition floordiv (vx wx : float) : result float :=
  if (wx =? 0)%float then Raise ZeroDivisionError
  else
    let md := fmod vx wx in
    let div0 := ((vx - md) / wx)%float in
    let div :=
      if truthy md && xorb (wx <? 0)%float (md <? 0)%float
      then (div0 - 1)%float else div0 in
    if truthy div then
      let fl := floor div in
      Ok (if (0.5 <? div - fl)%float then (fl + 1)%float else fl)
    else Ok (copysign 0 (vx / wx)).

(** Exact comparison of a float with an int, as [float_richcompare] does;
    [None] when the float is NaN. *)
Definition compare_int (x : float) (n : Z) : option comparison :=
  match Prim2SF x with
  | S754_nan => None
  | S754_infinity s => Some (if s then Lt else Gt)
  | S754_zero _ => Some (0 ?= n)
  | S754_finite s m e =>
      match e with
      | Zneg k => Some (cond_Zopp s (Zpos m) ?= Z.shiftl n (Zpos k))
      | _ => Some (cond_Zopp s (Z.shiftl (Zpos m) e) ?= n)
      end
  end.

(** [x <= n] and [n <= x] for a float [x] and an int [n]. *)
Definition le_float_int (x : float) (n : Z) : bool :=
  match compare_int x n with
  | Some Lt | Some Eq => true
  | _ => false
  end.

Definition le_int_float (n : Z) (x : float) : bool :=
  match compare_int x n with
  | Some Gt | Some Eq => true
  | _ => false
  end.

(** ** [range(start, stop, step)] with a positive step *)

Definition range (start stop step : Z) : list Z :=
  map (fun i => start + Z.of_nat i * step)
      (seq 0 (Z.to_nat ((stop - start + step - 1) / step))).

(** ** [enumerate] *)

Fixpoint enumerate_from {A : Type} (i : Z) (l : list A) : list (Z * A) :=
  match l with
  | [] => []
  | x :: t => (i, x) :: enumerate_from (i + 1) t
  end.

Definition enumerate {A : Type} (l : list A) : list (Z * A) :=
  enumerate_from 0 l.

(** ** Slices and [next] *)

(** [l[n:]] for [n >= 0]. *)
Definition slice_from {A : Type} (n : nat) (l : list A) : list A := skipn n l.

(** [l[-n:]] for [n > 0]: the last [n] items, or all of [l] when it is
    shorter. *)
Definition slice_last {A : Type} (n : nat) (l : list A) : list A :=
  skipn (List.length l - n) l.

(** [next((f(p) for p in l if c(p)), None)]. *)
Definition next_or_none {A B : Type} (c : A -> bool) (f : A -> B) (l : list A)
  : option B :=
  option_map f (find c l).

End Py.

Declare Scope py_scope.
Delimit Scope py_scope with py.
Notation "x <- c ;; k" := (Py.bind c (fun x => k))
  (at level 61, c at next level, right associativity) : py_scope.
Notation "' pat <- c ;; k" := (Py.bind c (fun x => match x with pat => k end))
  (at level 61, pat pattern, c at next level, right associativity) : py_scope.

(* ================================================================== *)
(** * [datetime]: dates, aware datetimes, ISO 8601 text *)
(* ================================================================== *)

Module Datetime.

Record date : Type := mkdate { year : Z; month : Z; day : Z }.

(** A [datetime]; [utcoffset] is [None] for a naive value and the offset of
    its fixed-offset [tzinfo], in microseconds, for an aware one (what
    [astimezone()] and [fromisoformat] attach).  The name of the zone plays
    no part in comparisons or in [isoformat], and is not kept. *)
Record datetime : Type := mkdatetime {
  dt_date : date;
  hour : Z;
  minute : Z;
  second : Z;
  microsecond : Z;
  utcoffset : option Z
}.

Definition is_leap (y : Z) : bool :=
  (y mod 4 =? 0) && (negb (y mod 100 =? 0) || (y mod 400 =? 0)).

Definition days_in_month (y m : Z) : Z :=
  if m =? 2 then (if is_leap y then 29 else 28)
  else if (m =? 4) || (m =? 6) || (m =? 9) || (m =? 11) then 30
  else 31.

(** The ranges the constructors enforce ([ValueError] otherwise). *)
Definition valid_date (d : date) : bool :=
  (1 <=? year d) && (year d <=? 9999) &&
  (1 <=? month d) && (month d <=? 12) &&
  (1 <=? day d) && (day d <=? days_in_month (year d) (month d)).

Definition valid_offset (o : option Z) : bool :=
  match o with
  | None => true
  | Some s => (-86400000000 <? s) && (s <? 86400000000)
  end.

Definition valid_datetime (t : datetime) : bool :=
  valid_date (dt_date t) &&
  (0 <=? hour t) && (hour t <=? 23) &&
  (0 <=? minute t) && (minute t <=? 59) &&
  (0 <=? second t) && (second t <=? 59) &&
  (0 <=? microsecond t) && (microsecond t <=? 999999) &&
  valid_offset (utcoffset t).

(** ** Ordering *)

Definition days_before_year (y : Z) : Z :=
  let p := y - 1 in p * 365 + p / 4 - p / 100 + p / 400.

Definition days_before_month (y m : Z) : Z :=
  fold_left Z.add (map (days_in_month y) (Py.range 1 m 1)) 0.

Definition toordinal (d : date) : Z :=
  days_before_year (year d) + days_before_month (year d) (month d) + day d.

(** Microseconds since the epoch of ordinals, in the datetime's own zone. *)
Definition wall_micros (t : datetime) : Z :=
  (((toordinal (dt_date t) * 24 + hour t) * 60 + minute t) * 60 + second t)
    * 1000000 + microsecond t.

(** [a >= b]: naive values compare by wall clock, aware ones by instant,
    and a mixed comparison raises [TypeError]. *)
Definition ge (a b : datetime) : Py.result bool :=
  match utcoffset a, utcoffset b with
  | None, None => Py.Ok (wall_micros b <=? wall_micros a)
  | Some oa, Some ob =>
      Py.Ok (wall_micros b - ob <=? wall_micros a - oa)
  | _, _ => Py.Raise Py.TypeError
  end.

Definition date_eqb (a b : date) : bool :=
  (year a =? year b) && (month a =? month b) && (day a =? day b).

(** [d + timedelta(days=1)]; [OverflowError] past 9999-12-31. *)
Definition next_day (d : date) : Py.result date :=
  if day d <? days_in_month (year d) (month d)
  then Py.Ok (mkdate (year d) (month d) (day d + 1))
  else if month d <? 12 then Py.Ok (mkdate (year d) (month d + 1) 1)
  else if year d <? 9999 then Py.Ok (mkdate (year d + 1) 1 1)
  else Py.Raise Py.OverflowError.

(** ** Formatting *)

Definition digit_char (d : Z) : ascii := ascii_of_N (Z.to_N (48 + d mod 10)).

(** ["%0nd" % z] for [0 <= z < 10^n], the only values a date or time field
    takes: [n] decimal digits, most significant first. *)
Fixpoint fixed_digits (n : nat) (z : Z) : string :=
  match n with
  | O => EmptyString
  | S n' => (fixed_digits n' (z / 10) ++ String (digit_char z) EmptyString)%string
  end.

(** [date.isoformat()], also [str(date)]: [YYYY-MM-DD]. *)
Definition date_isoformat (d : date) : string :=
  (fixed_digits 4 (year d) ++ "-" ++ fixed_digits 2 (month d) ++ "-"
     ++ fixed_digits 2 (day d))%string.

(** The UTC offset is kept in microseconds, as a [timedelta] has them. *)
Definition format_offset (o : option Z) : string :=
  match o with
  | None => ""%string
  | Some off =>
      let sign := if off <? 0 then "-"%string else "+"%string in
      let a := Z.abs off in
      let hh := a / 3600000000 in
      let mm := (a mod 3600000000) / 60000000 in
      let ss := (a mod 60000000) / 1000000 in
      let us := a mod 1000000 in
      let frac :=
        if us =? 0 then ""%string else ("." ++ fixed_digits 6 us)%string in
      let secs :=
        if (ss =? 0) && (us =? 0) then ""%string
        else (":" ++ fixed_digits 2 ss ++ frac)%string in
      (sign ++ fixed_digits 2 hh ++ ":" ++ fixed_digits 2 mm ++ secs)%string
  end.

(** [datetime.isoformat()]:
    [YYYY-MM-DDTHH:MM:SS[.ffffff][+HH:MM[:SS]]]. *)
Definition isoformat (t : datetime) : string :=
  let frac :=
    if microsecond t =? 0 then ""%string
    else ("." ++ fixed_digits 6 (microsecond t))%string in
  (date_isoformat (dt_date t) ++ "T"
     ++ fixed_digits 2 (hour t) ++ ":" ++ fixed_digits 2 (minute t) ++ ":"
     ++ fixed_digits 2 (second t) ++ frac
     ++ format_offset (utcoffset t))%string.

(** ** Parsing *)

Definition digit_val (c : ascii) : option Z :=
  let n := Z.of_N (N_of_ascii c) in
  if (48 <=? n) && (n <=? 57) then Some (n - 48) else None.

(** [n] decimal digits at the head of [s]: their value and what follows. *)
Fixpoint parse_digits (n : nat) (acc : Z) (s : string) : option (Z * string) :=
  match n with
  | O => Some (acc, s)
  | S n' =>
      match s with
      | EmptyString => None
      | String c s' =>
          match digit_val c with
          | Some d => parse_digits n' (10 * acc + d) s'
          | None => None
          end
      end
  end.

Definition expect (c : ascii) (s : string) : option string :=
  match s with
  | String c' s' => if Ascii.eqb c c' then Some s' else None
  | EmptyString => None
  end.

(** [s.find(c)]: the text before and after the first [c]. *)
Fixpoint split_at (c : ascii) (s : string) : option (string * string) :=
  match s with
  | EmptyString => None
  | String c' s' =>
      if Ascii.eqb c c' then Some (EmptyString, s')
      else match split_at c s' with
           | Some (a, b) => Some (String c' a, b)
           | None => None
           end
  end.

(** [_parse_isoformat_date]: [YYYY-MM-DD] at the head of the string. *)
Definition parse_isoformat_date (s : string) : option (Z * Z * Z * string) :=
  match parse_digits 4 0 s with
  | Some (y, s1) =>
      match expect "-" s1 with
      | Some s2 =>
          match parse_digits 2 0 s2 with
          | Some (m, s3) =>
              match expect "-" s3 with
              | Some s4 =>
                  match parse_digits 2 0 s4 with
                  | Some (d, s5) => Some (y, m, d, s5)
                  | None => None
                  end
              | None => None
              end
          | None => None
          end
      | None => None
      end
  | None => None
  end.

(** The fraction after the seconds: nothing, or [.fff] or [.ffffff]. *)
Definition parse_fraction (s : string) : option Z :=
  match s with
  | EmptyString => Some 0
  | String c f =>
      if Ascii.eqb c "." then
        if (String.length f =? 3)%nat then
          match parse_digits 3 0 f with
          | Some (v, _) => Some (v * 1000)
          | None => None
          end
        else if (String.length f =? 6)%nat then
          match parse_digits 6 0 f with
          | Some (v, _) => Some v
          | None => None
          end
        else None
      else None
  end.

(** [_parse_hh_mm_ss_ff]: [HH[:MM[:SS[.fff[fff]]]]]. *)
Definition parse_hh_mm_ss_ff (s : string) : option (Z * Z * Z * Z) :=
  match parse_digits 2 0 s with
  | None => None
  | Some (hh, EmptyString) => Some (hh, 0, 0, 0)
  | Some (hh, s1) =>
      match expect ":" s1 with
      | None => None
      | Some s2 =>
          match parse_digits 2 0 s2 with
          | None => None
          | Some (mm, EmptyString) => Some (hh, mm, 0, 0)
          | Some (mm, s3) =>
              match expect ":" s3 with
              | None => None
              | Some s4 =>
                  match parse_digits 2 0 s4 with
                  | None => None
                  | Some (ss, s5) =>
                      match parse_fraction s5 with
                      | Some us => Some (hh, mm, ss, us)
                      | None => None
                      end
                  end
              end
          end
      end
  end.

(** [_parse_isoformat_time]: the time, then an optional offset introduced
    by the first ["-"], or else the first ["+"], whose text has length 5, 8
    or 15. *)
Definition split_tz (tstr : string) : option (bool * string * string) :=
  match split_at "-" tstr with
  | Some (a, b) => Some (true, a, b)
  | None =>
      match split_at "+" tstr with
      | Some (a, b) => Some (false, a, b)
      | None => None
      end
  end.

Definition parse_isoformat_time (tstr : string)
  : option (Z * Z * Z * Z * option Z) :=
  match split_tz tstr with
  | None =>
      match parse_hh_mm_ss_ff tstr with
      | Some c => Some (c, None)
      | None => None
      end
  | Some (neg, timestr, tzstr) =>
      match parse_hh_mm_ss_ff timestr with
      | None => None
      | Some c =>
          let n := String.length tzstr in
          if ((n =? 5) || (n =? 8) || (n =? 15))%nat then
            match parse_hh_mm_ss_ff tzstr with
            | Some (h, m, s, us) =>
                let td := ((h * 60 + m) * 60 + s) * 1000000 + us in
                Some (c, Some (if neg then - td else td))
            | None => None
            end
          else None
      end
  end.

(** [datetime.fromisoformat(s)]: the date, one separator character, the
    time; the constructor then checks the ranges.  Anything else is a
    [ValueError]. *)
Definition fromisoformat (s : string) : Py.result datetime :=
  match parse_isoformat_date s with
  | None => Py.Raise Py.ValueError
  | Some (y, m, d, rest) =>
      let tstr := match rest with
                  | EmptyString => EmptyString
                  | String _ t => t
                  end in
      let comps := match tstr with
                   | EmptyString => Some (0, 0, 0, 0, None)
                   | _ => parse_isoformat_time tstr
                   end in
      match comps with
      | None => Py.Raise Py.ValueError
      | Some (hh, mm, ss, us, tz) =>
          let t := mkdatetime (mkdate y m d) hh mm ss us tz in
          if valid_datetime t then Py.Ok t else Py.Raise Py.ValueError
      end
  end.

End Datetime.

(* ================================================================== *)
(** * Data shared by the two dashboards *)
(* ================================================================== *)

(** A price point: the dict built by [fetch_agile_prices].  [date] is [None]
    when the key is absent, which only a cache file written without it can
    cause. *)
Record price_point : Type := mkpoint {
  hour : Z;
  minute : Z;
  price : float;
  timestamp : Datetime.datetime;
  date : option Datetime.date
}.

(** An item of the cache file, as [json.load] returns it. *)
Record cache_item : Type := mkcache {
  c_hour : Z;
  c_minute : Z;
  c_price : float;
  c_timestamp : string;
  c_date : option string
}.

Definition color : Type := Z * Z * Z.

Inductive font : Type :=
| font_xlarge | font_large | font_medium | font_small | font_tiny.

(** The strings handed to [draw.text]. *)
Inductive text : Type :=
| Str (s : string)                (* a literal *)
| Fixed (digits : nat) (x : float) (* f"{x:.1f}", f"{x:.0f}" *)
| Int (n : Z)                     (* f"{n}", str(n) *)
| IntP (n : Z)                    (* f"{n}p" *)
| Clock (h m : Z).                (* now.strftime("%H:%M") *)

(** The calls made on the [ImageDraw] object. *)
Inductive draw_op : Type :=
| DrawText (xy : Z * Z) (t : text) (f : font) (fill : color)
| DrawRectangle (p0 p1 : Z * Z) (fill : color)
| DrawLine (p0 p1 : Z * Z) (fill : color) (width : Z).

Definition WIDTH : Z := 320.
Definition HEIGHT : Z := 240.

Definition BG_COLOR : color := (17, 24, 39).
Definition TEXT_COLOR : color := (255, 255, 255).
Definition BLUE : color := (59, 130, 246).
Definition PURPLE : color := (168, 85, 247).
Definition ORANGE : color := (251, 146, 60).
Definition GRAY : color := (107, 114, 128).
Definition GREEN : color := (34, 197, 94).
Definition RED : color := (239, 68, 68).

(** [get_price_color], the same helper in both files. *)
Definition get_price_color (price : float) : color :=
  if (price <? 10)%float then GREEN
  else if (price <? 20)%float then BLUE
  else if (price <? 35)%float then (234, 179, 8)
  else RED.

(** The current half-hour slot test, written the same way wherever it
    occurs: [p['hour'] == current_hour and
    p['minute'] == current_minute // 30 * 30]. *)
Definition in_current_slot (now : Datetime.datetime) (p : price_point) : bool :=
  (hour p =? Datetime.hour now) && (minute p =? Datetime.minute now / 30 * 30).

(** [draw.textbbox(xy, text, font)]: the font metrics, [(left, top, right,
    bottom)]; they depend on the font file found at start-up. *)
Definition metrics : Type := Z * Z -> text -> font -> Z * Z * Z * Z.

(** [draw_price_with_small_p]: the number with one decimal, then a small "p"
    aligned to the bottom of the numerals. *)
Definition draw_price_with_small_p (textbbox : metrics) (x y : Z) (price : float)
    (font_main font_small : font) (c : color) : list draw_op :=
  let price_str := Fixed 1 price in
  let '(_, _, main_r, main_b) := textbbox (x, y) price_str font_main in
  let '(_, p_t, _, p_b) := textbbox (0, 0) (Str "p") font_small in
  let p_x := main_r + 1 in
  let p_y := main_b - (p_b - p_t) - 2 in
  [ DrawText (x, y) price_str font_main c;
    DrawText (p_x, p_y) (Str "p") font_small c ].

(** The title and the clock, drawn first by both dashboards. *)
Definition draw_header (now : Datetime.datetime) : list draw_op :=
  [ DrawText (5, 5) (Str "Octopus Energy") font_medium TEXT_COLOR;
    DrawText (WIDTH - 60, 5) (Clock (Datetime.hour now) (Datetime.minute now))
             font_medium TEXT_COLOR ].

Definition draw_loading : list draw_op :=
  [ DrawText (10, HEIGHT / 2) (Str "Loading...") font_medium TEXT_COLOR ].

(** The layout constants of the price boxes and the chart. *)
Definition y_offset : Z := 30.
Definition box_height : Z := 50.
Definition box_half_height : Z := box_height / 2.
Definition chart_y : Z := y_offset + box_height + 10.
Definition chart_height : Z := HEIGHT - chart_y - 20.

(** The Now, Min, Max and Gas boxes: the same statements in both files. *)
Definition draw_now_box (textbbox : metrics) (current_price : option float)
  : list draw_op :=
  let current_color :=
    match current_price with
    | Some c => if Py.truthy c then get_price_color c else BLUE
    | None => BLUE
    end in
  [ DrawRectangle (5, y_offset) (WIDTH / 3 - 2, y_offset + box_height) current_color;
    DrawText (10, y_offset + 3) (Str "Now") font_small (200, 200, 200) ]
  ++ match current_price with
     | Some c =>
         if Py.truthy c
         then draw_price_with_small_p textbbox 10 (y_offset + 16) c
                font_xlarge font_medium TEXT_COLOR
         else []
     | None => []
     end.

Definition draw_min_max_boxes (textbbox : metrics) (min_price max_price : float)
  : list draw_op :=
  [ DrawRectangle (WIDTH / 3 + 2, y_offset)
      (2 * WIDTH / 3 - 2, y_offset + box_half_height - 1) (get_price_color min_price);
    DrawText (WIDTH / 3 + 7, y_offset + 3) (Str "Min") font_small (200, 200, 200) ]
  ++ draw_price_with_small_p textbbox (WIDTH / 3 + 35) (y_offset + 3) min_price
       font_large font_small TEXT_COLOR
  ++ [ DrawRectangle (WIDTH / 3 + 2, y_offset + box_half_height + 1)
         (2 * WIDTH / 3 - 2, y_offset + box_height) (get_price_color max_price);
       DrawText (WIDTH / 3 + 7, y_offset + box_half_height + 3) (Str "Max")
         font_small (200, 200, 200) ]
  ++ draw_price_with_small_p textbbox (WIDTH / 3 + 35)
       (y_offset + box_half_height + 3) max_price font_large font_small TEXT_COLOR.

Definition draw_gas_box (textbbox : metrics) (gas_today : option float)
  : list draw_op :=
  [ DrawRectangle (2 * WIDTH / 3 + 2, y_offset) (WIDTH - 5, y_offset + box_height) ORANGE;
    DrawText (2 * WIDTH / 3 + 7, y_offset + 3) (Str "Gas") font_small (255, 220, 200) ]
  ++ match gas_today with
     | Some g =>
         if Py.truthy g
         then draw_price_with_small_p textbbox (2 * WIDTH / 3 + 7) (y_offset + 16) g
                font_xlarge font_medium TEXT_COLOR
         else []
     | None => []
     end.

(** The value range of the chart:
    [actual_min = min(prices)], [chart_min_price = min(0, actual_min)],
    [chart_max_price = max(prices)] and
    [price_range = chart_max_price - chart_min_price
                   if chart_max_price != chart_min_price else 1]. *)
Record chart_range : Type := mkrange {
  chart_min_price : float;
  chart_max_price : float;
  price_range : float
}.

Definition compute_range (display_prices : list price_point) : Py.result chart_range :=
  (actual_min <- Py.min (map price display_prices) ;;
   let cmin := Py.min2 0 actual_min in
   cmax <- Py.max (map price display_prices) ;;
   let rng := if Py.ne cmax cmin then (cmax - cmin)%float else 1%float in
   Py.Ok (mkrange cmin cmax rng))%py.

(** [int((v - chart_min_price) / price_range * chart_height)], the height in
    pixels of the value [v] above the bottom of the chart. *)
Definition scaled_height (r : chart_range) (v : float) : Py.result Z :=
  (q <- Py.truediv (v - chart_min_price r)%float (price_range r) ;;
   Py.int (q * Py.float_of_int chart_height)%float)%py.

(** The dashed vertical line of the current slot:
    [for dash_y in range(chart_y, chart_y + chart_height, 6)]. *)
Definition draw_dashes (line_x : Z) : list draw_op :=
  map (fun dash_y => DrawLine (line_x, dash_y) (line_x, dash_y + 3) (220, 220, 220) 1)
      (Py.range chart_y (chart_y + chart_height) 6).

(** The hour label under a bar, every four hours. *)
Definition draw_hour_label (x bar_width : Z) (p : price_point) (f : font)
  : list draw_op :=
  if (minute p =? 0) && ((hour p mod 4 =? 0) || (hour p =? 0)) then
    let text_offset := if hour p <? 10 then 3 else 5 in
    [ DrawText (x + bar_width / 2 - text_offset, chart_y + chart_height + 2)
        (Int (hour p)) f TEXT_COLOR ]
  else [].

(** One iteration of the loop over [enumerate(display_prices)] computes the
    geometry of a bar and whether it carries the current-slot marker. *)
Record bar : Type := mkbar {
  bar_index : Z;
  bar_point : price_point;
  bar_x : Z;
  bar_y : Z;
  bar_right : Z;
  bar_bottom : Z;
  bar_fill : color;
  is_current : bool
}.

Definition layout_bar (now : Datetime.datetime) (r : chart_range)
    (chart_x bar_width tomorrow_start_idx : Z) (ip : Z * price_point)
  : Py.result bar :=
  let '(i, price_data) := ip in
  let x := chart_x + i * bar_width in
  (bar_height <- scaled_height r (price price_data) ;;
   let y := chart_y + chart_height - bar_height in
   Py.Ok (mkbar i price_data x y (x + bar_width - 2) (chart_y + chart_height)
            (get_price_color (price price_data))
            (in_current_slot now price_data && (i <? tomorrow_start_idx))))%py.

Definition layout_bars (now : Datetime.datetime) (r : chart_range)
    (chart_x bar_width tomorrow_start_idx : Z) (display_prices : list price_point)
  : Py.result (list bar) :=
  Py.mapM (layout_bar now r chart_x bar_width tomorrow_start_idx)
          (Py.enumerate display_prices).

(** ... and draws the bar, the marker and the hour label. *)
Definition draw_bar (bar_width : Z) (label_font : font) (b : bar) : list draw_op :=
  [ DrawRectangle (bar_x b, bar_y b) (bar_right b, bar_bottom b) (bar_fill b) ]
  ++ (if is_current b then draw_dashes (bar_x b + bar_width / 2) else [])
  ++ draw_hour_label (bar_x b) bar_width (bar_point b) label_font.

Definition draw_bars (now : Datetime.datetime) (r : chart_range)
    (chart_x bar_width tomorrow_start_idx : Z) (label_font : font)
    (display_prices : list price_point) : Py.result (list draw_op) :=
  (bars <- layout_bars now r chart_x bar_width tomorrow_start_idx display_prices ;;
   Py.Ok (flat_map (draw_bar bar_width label_font) bars))%py.

(* ================================================================== *)
(** * [dashboard.py]: the continuous dashboard *)
(* ================================================================== *)

Module Dashboard.

(** ** The per-day cache of [fetch_agile_prices]

    [json.dump] followed by [json.load] returns the items it was given, so
    the cache file is modelled by the list of its items. *)

(** Lines 176-181: [timestamp] as ISO 8601 text, [date] as [str(date)]. *)
Definition to_cache_item (item : price_point) : Py.result cache_item :=
  match date item with
  | None => Py.Raise Py.KeyError
  | Some d =>
      Py.Ok (mkcache (hour item) (minute item) (price item)
               (Datetime.isoformat (timestamp item))
               (Some (Datetime.date_isoformat d)))
  end.

Definition save_cache (prices : list price_point) : Py.result (list cache_item) :=
  Py.mapM to_cache_item prices.

(** Lines 128-131: [timestamp] is parsed back and [date] is recomputed from
    it, whatever the file says. *)
Definition from_cache_item (item : cache_item) : Py.result price_point :=
  (ts <- Datetime.fromisoformat (c_timestamp item) ;;
   Py.Ok (mkpoint (c_hour item) (c_minute item) (c_price item) ts
            (Some (Datetime.dt_date ts))))%py.

Definition load_cache (cached_data : list cache_item) : Py.result (list price_point) :=
  Py.mapM from_cache_item cached_data.

(** ** [draw_dashboard] *)

Definition chart_width : Z := WIDTH - 35.
Definition chart_x : Z := 30.

Definition has_tomorrow (tomorrow_prices : list price_point) : bool :=
  match tomorrow_prices with
  | [] => false
  | _ :: _ => true
  end.

(** Lines 311-313: with tomorrow's data and at least 24 points today,
    [today_prices = today_prices[24:]]. *)
Definition trim_today (today_prices tomorrow_prices : list price_point)
  : list price_point :=
  if has_tomorrow tomorrow_prices && (24 <=? Z.of_nat (List.length today_prices))
  then Py.slice_from 24 today_prices
  else today_prices.

(** Line 316. *)
Definition display_prices (today_prices tomorrow_prices : list price_point)
  : list price_point :=
  trim_today today_prices tomorrow_prices ++ tomorrow_prices.

(** Lines 319-323, over [all_today], the copy taken before trimming. *)
Definition current_price (now : Datetime.datetime) (all_today : list price_point)
  : option float :=
  Py.next_or_none (in_current_slot now) price all_today.

Definition min_price (all_today : list price_point) : Py.result float :=
  Py.min (map price all_today).

Definition max_price (all_today : list price_point) : Py.result float :=
  Py.max (map price all_today).

(** Line 389. *)
Definition tomorrow_start_idx (today_prices tomorrow_prices : list price_point) : Z :=
  Z.of_nat (List.length (trim_today today_prices tomorrow_prices)).

(** Lines 401-412: the gridlines that are drawn, as
    [(price_level, y_pos)]. *)
Definition gridline (r : chart_range) (price_level : Z) : Py.result (list (Z * Z)) :=
  if Py.le_float_int (chart_min_price r) price_level then
    (h <- scaled_height r (Py.float_of_int price_level) ;;
     let y_pos := chart_y + chart_height - h in
     if (chart_y <=? y_pos) && (y_pos <=? chart_y + chart_height)
     then Py.Ok [(price_level, y_pos)]
     else Py.Ok [])%py
  else Py.Ok [].

Definition gridlines (r : chart_range) : Py.result (list (Z * Z)) :=
  (top <- Py.int (chart_max_price r) ;;
   ls <- Py.mapM (gridline r) (Py.range 0 (top + 10) 10) ;;
   Py.Ok (List.concat ls))%py.

Definition draw_gridline (g : Z * Z) : list draw_op :=
  let '(price_level, y_pos) := g in
  [ DrawLine (chart_x, y_pos) (chart_x + chart_width, y_pos) (100, 110, 130) 1;
    DrawText (5, y_pos - 6) (Int price_level) font_tiny (150, 150, 160) ].

(** Lines 450-471: the "Tmrw" label and tomorrow's maximum. *)
Definition draw_tomorrow_labels (textbbox : metrics) (tomorrow_start_x : Z)
    (tomorrow_prices : list price_point) : Py.result (list draw_op) :=
  (tomorrow_max <- Py.max (map price tomorrow_prices) ;;
   n <- Py.round tomorrow_max ;;
   let chart_right := chart_x + chart_width in
   let '(ml, _, mr, _) := textbbox (0, 0) (Str "Max:") font_small in
   let max_label_x := chart_right - (mr - ml) - 2 in
   let '(pl, _, pr, _) := textbbox (0, 0) (IntP n) font_large in
   let price_x := chart_right - (pr - pl) - 2 in
   Py.Ok [ DrawText (tomorrow_start_x + 3, chart_y + 5) (Str "Tmrw") font_medium
             (230, 230, 240);
           DrawText (max_label_x, chart_y + 5) (Str "Max:") font_small (230, 230, 240);
           DrawText (price_x, chart_y + 16) (IntP n) font_large
             (get_price_color tomorrow_max) ])%py.

(** Lines 376-471: the chart, for a non-empty display window. *)
Definition draw_chart (textbbox : metrics) (now : Datetime.datetime)
    (today_prices tomorrow_prices : list price_point) : Py.result (list draw_op) :=
  let display := display_prices today_prices tomorrow_prices in
  match display with
  | [] => Py.Ok []
  | _ :: _ =>
      (r <- compute_range display ;;
       let num_bars := Z.of_nat (List.length display) in
       let bar_width := chart_width / num_bars in
       let start_idx := tomorrow_start_idx today_prices tomorrow_prices in
       let tomorrow_start_x := chart_x + start_idx * bar_width in
       let spans := has_tomorrow tomorrow_prices && (start_idx <? num_bars) in
       let background :=
         if spans
         then [ DrawRectangle (tomorrow_start_x, chart_y)
                  (chart_x + chart_width, chart_y + chart_height) (30, 40, 60) ]
         else [] in
       grid <- gridlines r ;;
       bars <- draw_bars now r chart_x bar_width start_idx font_small display ;;
       labels <- (if spans
                  then draw_tomorrow_labels textbbox tomorrow_start_x tomorrow_prices
                  else Py.Ok []) ;;
       Py.Ok (background ++ flat_map draw_gridline grid ++ bars ++ labels))%py
  end.

(** Lines 362-368: tomorrow's gas price in the corner of the gas box. *)
Definition draw_gas_tomorrow (textbbox : metrics) (tomorrow_prices : list price_point)
    (gas_tomorrow : option float) : list draw_op :=
  match gas_tomorrow with
  | Some g =>
      if has_tomorrow tomorrow_prices && Py.truthy g then
        let gas_box_right := WIDTH - 8 in
        let '(tl, _, tr, _) := textbbox (0, 0) (Str "Tmrw") font_tiny in
        draw_price_with_small_p textbbox (gas_box_right - 28) (y_offset + 3) g
          font_medium font_tiny (255, 220, 200)
        ++ [ DrawText (gas_box_right - (tr - tl), y_offset + 18) (Str "Tmrw")
               font_tiny (200, 190, 180) ]
      else []
  | None => []
  end.

(** [draw_dashboard]: the drawing calls made before [disp.display(img)]. *)
Definition draw_dashboard (textbbox : metrics) (now : Datetime.datetime)
    (today_prices tomorrow_prices : list price_point)
    (gas_today gas_tomorrow : option float) : Py.result (list draw_op) :=
  match today_prices with
  | [] => Py.Ok (draw_header now ++ draw_loading)
  | _ :: _ =>
      let all_today := today_prices in
      (lo <- min_price all_today ;;
       hi <- max_price all_today ;;
       chart <- draw_chart textbbox now today_prices tomorrow_prices ;;
       Py.Ok (draw_header now
                ++ draw_now_box textbbox (current_price now all_today)
                ++ draw_min_max_boxes textbbox lo hi
                ++ draw_gas_box textbbox gas_today
                ++ draw_gas_tomorrow textbbox tomorrow_prices gas_tomorrow
                ++ chart))%py
  end.

End Dashboard.

(* ================================================================== *)
(** * [dashboard-snap.py]: the snapshot variant *)
(* ================================================================== *)

Module Snap.

(** ** The cache of [fetch_agile_prices]: one file holds today's and
    tomorrow's points. *)

(** Lines 156-161. *)
Definition to_cache_item (item : price_point) : Py.result cache_item :=
  match date item with
  | None => Py.Raise Py.KeyError
  | Some d =>
      Py.Ok (mkcache (hour item) (minute item) (price item)
               (Datetime.isoformat (timestamp item))
               (Some (Datetime.date_isoformat d)))
  end.

Definition save_cache (prices : list price_point) : Py.result (list cache_item) :=
  Py.mapM to_cache_item prices.

(** Lines 113-117: [date] is parsed from its own text when the key is
    there. *)
Definition from_cache_item (item : cache_item) : Py.result price_point :=
  (ts <- Datetime.fromisoformat (c_timestamp item) ;;
   d <- match c_date item with
        | Some ds =>
            (dt <- Datetime.fromisoformat ds ;; Py.Ok (Some (Datetime.dt_date dt)))
        | None => Py.Ok None
        end ;;
   Py.Ok (mkpoint (c_hour item) (c_minute item) (c_price item) ts d))%py.

Definition load_cache (cached_data : list cache_item) : Py.result (list price_point) :=
  Py.mapM from_cache_item cached_data.

(** ** [draw_dashboard] *)

Record gas : Type := mkgas { gas_today : option float; gas_tomorrow : option float }.

Definition chart_left : Z := 20.
Definition chart_right : Z := WIDTH - 5.
Definition chart_width : Z := chart_right - chart_left.

(** Line 304 and line 324: [p.get('date', today) == today]. *)
Definition is_today (today : Datetime.date) (p : price_point) : bool :=
  match date p with
  | Some d => Datetime.date_eqb d today
  | None => true
  end.

(** Line 305: [p.get('date') == tomorrow]. *)
Definition is_tomorrow (tomorrow : Datetime.date) (p : price_point) : bool :=
  match date p with
  | Some d => Datetime.date_eqb d tomorrow
  | None => false
  end.

Definition all_today (today : Datetime.date) (agile_prices : list price_point)
  : list price_point :=
  filter (is_today today) agile_prices.

Definition tomorrow_prices (tomorrow : Datetime.date) (agile_prices : list price_point)
  : list price_point :=
  filter (is_tomorrow tomorrow) agile_prices.

(** Lines 310-311: noon of today, in the zone of today's first point. *)
Definition noon (today : Datetime.date) (first : price_point) : Datetime.datetime :=
  Datetime.mkdatetime today 12 0 0 0 (Datetime.utcoffset (timestamp first)).

(** Line 312: [[p for p in today_prices if p['timestamp'] >= noon]]. *)
Fixpoint from_noon (noon : Datetime.datetime) (l : list price_point)
  : Py.result (list price_point) :=
  match l with
  | [] => Py.Ok []
  | p :: t =>
      (keep <- Datetime.ge (timestamp p) noon ;;
       rest <- from_noon noon t ;;
       Py.Ok (if keep then p :: rest else rest))%py
  end.

(** Lines 308-317: the today part that is charted ([today_prices] after
    the branch) and the display window. *)
Definition reconcile (today : Datetime.date)
    (today_prices tomorrow_prices : list price_point)
  : Py.result (list price_point * list price_point) :=
  match tomorrow_prices, today_prices with
  | _ :: _, first :: _ =>
      (kept <- from_noon (noon today first) today_prices ;;
       Py.Ok (kept, kept ++ tomorrow_prices))%py
  | _ :: _, [] => Py.Ok (today_prices, tomorrow_prices)
  | [], _ => Py.Ok (today_prices, today_prices)
  end.

Definition has_tomorrow (tomorrow_prices : list price_point) : bool :=
  (0 <? Z.of_nat (List.length tomorrow_prices)).

(** Lines 325-332. *)
Definition current_price (now : Datetime.datetime) (all_today : list price_point)
  : option float :=
  Py.next_or_none (in_current_slot now) price all_today.

Definition min_price (all_today : list price_point) : Py.result float :=
  match all_today with
  | [] => Py.Ok 0%float
  | _ :: _ => Py.min (map price all_today)
  end.

Definition max_price (all_today : list price_point) : Py.result float :=
  match all_today with
  | [] => Py.Ok 0%float
  | _ :: _ => Py.max (map price all_today)
  end.

Definition tomorrow_max (tomorrow_prices : list price_point)
  : Py.result (option float) :=
  match tomorrow_prices with
  | [] => Py.Ok None
  | _ :: _ => (m <- Py.max (map price tomorrow_prices) ;; Py.Ok (Some m))%py
  end.

(** Line 404. *)
Definition tomorrow_start_idx (today_trimmed tomorrow_prices display : list price_point)
  : Z :=
  if has_tomorrow tomorrow_prices
  then Z.of_nat (List.length today_trimmed)
  else Z.of_nat (List.length display).

(** Lines 412-425: the gridlines that are drawn, as
    [(grid_price, y_pos)]. *)
Definition gridline_interval : Z := 10.

Definition min_grid (r : chart_range) : Py.result Z :=
  (q <- Py.floordiv (chart_min_price r) (Py.float_of_int gridline_interval) ;;
   n <- Py.int q ;;
   Py.Ok (n * gridline_interval))%py.

Definition max_grid (r : chart_range) : Py.result Z :=
  (q <- Py.floordiv (chart_max_price r) (Py.float_of_int gridline_interval) ;;
   n <- Py.int (q + 1)%float ;;
   Py.Ok (n * gridline_interval))%py.

Definition gridline (r : chart_range) (grid_price : Z) : Py.result (list (Z * Z)) :=
  if Py.le_float_int (chart_min_price r) grid_price
     && Py.le_int_float grid_price (chart_max_price r) then
    (h <- scaled_height r (Py.float_of_int grid_price) ;;
     let y_pos := chart_y + chart_height - h in
     if (chart_y <=? y_pos) && (y_pos <=? chart_y + chart_height)
     then Py.Ok [(grid_price, y_pos)]
     else Py.Ok [])%py
  else Py.Ok [].

Definition gridlines (r : chart_range) : Py.result (list (Z * Z)) :=
  (lo <- min_grid r ;;
   hi <- max_grid r ;;
   ls <- Py.mapM (gridline r) (Py.range lo (hi + 1) gridline_interval) ;;
   Py.Ok (List.concat ls))%py.

Definition draw_gridline (g : Z * Z) : list draw_op :=
  let '(grid_price, y_pos) := g in
  [ DrawLine (chart_left, y_pos) (chart_right, y_pos) (100, 110, 130) 1;
    DrawText (2, y_pos - 6) (Int grid_price) font_tiny GRAY ].

(** Lines 391-466: the chart, for a non-empty display window. *)
Definition draw_chart (now : Datetime.datetime)
    (today_trimmed tomorrow_prices display : list price_point)
  : Py.result (list draw_op) :=
  match display with
  | [] => Py.Ok []
  | _ :: _ =>
      (r <- compute_range display ;;
       let num_bars := Z.of_nat (List.length display) in
       let bar_width := chart_width / num_bars in
       let start_idx := tomorrow_start_idx today_trimmed tomorrow_prices display in
       let tomorrow_start_x := chart_left + start_idx * bar_width in
       let spans := has_tomorrow tomorrow_prices && (start_idx <? num_bars) in
       let background :=
         if spans
         then [ DrawRectangle (tomorrow_start_x, chart_y)
                  (chart_right, chart_y + chart_height) (30, 40, 60) ]
         else [] in
       grid <- gridlines r ;;
       bars <- draw_bars now r chart_left bar_width start_idx font_tiny display ;;
       let label :=
         if spans
         then [ DrawText (tomorrow_start_x + 3, chart_y + 5) (Str "Tmrw") font_tiny
                  (150, 150, 160) ]
         else [] in
       Py.Ok (background ++ flat_map draw_gridline grid ++ bars ++ label))%py
  end.

(** Lines 375-380: tomorrow's gas price in the corner of the gas box. *)
Definition draw_gas_tomorrow (textbbox : metrics) (tomorrow_prices : list price_point)
    (g : option float) : list draw_op :=
  match g with
  | Some v =>
      if has_tomorrow tomorrow_prices && Py.truthy v then
        let gas_box_right := WIDTH - 8 in
        DrawText (gas_box_right - 28, y_offset + 3) (Str "Tmrw:") font_tiny
          (100, 100, 100)
        :: draw_price_with_small_p textbbox (gas_box_right - 28) (y_offset + 11) v
             font_medium font_tiny (80, 80, 80)
      else []
  | None => []
  end.

(** Lines 468-481: tomorrow's maximum, in the corner of the chart. *)
Definition draw_tomorrow_max (textbbox : metrics) (tomorrow_prices : list price_point)
    (tmax : option float) : list draw_op :=
  match tmax with
  | Some v =>
      if has_tomorrow tomorrow_prices && Py.truthy v then
        let info_x := WIDTH - 30 in
        let info_y := chart_y + 5 in
        let tmrw_color := get_price_color v in
        let '(_, _, br, _) := textbbox (info_x - 5, info_y + 9) (Fixed 0 v) font_medium in
        [ DrawText (info_x, info_y) (Str "Max:") font_tiny (150, 150, 160);
          DrawText (info_x - 5, info_y + 9) (Fixed 0 v) font_medium tmrw_color;
          DrawText (br + 1, info_y + 11) (Str "p") font_tiny tmrw_color ]
      else []
  | None => []
  end.

(** [draw_dashboard]: the drawing calls made before the image is saved or
    displayed. *)
Definition draw_dashboard (textbbox : metrics) (now : Datetime.datetime)
    (agile_prices : list price_point) (gas_price : gas)
  : Py.result (list draw_op) :=
  let today := Datetime.dt_date now in
  (tomorrow <- Datetime.next_day today ;;
   match agile_prices with
   | [] => Py.Ok (draw_header now ++ draw_loading)
   | _ :: _ =>
       let today_prices := all_today today agile_prices in
       let tmrw := tomorrow_prices tomorrow agile_prices in
       '(today_trimmed, display) <- reconcile today today_prices tmrw ;;
       let everything_today := all_today today agile_prices in
       lo <- min_price everything_today ;;
       hi <- max_price everything_today ;;
       tmax <- tomorrow_max tmrw ;;
       chart <- draw_chart now today_trimmed tmrw display ;;
       Py.Ok (draw_header now
                ++ draw_now_box textbbox (current_price now everything_today)
                ++ draw_min_max_boxes textbbox lo hi
                ++ draw_gas_box textbbox (gas_today gas_price)
                ++ draw_gas_tomorrow textbbox tmrw (gas_tomorrow gas_price)
                ++ chart
                ++ draw_tomorrow_max textbbox tmrw tmax)
   end)%py.

End Snap.

(* ================================================================== *)
(** * Library calls of the fetch functions *)
(* ================================================================== *)

From Stdlib Require Import Sorted Permutation.

(** ** [str] methods and [fnmatch] *)

Module Text.

(** [s.replace(old, new)] for a non-empty [old]: every occurrence, found
    from left to right, without overlap.  [skip] counts the characters of
    the occurrence just found that are still to be dropped. *)
Fixpoint replace_from (old new : string) (skip : nat) (s : string) : string :=
  match s with
  | EmptyString => EmptyString
  | String c s' =>
      match skip with
      | S k => replace_from old new k s'
      | O =>
          if String.prefix old s
          then (new ++ replace_from old new (String.length old - 1) s')%string
          else String c (replace_from old new 0 s')
      end
  end.

Definition replace (old new s : string) : string := replace_from old new 0 s.

(** [s.startswith(p)], giving what follows the prefix. *)
Fixpoint strip_prefix (p s : string) : option string :=
  match p, s with
  | EmptyString, _ => Some s
  | String a p', String b s' => if Ascii.eqb a b then strip_prefix p' s' else None
  | String _ _, EmptyString => None
  end.

(** [s.endswith(suffix)]: some tail of [s] is [suffix]. *)
Fixpoint endswith (suffix s : string) : bool :=
  String.eqb s suffix
  || match s with
     | EmptyString => false
     | String _ s' => endswith suffix s'
     end.

(** [str(n)] for an int [n >= 0]: its decimal digits, most significant
    first.  [fuel] bounds their number. *)
Fixpoint decimal_digits (fuel : nat) (n : Z) : string :=
  match fuel with
  | O => EmptyString
  | S fuel' =>
      if n <? 10 then String (Datetime.digit_char n) EmptyString
      else (decimal_digits fuel' (n / 10)
              ++ String (Datetime.digit_char n) EmptyString)%string
  end.

Definition decimal (n : Z) : string :=
  decimal_digits (S (Z.to_nat (Z.log2 n))) n.

(** [s.zfill(width)] for a text without sign, which is what the format
    [0{width}d] does to the digits of an int [n >= 0]. *)
Fixpoint zeros (k : nat) : string :=
  match k with
  | O => EmptyString
  | S k' => String "0" (zeros k')
  end.

Definition zfill (width : nat) (s : string) : string :=
  (zeros (width - String.length s) ++ s)%string.

(** [fnmatch(name, prefix + "*" + suffix)]: [*] stands for any text, the empty
    one included. *)
Definition fnmatch_star (prefix suffix name : string) : bool :=
  match strip_prefix prefix name with
  | Some rest => endswith suffix rest
  | None => false
  end.

End Text.

(** ** [datetime.strptime(s, '%Y-%m-%d')] and dates in order *)

Module Strptime.

Definition between (lo hi c : ascii) : bool :=
  (N_of_ascii lo <=? N_of_ascii c)%N && (N_of_ascii c <=? N_of_ascii hi)%N.

Definition value (c : ascii) : Z := Z.of_N (N_of_ascii c) - 48.

(** An alternative of two characters, the first in [[a1, b1]] and the second
    in [[a2, b2]], or of one character in [[a1, b1]]: the value read and the
    text that follows, when the text starts that way. *)
Definition two (a1 b1 a2 b2 : ascii) (s : string) : list (Z * string) :=
  match s with
  | String c1 (String c2 rest) =>
      if between a1 b1 c1 && between a2 b2 c2
      then [(10 * value c1 + value c2, rest)] else []
  | _ => []
  end.

Definition one (a1 b1 : ascii) (s : string) : list (Z * string) :=
  match s with
  | String c1 rest => if between a1 b1 c1 then [(value c1, rest)] else []
  | EmptyString => []
  end.

(** A space and one character in [[a, b]]. *)
Definition spaced (a b : ascii) (s : string) : list (Z * string) :=
  match s with
  | String c1 (String c2 rest) =>
      if Ascii.eqb c1 " " && between a b c2 then [(value c2, rest)] else []
  | _ => []
  end.

(** [%m] is [(1[0-2]|0[1-9]|[1-9])] and [%d] is
    [(3[01]|[12]\d|0[1-9]|[1-9]| [1-9])]: the alternatives that match, in
    the order in which the regular expression tries them. *)
Definition month_alternatives (s : string) : list (Z * string) :=
  two "1" "1" "0" "2" s ++ two "0" "0" "1" "9" s ++ one "1" "9" s.

Definition day_alternatives (s : string) : list (Z * string) :=
  two "3" "3" "0" "1" s ++ two "1" "2" "0" "9" s ++ two "0" "0" "1" "9" s
  ++ one "1" "9" s ++ spaced "1" "9" s.

(** Backtracking: the first alternative after which the rest of the pattern
    matches. *)
Fixpoint first_success {A B : Type} (alts : list (A * string))
    (k : A -> string -> option B) : option B :=
  match alts with
  | [] => None
  | (a, rest) :: more =>
      match k a rest with
      | Some b => Some b
      | None => first_success more k
      end
  end.

(** The match of [\d\d\d\d-%m-%d] at the head of [s]: year, month, day and
    the text left over. *)
Definition match_ymd (s : string) : option (Z * Z * Z * string) :=
  match Datetime.parse_digits 4 0 s with
  | Some (y, s1) =>
      match Datetime.expect "-" s1 with
      | Some s2 =>
          first_success (month_alternatives s2) (fun m s3 =>
            match Datetime.expect "-" s3 with
            | Some s4 =>
                first_success (day_alternatives s4) (fun d s5 => Some (y, m, d, s5))
            | None => None
            end)
      | None => None
      end
  | None => None
  end.

(** [datetime.strptime(s, '%Y-%m-%d').date()]; [None] is the [ValueError] of
    a text that does not match, of unconverted data after the match, or of a
    date that does not exist.  The text is taken over the characters of
    code below 256, where the digits are ["0"] to ["9"]. *)
Definition ymd (s : string) : option Datetime.date :=
  match match_ymd s with
  | Some (y, m, d, EmptyString) =>
      let r := Datetime.mkdate y m d in
      if Datetime.valid_date r then Some r else None
  | _ => None
  end.

(** [a < b] on dates. *)
Definition date_ltb (a b : Datetime.date) : bool :=
  (Datetime.year a <? Datetime.year b)
  || ((Datetime.year a =? Datetime.year b)
      && ((Datetime.month a <? Datetime.month b)
          || ((Datetime.month a =? Datetime.month b)
              && (Datetime.day a <? Datetime.day b)))).

End Strptime.

(** ** [datetime.astimezone()] *)

Module Zone.

Definition MAXORDINAL : Z := 3652059.

Definition DAYS_IN_MONTH : list Z := [-1; 31; 28; 31; 30; 31; 30; 31; 31; 30; 31; 30; 31].
Definition DAYS_BEFORE_MONTH : list Z :=
  [-1; 0; 31; 59; 90; 120; 151; 181; 212; 243; 273; 304; 334].

(** [_ord2ymd]: the date of a proleptic Gregorian ordinal. *)
Definition ord2ymd (ordinal : Z) : Datetime.date :=
  let n := ordinal - 1 in
  let n400 := n / 146097 in
  let n := n mod 146097 in
  let year := n400 * 400 + 1 in
  let n100 := n / 36524 in
  let n := n mod 36524 in
  let n4 := n / 1461 in
  let n := n mod 1461 in
  let n1 := n / 365 in
  let n := n mod 365 in
  let year := year + n100 * 100 + n4 * 4 + n1 in
  if (n1 =? 4) || (n100 =? 4) then Datetime.mkdate (year - 1) 12 31
  else
    let leapyear := (n1 =? 3) && (negb (n4 =? 24) || (n100 =? 3)) in
    let month := Z.shiftr (n + 50) 5 in
    let preceding :=
      nth (Z.to_nat month) DAYS_BEFORE_MONTH 0
      + (if (2 <? month) && leapyear then 1 else 0) in
    if n <? preceding then
      let month := month - 1 in
      let preceding :=
        preceding - (nth (Z.to_nat month) DAYS_IN_MONTH 0
                     + (if (month =? 2) && leapyear then 1 else 0)) in
      Datetime.mkdate year month (n - preceding + 1)
    else Datetime.mkdate year month (n - preceding + 1).

(** The aware datetime whose wall clock is [us] microseconds after the
    epoch of ordinals, at the offset [off]; [None] is the [OverflowError] of
    a date outside the years 1 to 9999. *)
Definition of_micros (us off : Z) : option Datetime.datetime :=
  let days := us / 86400000000 in
  if (1 <=? days) && (days <=? MAXORDINAL)
  then Some (Datetime.mkdatetime (ord2ymd days)
               (us / 3600000000 mod 24) (us / 60000000 mod 60)
               (us / 1000000 mod 60) (us mod 1000000) (Some off))
  else None.

(** [d.astimezone()]: the instant of [d] in the local zone of the machine,
    with a fixed-offset [tzinfo].  [local_offset d] is the offset, in
    microseconds, that the platform gives for that instant (for a naive [d],
    read as local time): it depends on the zone database and is a parameter.
    [None] is the exception of an offset of a day or more, or of a date out
    of range on the way ([self - offset], then [tz.fromutc]). *)
Definition astimezone (local_offset : Datetime.datetime -> Z) (d : Datetime.datetime)
  : option Datetime.datetime :=
  let off := local_offset d in
  if (-86400000000 <? off) && (off <? 86400000000) then
    let mine := match Datetime.utcoffset d with
                | Some o => o
                | None => off
                end in
    let utc := Datetime.wall_micros d - mine in
    match of_micros utc 0 with
    | Some _ => of_micros (utc + off) off
    | None => None
    end
  else None.

End Zone.

(* ================================================================== *)
(** * The world of the fetch functions: files, the network, the clock *)
(* ================================================================== *)

(** ** The working directory *)

Module Os.

(** What a file holds: the JSON list of price items that [json.dump] wrote,
    the picture that [image.save] wrote, given by the drawing calls that made
    the image, or anything else.  On all but the first, [json.load] or the
    loop over its result raises. *)
Inductive content : Type :=
| Prices (items : list cache_item)
| Picture (calls : list draw_op)
| Other.

(** The regular files of the directory, by name; the first entry of a name
    is the file. *)
Definition files : Type := list (string * content).

Definition named (name : string) (entry : string * content) : bool :=
  String.eqb (fst entry) name.

Definition read (fs : files) (name : string) : option content :=
  option_map snd (find (named name) fs).

(** [os.path.exists]. *)
Definition path_exists (fs : files) (name : string) : bool :=
  match read fs name with
  | Some _ => true
  | None => false
  end.

(** [os.remove]. *)
Definition remove (fs : files) (name : string) : files :=
  filter (fun entry => negb (named name entry)) fs.

(** [open(name, 'w')] and the dump of [c]. *)
Definition write (fs : files) (name : string) (c : content) : files :=
  (name, c) :: remove fs name.

(** [glob.glob(prefix + "*" + suffix)]. *)
Definition glob (prefix suffix : string) (fs : files) : list string :=
  filter (Text.fnmatch_star prefix suffix) (map fst fs).

End Os.

(** ** The Octopus API *)

Module Requests.

(** An item of [results]. *)
Record rate : Type := mkrate { valid_from : string; value_inc_vat : float }.

(** [requests.get(url, params={'period_from': ..., 'period_to': ...},
    timeout=10)]. *)
Record request : Type := mkrequest {
  url : string;
  period_from : string;
  period_to : string
}.

(** What the call gives: an exception (no connection, timeout), or a
    response with its status code and, when the body is JSON with a list of
    rates under ['results'], that list. *)
Inductive response : Type :=
| ConnectionError
| Response (status_code : Z) (results : option (list rate)).

(** [response.raise_for_status()], which raises for the codes 400 to 599,
    then [response.json()['results']]. *)
Definition checked_results (r : response) : option (list rate) :=
  match r with
  | ConnectionError => None
  | Response status_code results =>
      if (400 <=? status_code) && (status_code <? 600) then None else results
  end.

End Requests.

(** ** State and exceptions *)

Module IO.

(** The machine: its clock ([datetime.now().date()]), its zone database and
    the API it reaches. *)
Record env : Type := mkenv {
  today : Datetime.date;
  local_offset : Datetime.datetime -> Z;
  api : Requests.request -> Requests.response
}.

(** What a call changes: the files, and the requests that were sent, oldest
    first. *)
Record world : Type := mkworld {
  files : Os.files;
  sent : list Requests.request
}.

(** A computation inside [try: ... except Exception:]: it returns a value
    or raises ([None]; the handlers do not look at the exception), and leaves
    the world as it is at that point. *)
Definition M (A : Type) : Type := world -> option A * world.

Definition ret {A : Type} (a : A) : M A := fun w => (Some a, w).

Definition raise {A : Type} : M A := fun w => (None, w).

Definition bind {A B : Type} (c : M A) (k : A -> M B) : M B :=
  fun w =>
    match c w with
    | (Some a, w') => k a w'
    | (None, w') => (None, w')
    end.

(** A computation that cannot raise. *)
Definition T (A : Type) : Type := world -> A * world.

(** [try: c except Exception: return a]. *)
Definition try_except {A : Type} (c : M A) (a : A) : T A :=
  fun w =>
    match c w with
    | (Some r, w') => (r, w')
    | (None, w') => (a, w')
    end.

Definition lift {A : Type} (c : T A) : M A :=
  fun w => let '(a, w') := c w in (Some a, w').

Definition of_option {A : Type} (o : option A) : M A :=
  fun w => (o, w).

Definition of_result {A : Type} (r : Py.result A) : M A :=
  fun w =>
    match r with
    | Py.Ok a => (Some a, w)
    | Py.Raise _ => (None, w)
    end.

Definition get_files : M Os.files := fun w => (Some (files w), w).

Definition set_files (fs : Os.files) : M unit :=
  fun w => (Some tt, mkworld fs (sent w)).

(** [requests.get]: the request is sent, whatever comes back. *)
Definition get (e : env) (rq : Requests.request) : M Requests.response :=
  fun w => (Some (api e rq), mkworld (files w) (sent w ++ [rq])).

End IO.

Declare Scope io_scope.
Delimit Scope io_scope with io.
Notation "x <- c ;; k" := (IO.bind c (fun x => k))
  (at level 61, c at next level, right associativity) : io_scope.
Notation "c ;;; k" := (IO.bind c (fun _ => k))
  (at level 61, right associativity) : io_scope.

(* ================================================================== *)
(** * [fetch_agile_prices] and [fetch_gas_price], the parts they share *)
(* ================================================================== *)

Module Fetch.

Definition REGION : string := "C".
Definition AGILE_PRODUCT : string := "AGILE-24-10-01".
Definition GAS_PRODUCT : string := "SILVER-25-09-02".

Definition agile_url : string :=
  ("https://api.octopus.energy/v1/products/" ++ AGILE_PRODUCT
     ++ "/electricity-tariffs/E-1R-" ++ AGILE_PRODUCT ++ "-" ++ REGION
     ++ "/standard-unit-rates/")%string.

Definition gas_url : string :=
  ("https://api.octopus.energy/v1/products/" ++ GAS_PRODUCT
     ++ "/gas-tariffs/G-1R-" ++ GAS_PRODUCT ++ "-" ++ REGION
     ++ "/standard-unit-rates/")%string.

(** [f"{d}T00:00:00Z"] and [f"{d}T23:59:59Z"]. *)
Definition midnight (d : Datetime.date) : string :=
  (Datetime.date_isoformat d ++ "T00:00:00Z")%string.

Definition end_of_day (d : Datetime.date) : string :=
  (Datetime.date_isoformat d ++ "T23:59:59Z")%string.

(** [f"price-data-{d.strftime('%Y-%m-%d')}.json"]; [strftime] writes the
    year with four digits from the year 1000 on. *)
Definition cache_name (d : Datetime.date) : string :=
  ("price-data-" ++ Datetime.date_isoformat d ++ ".json")%string.

(** The date that the clean-up loop reads in a file name. *)
Definition file_date (old_file : string) : option Datetime.date :=
  let file_date_str := Text.replace ".json" "" (Text.replace "price-data-" "" old_file) in
  Strptime.ymd file_date_str.

(** The body of the loop: the file is removed when its date is before
    today; any exception is passed over. *)
Definition remove_if_old (today : Datetime.date) (fs : Os.files) (old_file : string)
  : Os.files :=
  match file_date old_file with
  | Some d => if Strptime.date_ltb d today then Os.remove fs old_file else fs
  | None => fs
  end.

(** [for old_file in glob.glob("price-data-*.json"): ...]. *)
Definition clean_up (today : Datetime.date) : IO.M unit :=
  (fs <- IO.get_files ;;
   IO.set_files (fold_left (remove_if_old today) (Os.glob "price-data-" ".json" fs) fs))%io.

(** The reading of an item of [results]: [valid_from] in UTC, then in the
    local zone, and the price point made of it. *)
Definition local_point (e : IO.env) (item : Requests.rate) : option price_point :=
  match Datetime.fromisoformat (Text.replace "Z" "+00:00" (Requests.valid_from item)) with
  | Py.Ok valid_from_utc =>
      match Zone.astimezone (IO.local_offset e) valid_from_utc with
      | Some valid_from_local =>
          Some (mkpoint (Datetime.hour valid_from_local)
                  (Datetime.minute valid_from_local)
                  (Requests.value_inc_vat item)
                  valid_from_local
                  (Some (Datetime.dt_date valid_from_local)))
      | None => None
      end
  | Py.Raise _ => None
  end.

(** [for item in data['results']: ... if keep(date): prices.append(...)]:
    the list as the loop leaves it, and whether the loop ran to its end. *)
Fixpoint collect (e : IO.env) (keep : Datetime.date -> bool)
    (results : list Requests.rate) (prices : list price_point)
  : list price_point * bool :=
  match results with
  | [] => (prices, true)
  | item :: rest =>
      match local_point e item with
      | Some p =>
          collect e keep rest
            (if keep (Datetime.dt_date (timestamp p)) then prices ++ [p] else prices)
      | None => (prices, false)
      end
  end.

(** The instant of an aware datetime, in microseconds. *)
Definition instant (t : Datetime.datetime) : Z :=
  Datetime.wall_micros t - match Datetime.utcoffset t with
                           | Some o => o
                           | None => 0
                           end.

(** [prices.sort(key=lambda x: x['timestamp'])] on aware timestamps: the
    sort is stable, so the result is that of inserting each point, in turn,
    after the points that are not later than it. *)
Fixpoint insert (p : price_point) (sorted : list price_point) : list price_point :=
  match sorted with
  | [] => [p]
  | q :: rest =>
      if instant (timestamp p) <? instant (timestamp q)
      then p :: q :: rest
      else q :: insert p rest
  end.

Definition sort (prices : list price_point) : list price_point :=
  fold_left (fun sorted p => insert p sorted) prices [].

End Fetch.

(* ================================================================== *)
(** * [dashboard.py]: [fetch_agile_prices] and [fetch_gas_price] *)
(* ================================================================== *)

Module DashboardFetch.

(** Lines 124-140: the prices of a cache file, [[]] when there is no such
    file. *)
Definition load_cached (name : string) : IO.M (list price_point) :=
  (fs <- IO.get_files ;;
   match Os.read fs name with
   | None => IO.ret []
   | Some (Os.Prices cached_data) => IO.of_result (Dashboard.load_cache cached_data)
   | Some (Os.Picture _ | Os.Other) => IO.raise
   end)%io.

(** Lines 176-184 and 215-223. *)
Definition save (name : string) (prices : list price_point) : IO.M unit :=
  (cache_data <- IO.of_result (Dashboard.save_cache prices) ;;
   fs <- IO.get_files ;;
   IO.set_files (Os.write fs name (Os.Prices cache_data)))%io.

(** Lines 151-184: today's prices from the API, cached even when the list is
    empty. *)
Definition fetch_today (e : IO.env) (today tomorrow : Datetime.date)
  : IO.M (list price_point) :=
  (response <- IO.get e (Requests.mkrequest Fetch.agile_url
                           (Fetch.midnight today) (Fetch.midnight tomorrow)) ;;
   results <- IO.of_option (Requests.checked_results response) ;;
   let '(found, finished) := Fetch.collect e (Datetime.date_eqb today) results [] in
   if finished then
     let today_prices := Fetch.sort found in
     save (Fetch.cache_name today) today_prices ;;;
     IO.ret today_prices
   else IO.raise)%io.

(** Lines 194-225, the inner [try]: whatever is in [tomorrow_prices] when an
    exception occurs stays there. *)
Definition fetch_tomorrow (e : IO.env) (tomorrow day_after : Datetime.date)
  : IO.M (list price_point) :=
  (response <- IO.get e (Requests.mkrequest Fetch.agile_url
                           (Fetch.midnight tomorrow) (Fetch.midnight day_after)) ;;
   match Requests.checked_results response with
   | None => IO.ret []
   | Some results =>
       let '(found, finished) :=
         Fetch.collect e (Datetime.date_eqb tomorrow) results [] in
       if finished then
         let tomorrow_prices := Fetch.sort found in
         match tomorrow_prices with
         | [] => IO.ret tomorrow_prices
         | _ :: _ =>
             IO.lift (IO.try_except (save (Fetch.cache_name tomorrow) tomorrow_prices) tt) ;;;
             IO.ret tomorrow_prices
         end
       else IO.ret found
   end)%io.

(** [fetch_agile_prices]: [(today_prices, tomorrow_prices)]. *)
Definition fetch_agile_prices (e : IO.env)
  : IO.T (list price_point * list price_point) :=
  IO.try_except
    (let today := IO.today e in
     tomorrow <- IO.of_result (Datetime.next_day today) ;;
     let today_cache := Fetch.cache_name today in
     let tomorrow_cache := Fetch.cache_name tomorrow in
     Fetch.clean_up today ;;;
     today_prices <- load_cached today_cache ;;
     tomorrow_prices <- load_cached tomorrow_cache ;;
     match today_prices, tomorrow_prices with
     | _ :: _, _ :: _ => IO.ret (today_prices, tomorrow_prices)
     | _, _ =>
         today_prices <- match today_prices with
                         | [] => fetch_today e today tomorrow
                         | _ :: _ => IO.ret today_prices
                         end ;;
         tomorrow_prices <- match tomorrow_prices with
                            | [] =>
                                day_after <- IO.of_result (Datetime.next_day tomorrow) ;;
                                fetch_tomorrow e tomorrow day_after
                            | _ :: _ => IO.ret tomorrow_prices
                            end ;;
         IO.ret (today_prices, tomorrow_prices)
     end)%io
    ([], []).

(** [fetch_gas_price]: [(today_price, tomorrow_price)].  The loop keeps the
    price of the last item of each day. *)
Fixpoint scan_gas (e : IO.env) (today tomorrow : Datetime.date)
    (results : list Requests.rate) (today_price tomorrow_price : option float)
  : option (option float * option float) :=
  match results with
  | [] => Some (today_price, tomorrow_price)
  | item :: rest =>
      match Fetch.local_point e item with
      | Some p =>
          let d := Datetime.dt_date (timestamp p) in
          if Datetime.date_eqb d today
          then scan_gas e today tomorrow rest (Some (price p)) tomorrow_price
          else if Datetime.date_eqb d tomorrow
          then scan_gas e today tomorrow rest today_price (Some (price p))
          else scan_gas e today tomorrow rest today_price tomorrow_price
      | None => None
      end
  end.

Definition fetch_gas_price (e : IO.env) : IO.T (option float * option float) :=
  IO.try_except
    (let today := IO.today e in
     tomorrow <- IO.of_result (Datetime.next_day today) ;;
     response <- IO.get e (Requests.mkrequest Fetch.gas_url
                             (Fetch.midnight today) (Fetch.end_of_day tomorrow)) ;;
     results <- IO.of_option (Requests.checked_results response) ;;
     IO.of_option (scan_gas e today tomorrow results None None))%io
    (None, None).

End DashboardFetch.

(* ================================================================== *)
(** * [dashboard-snap.py]: fetching, and the mock data of [--mock-tomorrow] *)
(* ================================================================== *)

Module SnapFetch.

(** Lines 106-119: the cache of today, when there is one, is the answer. *)
Definition load (cached_data : list cache_item) : IO.M (list price_point) :=
  IO.of_result (Snap.load_cache cached_data).

(** Lines 121-166: today and tomorrow in one request; every item is kept. *)
Definition fetch (e : IO.env) (cache_file : string) (today tomorrow : Datetime.date)
  : IO.M (list price_point) :=
  (day_after <- IO.of_result (Datetime.next_day tomorrow) ;;
   response <- IO.get e (Requests.mkrequest Fetch.agile_url
                           (Fetch.midnight today) (Fetch.midnight day_after)) ;;
   results <- IO.of_option (Requests.checked_results response) ;;
   let '(found, finished) := Fetch.collect e (fun _ => true) results [] in
   if finished then
     let prices := Fetch.sort found in
     cache_data <- IO.of_result (Snap.save_cache prices) ;;
     fs <- IO.get_files ;;
     IO.set_files (Os.write fs cache_file (Os.Prices cache_data)) ;;;
     IO.ret prices
   else IO.raise)%io.

(** [fetch_agile_prices]: one list, today's points and tomorrow's. *)
Definition fetch_agile_prices (e : IO.env) : IO.T (list price_point) :=
  IO.try_except
    (let today := IO.today e in
     tomorrow <- IO.of_result (Datetime.next_day today) ;;
     let cache_file := Fetch.cache_name today in
     Fetch.clean_up today ;;;
     fs <- IO.get_files ;;
     match Os.read fs cache_file with
     | Some (Os.Prices cached_data) => load cached_data
     | Some (Os.Picture _ | Os.Other) => IO.raise
     | None => fetch e cache_file today tomorrow
     end)%io
    [].

(** [data['results'][0]['value_inc_vat'] if data['results'] else None]. *)
Definition first_price (results : list Requests.rate) : option float :=
  match results with
  | item :: _ => Some (Requests.value_inc_vat item)
  | [] => None
  end.

(** [fetch_gas_price]: the first request is checked with
    [raise_for_status]; the second one is read only when its status is 200. *)
Definition fetch_gas_price (e : IO.env) : IO.T Snap.gas :=
  IO.try_except
    (let today := IO.today e in
     tomorrow <- IO.of_result (Datetime.next_day today) ;;
     response <- IO.get e (Requests.mkrequest Fetch.gas_url
                             (Fetch.midnight today) (Fetch.end_of_day today)) ;;
     results <- IO.of_option (Requests.checked_results response) ;;
     let today_price := first_price results in
     response <- IO.get e (Requests.mkrequest Fetch.gas_url
                             (Fetch.midnight tomorrow) (Fetch.end_of_day tomorrow)) ;;
     match response with
     | Requests.ConnectionError => IO.raise
     | Requests.Response status_code body =>
         if status_code =? 200 then
           results <- IO.of_option body ;;
           IO.ret (Snap.mkgas today_price (first_price results))
         else IO.ret (Snap.mkgas today_price None)
     end)%io
    (Snap.mkgas None None).

End SnapFetch.

Module Mock.

(** The exceptions that leave [add_mock_tomorrow_data] and
    [add_mock_tomorrow_gas]: nothing catches them. *)
Inductive exn : Type :=
| IndexError
| TypeError
| OverflowError.

Inductive outcome (A : Type) : Type :=
| Returns (a : A)
| Raises (e : exn).
Arguments Returns {A} a.
Arguments Raises {A} e.

(** [random.uniform(a, b)] is [a + (b - a) * random()]; [draw] stands for
    the successive results of [random()]. *)
Definition uniform (draw : nat -> float) (k : nat) (a b : float) : float :=
  (a + (b - a) * draw k)%float.

(** The price of the mock slot at [hour], with the draws from the [k]-th on;
    the evening peak and the cheap night take a second draw. *)
Definition mock_price (draw : nat -> float) (k : nat) (hour : Z) : float * nat :=
  let base_price := (15 + uniform draw k (-5) 10)%float in
  let '(base_price, k) :=
    if (16 <=? hour) && (hour <? 19)
    then ((base_price + uniform draw (k + 1) 10 20)%float, (k + 2)%nat)
    else if (2 <=? hour) && (hour <? 5)
    then ((base_price - uniform draw (k + 1) 8 12)%float, (k + 2)%nat)
    else (base_price, (k + 1)%nat) in
  (Py.max_from 1 [base_price], k).

(** The two nested loops, as one loop over the 48 slots: the mock points and
    the number of draws made so far. *)
Fixpoint mock_slots (draw : nat -> float) (k : nat) (tomorrow : Datetime.date)
    (tzinfo : option Z) (slots : list (Z * Z)) : list price_point * nat :=
  match slots with
  | [] => ([], k)
  | (hour, minute) :: rest =>
      let timestamp := Datetime.mkdatetime tomorrow hour minute 0 0 tzinfo in
      let '(price, k') := mock_price draw k hour in
      let '(more, k'') := mock_slots draw k' tomorrow tzinfo rest in
      (mkpoint hour minute price timestamp (Some tomorrow) :: more, k'')
  end.

Definition half_hours : list (Z * Z) :=
  flat_map (fun hour => [(hour, 0); (hour, 30)]) (Py.range 0 24 1).

(** [add_mock_tomorrow_data(prices)], with the draws from the [k]-th on: the
    list returned and the number of draws made so far. *)
Definition add_mock_tomorrow_data (today : Datetime.date) (draw : nat -> float) (k : nat)
    (prices : list price_point) : outcome (list price_point * nat) :=
  match Datetime.next_day today with
  | Py.Raise _ => Raises OverflowError
  | Py.Ok tomorrow =>
      let has_tomorrow := existsb (Snap.is_tomorrow tomorrow) prices in
      if has_tomorrow then Returns (prices, k)
      else
        match prices with
        | [] => Raises IndexError
        | first :: _ =>
            let '(mock_tomorrow, k') :=
              mock_slots draw k tomorrow (Datetime.utcoffset (timestamp first))
                half_hours in
            Returns (prices ++ mock_tomorrow, k')
        end
  end.



End Mock.

(* ================================================================== *)
(** * [ST7789.py]: the mock display, and [main] of [dashboard.py] *)
(* ================================================================== *)

Module ST7789.

(** The attributes of the display object; only [display_count] changes. *)
Record t : Type := mk {
  height : Z;
  width : Z;
  rotation : Z;
  port : Z;
  cs : Z;
  dc : Z;
  backlight : Z;
  spi_speed_hz : Z;
  display_count : Z
}.

(** [__init__]. *)
Definition init (height width rotation port cs dc backlight spi_speed_hz : Z) : t :=
  mk height width rotation port cs dc backlight spi_speed_hz 0.

(** [f"display_output_{self.display_count:04d}.png"]. *)
Definition filename (display_count : Z) : string :=
  ("display_output_" ++ Text.zfill 4 (Text.decimal display_count) ++ ".png")%string.

(** [display(image)]: the image is saved under the name of the current
    count, and the count goes up by one. *)
Definition display (self : t) (image : list draw_op) (fs : Os.files) : t * Os.files :=
  (mk (height self) (width self) (rotation self) (port self) (cs self) (dc self)
      (backlight self) (spi_speed_hz self) (display_count self + 1),
   Os.write fs (filename (display_count self)) (Os.Picture image)).

End ST7789.

Module DashboardMain.

(** Lines 35-44, with the [ST7789.py] of the repository as the module
    [ST7789]. *)
Definition disp : ST7789.t := ST7789.init HEIGHT WIDTH 0 0 1 9 13 (80 * 1000 * 1000).

(** What [main] keeps between two drawings. *)
Record data : Type := mkdata {
  today_prices : list price_point;
  tomorrow_prices : list price_point;
  gas_today : option float;
  gas_tomorrow : option float
}.

(** The display object and the world. *)
Record machine : Type := mkmachine {
  display : ST7789.t;
  world : IO.world
}.

(** [draw_dashboard] with its last statement, [disp.display(img)], which
    both branches reach; an exception while drawing leaves the display and
    the files as they are.  ([img.show()], tried in mock mode, changes
    neither.) *)
Definition draw_dashboard (textbbox : metrics) (now : Datetime.datetime) (d : data)
    (m : machine) : Py.result machine :=
  (img <- Dashboard.draw_dashboard textbbox now (today_prices d) (tomorrow_prices d)
            (gas_today d) (gas_tomorrow d) ;;
   let '(disp', fs) := ST7789.display (display m) img (IO.files (world m)) in
   Py.Ok (mkmachine disp' (IO.mkworld fs (IO.sent (world m)))))%py.

(** Lines 492-495 and 529-532: the two fetches. *)
Definition fetch (e : IO.env) (m : machine) : data * machine :=
  let '((today, tomorrow), w1) := DashboardFetch.fetch_agile_prices e (world m) in
  let '((gas, gas_next), w2) := DashboardFetch.fetch_gas_price e w1 in
  (mkdata today tomorrow gas gas_next, mkmachine (display m) w2).

(** Lines 490-499: the start of [main], up to the first drawing. *)
Definition start (e : IO.env) (textbbox : metrics) (now : Datetime.datetime)
    (m : machine) : Py.result (data * machine) :=
  let '(d, m1) := fetch e m in
  (m2 <- draw_dashboard textbbox now d m1 ;; Py.Ok (d, m2))%py.

(** Lines 520-544: one turn of the loop on real hardware, at the clock time
    [current_time] and the wall time [now], with the environment [e] of that
    moment: the data are fetched again when more than 300 seconds have passed
    since the last update, then the dashboard is drawn; an exception while
    drawing is caught, and the turn ends with what was done before it. *)
Definition update_interval : float := 300.

Definition turn (e : IO.env) (textbbox : metrics) (current_time : float)
    (now : Datetime.datetime) (state : data * float * machine)
  : data * float * machine :=
  let '(d, last_update, m) := state in
  let '(d1, last_update1, m1) :=
    if (update_interval <? current_time - last_update)%float
    then let '(d', m') := fetch e m in (d', current_time, m')
    else (d, last_update, m) in
  match draw_dashboard textbbox now d1 m1 with
  | Py.Ok m2 => (d1, last_update1, m2)
  | Py.Raise _ => (d1, last_update1, m1)
  end.

End DashboardMain.

(* ================================================================== *)
(** * Sample data *)
(* ================================================================== *)

Module Sample.

(** The [i]-th half-hour slot of the day [d], in the zone [off]. *)
Definition slot (d : Datetime.date) (off : option Z) (price_of : Z -> float) (i : Z)
  : price_point :=
  mkpoint (i / 2) (i mod 2 * 30) (price_of i)
    (Datetime.mkdatetime d (i / 2) (i mod 2 * 30) 0 0 off) (Some d).

(** The first [n] half-hour slots of the day [d]. *)
Definition day (d : Datetime.date) (off : option Z) (price_of : Z -> float) (n : Z)
  : list price_point :=
  map (slot d off price_of) (Py.range 0 n 1).

Definition today : Datetime.date := Datetime.mkdate 2024 1 15.
Definition tomorrow : Datetime.date := Datetime.mkdate 2024 1 16.
Definition utc : option Z := Some 0.

(** 14:10 on the sample day, as [datetime.now()] returns it. *)
Definition now : Datetime.datetime := Datetime.mkdatetime today 14 10 0 0 None.

Definition flat (c : float) (_ : Z) : float := c.

(** Prices that rise by half a penny per slot from 5p. *)
Definition rising (i : Z) : float := (5 + Py.float_of_int i * 0.5)%float.

Definition today48 : list price_point := day today utc rising 48.
Definition tomorrow48 : list price_point := day tomorrow utc (flat 12.5) 48.

(** Today from noon on, as charted next to [tomorrow48]. *)
Definition afternoon : list price_point := skipn 24 today48.

(** Two afternoon slots of today and the same two slots of tomorrow; 14:00 is
    the current slot at [now]. *)
Definition marker_today : list price_point :=
  [slot today utc (flat 10) 28; slot today utc (flat 20) 29].
Definition marker_tomorrow : list price_point :=
  [slot tomorrow utc (flat 15) 28; slot tomorrow utc (flat 5) 29].
Definition marker_range : chart_range := mkrange 0 20 20.

(** A 2p point next to a 100p point. *)
Definition low_high : list price_point :=
  [slot today utc (flat 2) 0; slot today utc (flat 100) 1].

(** A window with a negative price: -15p next to 5p. *)
Definition below_zero : list price_point :=
  [slot today utc (flat (-15)) 0; slot today utc (flat 5) 1].

(** Font metrics of a fixed-width font, 6 by 10 pixels per character cell,
    every text taken as four cells wide. *)
Definition textbbox : metrics := fun xy _ _ => (fst xy, snd xy, fst xy + 24, snd xy + 10).

End Sample.

(* ================================================================== *)
(** * A sample machine *)
(* ================================================================== *)

Module Scenario.

(** The API lists the newest rate first. *)
Definition today_rates : list Requests.rate :=
  [ Requests.mkrate "2024-01-15T01:00:00Z" 12.5;
    Requests.mkrate "2024-01-15T00:30:00Z" 11.25;
    Requests.mkrate "2024-01-15T00:00:00Z" 10;
    Requests.mkrate "2024-01-14T23:30:00Z" 9.5 ].

Definition tomorrow_rates : list Requests.rate :=
  [ Requests.mkrate "2024-01-16T00:30:00Z" 21;
    Requests.mkrate "2024-01-16T00:00:00Z" 20 ].

Definition gas_rates : list Requests.rate :=
  [ Requests.mkrate "2024-01-16T00:00:00Z" 6.5;
    Requests.mkrate "2024-01-15T00:00:00Z" 6.25 ].

(** An API that has the prices of both days. *)
Definition api (rq : Requests.request) : Requests.response :=
  if String.eqb (Requests.url rq) Fetch.gas_url
  then Requests.Response 200 (Some gas_rates)
  else if String.eqb (Requests.period_from rq) (Fetch.midnight Sample.today)
  then Requests.Response 200 (Some today_rates)
  else if String.eqb (Requests.period_from rq) (Fetch.midnight Sample.tomorrow)
  then Requests.Response 200 (Some tomorrow_rates)
  else Requests.Response 200 (Some []).

(** An API that cannot be reached. *)
Definition offline (rq : Requests.request) : Requests.response :=
  Requests.ConnectionError.

(** An API that has today's prices and, for every other day, none yet. *)
Definition early (rq : Requests.request) : Requests.response :=
  if String.eqb (Requests.period_from rq) (Fetch.midnight Sample.today)
  then Requests.Response 200 (Some today_rates)
  else Requests.Response 200 (Some []).

(** A machine on UTC, on the sample day. *)
Definition utc_offset (d : Datetime.datetime) : Z := 0.

Definition machine : IO.env := IO.mkenv Sample.today utc_offset api.
Definition machine_offline : IO.env := IO.mkenv Sample.today utc_offset offline.
Definition machine_early : IO.env := IO.mkenv Sample.today utc_offset early.

(** A directory with the cache of the day before, a cache of the day after
    tomorrow, and a file of the user. *)
Definition directory : Os.files :=
  [ ("price-data-2024-01-14.json"%string, Os.Prices []);
    ("notes.txt"%string, Os.Other);
    ("price-data-2024-01-17.json"%string, Os.Other) ].

Definition start : IO.world := IO.mkworld directory [].

(** The same machine after a first call of [fetch_agile_prices]: both cache
    files are there. *)
Definition first_call : list price_point * list price_point * IO.world :=
  DashboardFetch.fetch_agile_prices machine start.

Definition today_points : list price_point := fst (fst first_call).
Definition tomorrow_points : list price_point := snd (fst first_call).
Definition cached : IO.world := snd first_call.

Definition items_of (prices : list price_point) : list cache_item :=
  match Dashboard.save_cache prices with
  | Py.Ok items => items
  | Py.Raise _ => []
  end.

(** A directory with tomorrow's cache file only. *)
Definition tomorrow_only : IO.world :=
  IO.mkworld [(Fetch.cache_name Sample.tomorrow, Os.Prices (items_of tomorrow_points))] [].

(** An API that has no gas price for tomorrow yet. *)
Definition gas_today_only (rq : Requests.request) : Requests.response :=
  if String.eqb (Requests.period_from rq) (Fetch.midnight Sample.tomorrow)
  then Requests.Response 404 None
  else api rq.

Definition machine_gas_today_only : IO.env :=
  IO.mkenv Sample.today utc_offset gas_today_only.

(** Random draws that are all one half. *)
Definition draw (k : nat) : float := 0.5%float.

End Scenario.

(* ================================================================== *)
(** * Notions used in the statements *)
(* ================================================================== *)

(** The display window as the specification words it: the last 24 points of
    today followed by tomorrow, tomorrow alone when today has fewer than 24
    points, today when there is no tomorrow.  It is compared with the code
    below, and is not used by it. *)
Definition spec_display_window (today tomorrow : list price_point) : list price_point :=
  match tomorrow with
  | [] => today
  | _ :: _ =>
      if (24 <=? Z.of_nat (List.length today))
      then Py.slice_last 24 today ++ tomorrow
      else tomorrow
  end.

(** [p['timestamp'] >= noon] as a boolean, for a comparison that does not
    raise. *)
Definition at_or_after (noon : Datetime.datetime) (p : price_point) : bool :=
  match Datetime.ge (timestamp p) noon with
  | Py.Ok b => b
  | Py.Raise _ => false
  end.

(** A point whose timestamp carries a UTC offset. *)
Definition aware (p : price_point) : Prop :=
  Datetime.utcoffset (timestamp p) <> None.

(** The bar height as the specification words it:
    [round((price - chart_min) / range * chart_height)], rounding to the
    nearest integer.  It is compared with [scaled_height] below, and is not
    used by the code. *)
Definition spec_bar_height (r : chart_range) (v : float) : Py.result Z :=
  (q <- Py.truediv (v - chart_min_price r)%float (price_range r) ;;
   Py.round (q * Py.float_of_int chart_height)%float)%py.

(** The characters that separate the fields are not digits. *)
Definition separator (c : ascii) : Prop :=
  c = "-"%char \/ c = "+"%char \/ c = ":"%char \/ c = "."%char \/ c = "T"%char.

(** [lacks c s]: the character [c] does not occur in [s]. *)
Fixpoint lacks (c : ascii) (s : string) : bool :=
  match s with
  | EmptyString => true
  | String c' s' => negb (Ascii.eqb c c') && lacks c s'
  end.

(** The text of the fraction, of the time, and of the offset's fields, as
    [isoformat] lays them out. *)
Definition frac_text (us : Z) : string :=
  if us =? 0 then ""%string else ("." ++ Datetime.fixed_digits 6 us)%string.

Definition hms_text (h m s us : Z) : string :=
  (Datetime.fixed_digits 2 h ++ ":" ++ Datetime.fixed_digits 2 m ++ ":"
     ++ Datetime.fixed_digits 2 s ++ frac_text us)%string.

Definition hm_text (h m : Z) : string :=
  (Datetime.fixed_digits 2 h ++ ":" ++ Datetime.fixed_digits 2 m)%string.

Definition offset_text (a : Z) : string :=
  let hh := a / 3600000000 in
  let mm := (a mod 3600000000) / 60000000 in
  let ss := (a mod 60000000) / 1000000 in
  let us := a mod 1000000 in
  if (ss =? 0) && (us =? 0) then hm_text hh mm else hms_text hh mm ss us.

(** A point that [fetch_agile_prices] can hold: its timestamp is a datetime
    (the constructor accepts no field out of range) and its date is the date
    of its timestamp. *)
Definition cacheable (p : price_point) : Prop :=
  Datetime.valid_datetime (timestamp p) = true
  /\ date p = Some (Datetime.dt_date (timestamp p)).

(** The rank of a float in the order of [<] and [<=]: the infinities at the
    ends, the two zeros together, the finite values by sign, exponent and
    mantissa. *)
Definition rank (x : spec_float) : Z * Z * Z :=
  match x with
  | S754_infinity true => (-2, 0, 0)
  | S754_finite true m e => (-1, - e, - Z.pos m)
  | S754_zero _ => (0, 0, 0)
  | S754_finite false m e => (1, e, Z.pos m)
  | S754_infinity false => (2, 0, 0)
  | S754_nan => (3, 0, 0)
  end.

(** The lexicographic comparison and order of ranks. *)
Definition lex_compare (a b : Z * Z * Z) : comparison :=
  let '(a1, a2, a3) := a in
  let '(b1, b2, b3) := b in
  match a1 ?= b1 with
  | Eq => match a2 ?= b2 with
          | Eq => a3 ?= b3
          | c => c
          end
  | c => c
  end.

Definition lex_le (a b : Z * Z * Z) : Prop :=
  let '(a1, a2, a3) := a in
  let '(b1, b2, b3) := b in
  a1 < b1 \/ (a1 = b1 /\ (a2 < b2 \/ (a2 = b2 /\ a3 <= b3))).

(** A float that is a number: [x == x] in Python. *)
Definition not_nan (x : float) : Prop := Prim2SF x <> S754_nan.

(** The zeros among the floats. *)
Definition is_zero_sf (x : spec_float) : bool :=
  match x with
  | S754_zero _ => true
  | _ => false
  end.

(** A computation that does not raise [ZeroDivisionError]. *)
Definition no_zero_division {A : Type} (c : Py.result A) : Prop :=
  c <> Py.Raise Py.ZeroDivisionError.

(** The four price bands of [get_price_color], cheapest first: green, blue,
    yellow, red. *)
Definition color_band (c : color) : Z :=
  let '(r, g, b) := c in
  if (r =? 34) && (g =? 197) && (b =? 94) then 0
  else if (r =? 59) && (g =? 130) && (b =? 246) then 1
  else if (r =? 234) && (g =? 179) && (b =? 8) then 2
  else 3.

(** The strict order of ranks. *)
Definition lex_lt (a b : Z * Z * Z) : Prop :=
  let '(a1, a2, a3) := a in
  let '(b1, b2, b3) := b in
  a1 < b1 \/ (a1 = b1 /\ (a2 < b2 \/ (a2 = b2 /\ a3 < b3))).

(** The drawing calls that mark the tomorrow section of the chart: the
    background rectangle filled with [(30, 40, 60)] and the "Tmrw" label. *)
Definition is_tomorrow_background (op : draw_op) : bool :=
  match op with
  | DrawRectangle _ _ (r, g, b) => (r =? 30) && (g =? 40) && (b =? 60)
  | _ => false
  end.

Definition is_literal_text (op : draw_op) : bool :=
  match op with
  | DrawText _ (Str _) _ _ => true
  | _ => false
  end.

(** A file name that the clean-up loop removes: it matches
    [price-data-*.json] and what is left of it reads as a date before
    today. *)
Definition is_old_cache (today : Datetime.date) (name : string) : bool :=
  Text.fnmatch_star "price-data-" ".json" name
  && match Fetch.file_date name with
     | Some d => Strptime.date_ltb d today
     | None => false
     end.

(** The files that the clean-up of [today] leaves. *)
Definition cleaned (today : Datetime.date) (fs : Os.files) : Os.files :=
  fold_left (Fetch.remove_if_old today) (Os.glob "price-data-" ".json" fs) fs.

(** The two requests of [fetch_agile_prices] in [dashboard.py]. *)
Definition day_request (d next : Datetime.date) : Requests.request :=
  Requests.mkrequest Fetch.agile_url (Fetch.midnight d) (Fetch.midnight next).

(** Every item that the API returns can be read: its [valid_from] is ISO
    8601 text and converts to the local zone. *)
Definition readable (e : IO.env) : Prop :=
  forall rq results item,
    Requests.checked_results (IO.api e rq) = Some results ->
    In item results -> Fetch.local_point e item <> None.

(** In chronological order. *)
Definition chronological (prices : list price_point) : Prop :=
  StronglySorted (fun p q => Fetch.instant (timestamp p) <= Fetch.instant (timestamp q))
    prices.

(** The price points of the items of a response that can be read, in the
    order of the response. *)
Definition local_points (e : IO.env) (results : list Requests.rate) : list price_point :=
  flat_map (fun item => match Fetch.local_point e item with
                        | Some p => [p]
                        | None => []
                        end) results.

(** A point whose timestamp falls on the day [d]. *)
Definition dated (d : Datetime.date) (p : price_point) : bool :=
  Datetime.date_eqb d (Datetime.dt_date (timestamp p)).

(** The price of the last point of the day [d] in a list, if there is one. *)
Definition last_price (d : Datetime.date) (points : list price_point) : option float :=
  option_map price (find (dated d) (rev points)).

(** The request of [fetch_gas_price] in [dashboard.py], and the two of
    [dashboard-snap.py]. *)
Definition gas_request (from to : string) : Requests.request :=
  Requests.mkrequest Fetch.gas_url from to.

(** The month and the day that [_ord2ymd] finds for the day [n] of a year,
    counted from 0, leap or not. *)
Definition month_day (n : Z) (leapyear : bool) : Z * Z :=
  let month := Z.shiftr (n + 50) 5 in
  let preceding :=
    nth (Z.to_nat month) Zone.DAYS_BEFORE_MONTH 0
    + (if (2 <? month) && leapyear then 1 else 0) in
  if n <? preceding then
    let month := month - 1 in
    let preceding :=
      preceding - (nth (Z.to_nat month) Zone.DAYS_IN_MONTH 0
                   + (if (month =? 2) && leapyear then 1 else 0)) in
    (month, n - preceding + 1)
  else (month, n - preceding + 1).

(** A month and a day that exist in a year, leap or not. *)
Definition month_day_ok (leapyear : bool) (md : Z * Z) : bool :=
  let '(m, d) := md in
  (1 <=? m) && (m <=? 12) && (1 <=? d)
  && (d <=? (if m =? 2 then (if leapyear then 29 else 28)
             else if (m =? 4) || (m =? 6) || (m =? 9) || (m =? 11) then 30
             else 31)).

(** [f] holds of 0, 1, ..., [n - 1]. *)
Fixpoint all_below (n : nat) (f : Z -> bool) : bool :=
  match n with
  | O => true
  | S k => f (Z.of_nat k) && all_below k f
  end.

(** The number that the leading decimal digits of a text spell, after
    [acc]. *)
Fixpoint leading_number (acc : Z) (s : string) : Z :=
  match s with
  | EmptyString => acc
  | String c s' =>
      match Datetime.digit_val c with
      | Some d => leading_number (10 * acc + d) s'
      | None => acc
      end
  end.

(** The number of a frame file, read from its name. *)
Definition frame_number (name : string) : option Z :=
  option_map (leading_number 0) (Text.strip_prefix "display_output_" name).

(** Several images displayed in turn. *)
Fixpoint display_all (d : ST7789.t) (images : list (list draw_op)) (fs : Os.files)
  : ST7789.t * Os.files :=
  match images with
  | [] => (d, fs)
  | image :: rest =>
      let '(d', fs') := ST7789.display d image fs in
      display_all d' rest fs'
  end.

(** Some turns of the loop of [main], each with the environment, the clock
    time and the wall time of its moment. *)
Fixpoint run (textbbox : metrics)
    (turns : list (IO.env * float * Datetime.datetime))
    (state : DashboardMain.data * float * DashboardMain.machine)
  : DashboardMain.data * float * DashboardMain.machine :=
  match turns with
  | [] => state
  | (e, current_time, now) :: rest =>
      run textbbox rest (DashboardMain.turn e textbbox current_time now state)
  end.

(** A turn of the loop is due for an update when more than
    [update_interval] seconds have passed since the last one. *)
Definition due (last_update : float) (turn : IO.env * float * Datetime.datetime)
  : bool :=
  (DashboardMain.update_interval <? snd (fst turn) - last_update)%float.

(** The calls to [draw.line]. *)
Definition is_line (op : draw_op) : bool :=
  match op with
  | DrawLine _ _ _ _ => true
  | _ => false
  end.

(* ================================================================== *)
(** * The display window (reconciler) *)
(* ================================================================== *)

Section DisplayWindow.

Variables today tomorrow : list price_point.

Lemma display_with_tomorrow_long :
  tomorrow <> [] -> (24 <= List.length today)%nat ->
  Dashboard.display_prices today tomorrow = skipn 24 today ++ tomorrow.
Proof.
  intros Hne Hlen. unfold Dashboard.display_prices, Dashboard.trim_today.
  destruct tomorrow as [|q tm]; [congruence|]. cbn [Dashboard.has_tomorrow andb].
  destruct (Z.leb_spec 24 (Z.of_nat (List.length today))); [reflexivity | lia].
Qed.

Lemma display_with_tomorrow_short :
  (List.length today < 24)%nat ->
  Dashboard.display_prices today tomorrow = today ++ tomorrow.
Proof.
  intros Hlen. unfold Dashboard.display_prices, Dashboard.trim_today.
  destruct (Z.leb_spec 24 (Z.of_nat (List.length today))); [lia|].
  now rewrite andb_false_r.
Qed.

Lemma display_without_tomorrow :
  tomorrow = [] -> Dashboard.display_prices today tomorrow = today.
Proof.
  intros ->. unfold Dashboard.display_prices, Dashboard.trim_today.
  cbn [Dashboard.has_tomorrow andb]. apply app_nil_r.
Qed.

Lemma full_day_tail :
  List.length today = 48%nat -> skipn 24 today = Py.slice_last 24 today.
Proof. intros H. unfold Py.slice_last. now rewrite H. Qed.

End DisplayWindow.

Lemma from_noon_filter (noon : Datetime.datetime) (l kept : list price_point) :
  Snap.from_noon noon l = Py.Ok kept -> kept = filter (at_or_after noon) l.
Proof.
  revert kept. induction l as [|p t IH]; cbn [Snap.from_noon filter]; intros kept H.
  - now inversion H.
  - destruct (Datetime.ge (timestamp p) noon) as [b|e] eqn:Hge;
      cbn [Py.bind] in H; [|discriminate].
    destruct (Snap.from_noon noon t) as [rest|e]; cbn [Py.bind] in H; [|discriminate].
    assert (Hb : at_or_after noon p = b) by (unfold at_or_after; now rewrite Hge).
    inversion H; subst kept. rewrite Hb, <- (IH rest eq_refl). reflexivity.
Qed.

Lemma aware_ge_ok (a b : Datetime.datetime) :
  Datetime.utcoffset a <> None -> Datetime.utcoffset b <> None ->
  exists r, Datetime.ge a b = Py.Ok r.
Proof.
  unfold Datetime.ge. destruct (Datetime.utcoffset a), (Datetime.utcoffset b);
    intros; try congruence; eauto.
Qed.

Lemma from_noon_total (noon : Datetime.datetime) (l : list price_point) :
  Datetime.utcoffset noon <> None -> Forall aware l ->
  exists kept, Snap.from_noon noon l = Py.Ok kept.
Proof.
  intros Hn. induction 1 as [|p t Hp _ [rest IH]]; cbn [Snap.from_noon]; [eauto|].
  destruct (aware_ge_ok (timestamp p) noon Hp Hn) as [b ->].
  rewrite IH. cbn [Py.bind]. eauto.
Qed.

(** In the snapshot variant the reconciler returns whenever today's
    timestamps are aware, which [astimezone()] and the cache guarantee. *)
Lemma snap_reconcile_total (d : Datetime.date) (today tomorrow : list price_point) :
  Forall aware today ->
  exists kept display, Snap.reconcile d today tomorrow = Py.Ok (kept, display).
Proof.
  intros Haw. unfold Snap.reconcile.
  destruct tomorrow as [|q tm]; [eauto|]. destruct today as [|p t]; [eauto|].
  destruct (from_noon_total (Snap.noon d p) (p :: t)) as [kept Hk]; auto.
  - inversion Haw; subst. exact H1.
  - rewrite Hk. cbn [Py.bind]. eauto.
Qed.

(** C1 (as the code has it).  In [dashboard.py], with tomorrow's data and at
    least 24 points today the display window is today without its first 24
    points ([today[24:]]), followed by tomorrow; this is the last 24 points
    when today has 48.  With tomorrow's data and fewer than 24 points it is
    all of today followed by tomorrow.  Without tomorrow's data it is today.
    In [dashboard-snap.py], with tomorrow's data and a non-empty today it is
    the points of today at or after local noon followed by tomorrow; with
    tomorrow's data and an empty today it is tomorrow; so, with tomorrow's
    data, it is tomorrow alone exactly when no point of today is kept, be
    today empty or all of it before noon; without tomorrow's data it is
    today. *)
Theorem display_window_reconciled (today tomorrow : list price_point) :
  (tomorrow <> [] -> (24 <= List.length today)%nat ->
     Dashboard.display_prices today tomorrow = skipn 24 today ++ tomorrow)
  /\ (tomorrow <> [] -> (List.length today < 24)%nat ->
        Dashboard.display_prices today tomorrow = today ++ tomorrow)
  /\ (tomorrow = [] -> Dashboard.display_prices today tomorrow = today)
  /\ (List.length today = 48%nat -> skipn 24 today = Py.slice_last 24 today)
  /\ (forall d kept display,
        Snap.reconcile d today tomorrow = Py.Ok (kept, display) ->
        (tomorrow <> [] -> forall p t, today = p :: t ->
           kept = filter (at_or_after (Snap.noon d p)) today
           /\ display = kept ++ tomorrow)
        /\ (tomorrow <> [] -> today = [] -> display = tomorrow)
        /\ (tomorrow <> [] -> (display = tomorrow <-> kept = []))
        /\ (tomorrow = [] -> display = today)).
Proof.
  split; [apply display_with_tomorrow_long|].
  split; [intros _; apply display_with_tomorrow_short|].
  split; [apply display_without_tomorrow|].
  split; [apply full_day_tail|].
  intros d kept display H. unfold Snap.reconcile in H.
  destruct tomorrow as [|q tm].
  - inversion H; subst.
    split; [congruence|]. split; [congruence|]. split; [congruence|]. reflexivity.
  - destruct today as [|p0 t0].
    + inversion H; subst.
      split; [intros _ p1 t1 Heq; discriminate|]. split; [reflexivity|].
      split; [|discriminate]. intros _. split; reflexivity.
    + destruct (Snap.from_noon (Snap.noon d p0) (p0 :: t0)) as [k|e] eqn:Hk;
        cbn [Py.bind] in H; [|discriminate].
      inversion H; subst.
      split; [|split; [discriminate|split; [|discriminate]]].
      * intros _ p1 t1 Heq. inversion Heq; subst.
        split; [now apply from_noon_filter | reflexivity].
      * intros _. split.
        -- intros Heq. apply (app_inv_tail (q :: tm) kept []). exact Heq.
        -- intros ->. reflexivity.
Qed.

(** Three points of the morning and one point of tomorrow: in
    [dashboard-snap.py] today is not empty, none of its points is kept, and
    the window is tomorrow alone. *)
Lemma snap_morning_only_window :
  let morning := Sample.day Sample.today Sample.utc Sample.rising 3 in
  let tomorrow := Sample.day Sample.tomorrow Sample.utc (Sample.flat 12.5) 1 in
  List.length morning = 3%nat
  /\ Snap.reconcile Sample.today morning tomorrow = Py.Ok ([], tomorrow).
Proof. vm_compute. split; reflexivity. Qed.

(** C1 (as stated) fails on the code.  With the first 25 half-hours of today
    and one point of tomorrow, both dashboards chart 2 points where the
    specification charts 25; with the last 3 half-hours of today and one
    point of tomorrow, both chart 4 points where the specification charts
    tomorrow alone. *)
Lemma display_window_counterexample :
  let today25 := Sample.day Sample.today Sample.utc Sample.rising 25 in
  let today3 := skipn 45 (Sample.day Sample.today Sample.utc Sample.rising 48) in
  let tomorrow := Sample.day Sample.tomorrow Sample.utc (Sample.flat 12.5) 1 in
  (List.length (Dashboard.display_prices today25 tomorrow) = 2%nat
   /\ Snap.reconcile Sample.today today25 tomorrow
      = Py.Ok (skipn 24 today25, skipn 24 today25 ++ tomorrow)
   /\ List.length (spec_display_window today25 tomorrow) = 25%nat)
  /\ (Dashboard.display_prices today3 tomorrow = today3 ++ tomorrow
      /\ Snap.reconcile Sample.today today3 tomorrow
         = Py.Ok (today3, today3 ++ tomorrow)
      /\ spec_display_window today3 tomorrow = tomorrow).
Proof. vm_compute. repeat split. Qed.

(* ================================================================== *)
(** * Loops over [enumerate(display_prices)] *)
(* ================================================================== *)

Lemma mapM_ok_length {A B : Type} (f : A -> Py.result B) (l : list A) (r : list B) :
  Py.mapM f l = Py.Ok r -> List.length r = List.length l.
Proof.
  revert r. induction l as [|x t IH]; cbn [Py.mapM]; intros r H.
  - now inversion H.
  - destruct (f x); cbn [Py.bind] in H; [|discriminate].
    destruct (Py.mapM f t) as [ys|]; cbn [Py.bind] in H; [|discriminate].
    inversion H; subst. cbn. now rewrite (IH ys).
Qed.

Lemma mapM_ok_nth {A B : Type} (f : A -> Py.result B) (l : list A) (r : list B) :
  Py.mapM f l = Py.Ok r ->
  forall k y, nth_error r k = Some y ->
  exists x, nth_error l k = Some x /\ f x = Py.Ok y.
Proof.
  revert r. induction l as [|x t IH]; cbn [Py.mapM]; intros r H k y Hk.
  - inversion H; subst. destruct k; discriminate.
  - destruct (f x) as [y0|] eqn:Hx; cbn [Py.bind] in H; [|discriminate].
    destruct (Py.mapM f t) as [ys|]; cbn [Py.bind] in H; [|discriminate].
    inversion H; subst. destruct k as [|k]; cbn in Hk |- *.
    + inversion Hk; subst. eauto.
    + eapply IH; eauto.
Qed.

Lemma mapM_ok_in {A B : Type} (f : A -> Py.result B) (l : list A) (r : list B) :
  Py.mapM f l = Py.Ok r ->
  forall y, In y r -> exists x, In x l /\ f x = Py.Ok y.
Proof.
  intros H y Hy. apply In_nth_error in Hy as [k Hk].
  destruct (mapM_ok_nth f l r H k y Hk) as [x [Hx Hf]].
  exists x. split; [eapply nth_error_In; eauto | exact Hf].
Qed.

(** [mapM] returns as soon as every call does. *)
Lemma mapM_total {A B : Type} (f : A -> Py.result B) (l : list A) :
  (forall x, In x l -> exists y, f x = Py.Ok y) ->
  exists r, Py.mapM f l = Py.Ok r.
Proof.
  induction l as [|x t IH]; cbn [Py.mapM]; intros H; [eauto|].
  destruct (H x (or_introl eq_refl)) as [y ->].
  destruct IH as [ys ->]; [intros; apply H; now right|].
  cbn [Py.bind]. eauto.
Qed.

Lemma enumerate_from_nth {A : Type} (l : list A) (i : Z) (k : nat) (j : Z) (x : A) :
  nth_error (Py.enumerate_from i l) k = Some (j, x) ->
  j = i + Z.of_nat k /\ nth_error l k = Some x.
Proof.
  revert i k. induction l as [|a t IH]; intros i k H.
  - destruct k; discriminate.
  - destruct k as [|k]; cbn in H.
    + inversion H; subst. split; [lia | reflexivity].
    + apply IH in H as [-> H]. split; [lia | exact H].
Qed.

Lemma enumerate_in {A : Type} (l : list A) (j : Z) (x : A) :
  In (j, x) (Py.enumerate l) ->
  0 <= j < Z.of_nat (List.length l) /\ nth_error l (Z.to_nat j) = Some x.
Proof.
  intros H. apply In_nth_error in H as [k Hk].
  apply enumerate_from_nth in Hk as [-> Hk].
  assert (k < List.length l)%nat by (apply nth_error_Some; congruence).
  split; [lia|]. now rewrite Z.add_0_l, Nat2Z.id.
Qed.

(** What one iteration of the bar loop records. *)
Lemma layout_bar_ok (now : Datetime.datetime) (r : chart_range)
    (cx bw idx i : Z) (p : price_point) (b : bar) :
  layout_bar now r cx bw idx (i, p) = Py.Ok b ->
  exists h, scaled_height r (price p) = Py.Ok h
    /\ b = mkbar i p (cx + i * bw) (chart_y + chart_height - h)
             (cx + i * bw + bw - 2) (chart_y + chart_height)
             (get_price_color (price p))
             (in_current_slot now p && (i <? idx)).
Proof.
  unfold layout_bar. destruct (scaled_height r (price p)) as [h|]; cbn [Py.bind];
    intros H; [|discriminate].
  inversion H; subst. eauto.
Qed.

Lemma layout_bars_in (now : Datetime.datetime) (r : chart_range)
    (cx bw idx : Z) (display : list price_point) (bars : list bar) (b : bar) :
  layout_bars now r cx bw idx display = Py.Ok bars -> In b bars ->
  0 <= bar_index b < Z.of_nat (List.length display)
  /\ nth_error display (Z.to_nat (bar_index b)) = Some (bar_point b)
  /\ layout_bar now r cx bw idx (bar_index b, bar_point b) = Py.Ok b.
Proof.
  intros H Hb. destruct (mapM_ok_in _ _ _ H b Hb) as [[i p] [Hin Hl]].
  destruct (layout_bar_ok _ _ _ _ _ _ _ _ Hl) as [h [_ ->]]. cbn [bar_index bar_point].
  apply enumerate_in in Hin as [Hi Hn]. repeat split; try lia; assumption.
Qed.

(* ================================================================== *)
(** * The current-slot marker *)
(* ================================================================== *)

(** The only lines a bar draws are the dashes of the marker. *)
Lemma draw_bar_lines (bw : Z) (f : font) (b : bar) (op : draw_op) :
  In op (draw_bar bw f b) -> is_line op = true -> is_current b = true.
Proof.
  unfold draw_bar. intros Hin Hl. apply in_app_or in Hin as [Hin|Hin].
  - destruct Hin as [<-|[]]. discriminate.
  - apply in_app_or in Hin as [Hin|Hin].
    + destruct (is_current b); [reflexivity | destruct Hin].
    + unfold draw_hour_label in Hin.
      destruct ((minute (bar_point b) =? 0)
                && ((hour (bar_point b) mod 4 =? 0) || (hour (bar_point b) =? 0)));
        [destruct Hin as [<-|[]]; discriminate | destruct Hin].
Qed.

(** A marked bar draws its dashes: the marker is visible. *)
Lemma draw_bar_marked (bw : Z) (f : font) (b : bar) :
  is_current b = true ->
  incl (draw_dashes (bar_x b + bw / 2)) (draw_bar bw f b).
Proof.
  intros H op Hop. unfold draw_bar. rewrite H.
  apply in_or_app. right. apply in_or_app. now left.
Qed.

Section Marker.

Variable now : Datetime.datetime.
Variable r : chart_range.
Variables cx bw : Z.
Variables today_part tomorrow_part : list price_point.
Variable bars : list bar.

Hypothesis Hbars :
  layout_bars now r cx bw (Z.of_nat (List.length today_part))
    (today_part ++ tomorrow_part) = Py.Ok bars.

Lemma marker_iff (b : bar) :
  In b bars ->
  (is_current b = true <->
     hour (bar_point b) = Datetime.hour now
     /\ minute (bar_point b) = Datetime.minute now / 30 * 30
     /\ bar_index b < Z.of_nat (List.length today_part)).
Proof.
  intros Hb. destruct (layout_bars_in _ _ _ _ _ _ _ _ Hbars Hb) as [_ [_ Hl]].
  apply layout_bar_ok in Hl as [h [_ Heq]].
  rewrite Heq at 1. cbn [is_current]. unfold in_current_slot.
  rewrite !andb_true_iff, !Z.eqb_eq, Z.ltb_lt. tauto.
Qed.

Lemma marker_in_today (b : bar) :
  In b bars -> is_current b = true ->
  nth_error today_part (Z.to_nat (bar_index b)) = Some (bar_point b).
Proof.
  intros Hb Hc. destruct (layout_bars_in _ _ _ _ _ _ _ _ Hbars Hb) as [Hi [Hn _]].
  apply (marker_iff b Hb) in Hc as [_ [_ Hlt]].
  rewrite nth_error_app1 in Hn by lia. exact Hn.
Qed.

Lemma no_marker_in_tomorrow (b : bar) :
  In b bars -> Z.of_nat (List.length today_part) <= bar_index b ->
  is_current b = false.
Proof.
  intros Hb Hge. destruct (is_current b) eqn:Hc; [|reflexivity].
  apply (marker_iff b Hb) in Hc. lia.
Qed.

End Marker.

(** C7.  In both dashboards a bar carries the current-slot marker exactly
    when its (hour, minute) is the live half-hour slot and its index lies
    strictly before the index where tomorrow starts.  A marked bar is a point
    of the today portion; a bar of the tomorrow portion is never marked,
    whatever its (hour, minute); and the dashes are drawn for marked bars
    only. *)
Theorem marker_only_in_today_portion
    (now : Datetime.datetime) (r : chart_range) (cx bw : Z)
    (today_part tomorrow_part : list price_point) (bars : list bar) (b : bar) :
  layout_bars now r cx bw (Z.of_nat (List.length today_part))
    (today_part ++ tomorrow_part) = Py.Ok bars ->
  In b bars ->
  (is_current b = true <->
     hour (bar_point b) = Datetime.hour now
     /\ minute (bar_point b) = Datetime.minute now / 30 * 30
     /\ bar_index b < Z.of_nat (List.length today_part))
  /\ (is_current b = true ->
        nth_error today_part (Z.to_nat (bar_index b)) = Some (bar_point b))
  /\ (Z.of_nat (List.length today_part) <= bar_index b -> is_current b = false)
  /\ (forall f op, In op (draw_bar bw f b) -> is_line op = true ->
        is_current b = true).
Proof.
  intros H Hb. split; [eapply marker_iff; eauto|].
  split; [eapply marker_in_today; eauto|].
  split; [eapply no_marker_in_tomorrow; eauto|].
  intros f op. apply draw_bar_lines.
Qed.

(** Tomorrow's 14:00 bar is in the current slot at 14:10 and is not marked. *)
Lemma marker_only_in_today_portion_witness :
  exists bars b,
    layout_bars Sample.now Sample.marker_range 30 10 2
      (Sample.marker_today ++ Sample.marker_tomorrow) = Py.Ok bars
    /\ nth_error bars 2 = Some b
    /\ in_current_slot Sample.now (bar_point b) = true
    /\ is_current b = false.
Proof.
  pose (bars := match layout_bars Sample.now Sample.marker_range 30 10 2
                        (Sample.marker_today ++ Sample.marker_tomorrow) with
                | Py.Ok bs => bs
                | Py.Raise _ => []
                end).
  assert (H : layout_bars Sample.now Sample.marker_range 30 10 2
                (Sample.marker_today ++ Sample.marker_tomorrow) = Py.Ok bars)
    by (vm_compute; reflexivity).
  destruct (nth_error bars 2) as [b|] eqn:Hb; [|vm_compute in Hb; discriminate].
  assert (Hin : In b bars) by (eapply nth_error_In; exact Hb).
  assert (Hidx : 2 <= bar_index b) by (vm_compute in Hb; inversion Hb; discriminate).
  assert (Hslot : in_current_slot Sample.now (bar_point b) = true)
    by (vm_compute in Hb; inversion Hb; reflexivity).
  destruct (marker_only_in_today_portion Sample.now Sample.marker_range 30 10
              Sample.marker_today Sample.marker_tomorrow bars b H Hin)
    as [_ [_ [Hno _]]].
  exists bars, b. split; [exact H|]. split; [exact Hb|]. split; [exact Hslot|].
  apply Hno. exact Hidx.
Defined.

(** The bar loops of the two dashboards are instances: the display window
    is the today portion followed by tomorrow, and the marker test uses the
    length of the today portion. *)
Lemma dashboard_bars_split (today tomorrow : list price_point) :
  Dashboard.display_prices today tomorrow
  = Dashboard.trim_today today tomorrow ++ tomorrow
  /\ Dashboard.tomorrow_start_idx today tomorrow
     = Z.of_nat (List.length (Dashboard.trim_today today tomorrow)).
Proof. split; reflexivity. Qed.

Lemma snap_bars_split (d : Datetime.date) (today tomorrow kept display : list price_point) :
  Snap.reconcile d today tomorrow = Py.Ok (kept, display) ->
  exists today_part,
    display = today_part ++ tomorrow
    /\ Snap.tomorrow_start_idx kept tomorrow display
       = Z.of_nat (List.length today_part).
Proof.
  unfold Snap.reconcile, Snap.tomorrow_start_idx, Snap.has_tomorrow.
  destruct tomorrow as [|q tm].
  - intros H; inversion H; subst. exists display. now rewrite app_nil_r.
  - destruct today as [|p t].
    + intros H; inversion H; subst. exists []. split; reflexivity.
    + destruct (Snap.from_noon (Snap.noon d p) (p :: t)) as [k|]; cbn [Py.bind];
        intros H; [|discriminate].
      inversion H; subst. exists kept. split; reflexivity.
Qed.

(* ================================================================== *)
(** * Two full days *)
(* ================================================================== *)

(** C9 (as stated) fails on the code: with 48 points today and 48 points
    tomorrow both dashboards chart 72 points, not 48. *)
Lemma full_days_counterexample :
  List.length Sample.today48 = 48%nat
  /\ List.length Sample.tomorrow48 = 48%nat
  /\ List.length (Dashboard.display_prices Sample.today48 Sample.tomorrow48) = 72%nat
  /\ Snap.reconcile Sample.today Sample.today48 Sample.tomorrow48
     = Py.Ok (Sample.afternoon, Sample.afternoon ++ Sample.tomorrow48)
  /\ List.length (Sample.afternoon ++ Sample.tomorrow48) = 72%nat.
Proof. vm_compute. repeat split. Qed.

(** C9 (as the code has it).  With exactly 48 points today and 48 points
    tomorrow, the display window of [dashboard.py] has exactly 72 entries:
    the last 24 points of today followed by the 48 points of tomorrow; the
    current-slot marker can appear only within the first 24 entries.  In
    [dashboard-snap.py] the window is the points of today at or after noon
    followed by the 48 points of tomorrow, and the marker can appear only
    among the former. *)
Theorem full_days_window
    (now : Datetime.datetime) (r : chart_range) (cx bw : Z)
    (today tomorrow : list price_point) :
  List.length today = 48%nat -> List.length tomorrow = 48%nat ->
  List.length (Dashboard.display_prices today tomorrow) = 72%nat
  /\ Dashboard.display_prices today tomorrow = Py.slice_last 24 today ++ tomorrow
  /\ Dashboard.tomorrow_start_idx today tomorrow = 24
  /\ (forall bars b,
        layout_bars now r cx bw (Dashboard.tomorrow_start_idx today tomorrow)
          (Dashboard.display_prices today tomorrow) = Py.Ok bars ->
        In b bars -> is_current b = true -> 0 <= bar_index b < 24)
  /\ (forall d kept display bars b,
        Snap.reconcile d today tomorrow = Py.Ok (kept, display) ->
        layout_bars now r cx bw (Snap.tomorrow_start_idx kept tomorrow display)
          display = Py.Ok bars ->
        display = kept ++ tomorrow
        /\ List.length display = (List.length kept + 48)%nat
        /\ (In b bars -> is_current b = true ->
            0 <= bar_index b < Z.of_nat (List.length kept))).
Proof.
  intros Ht Hm.
  assert (Hne : tomorrow <> []) by (intros ->; discriminate).
  assert (Hd : Dashboard.display_prices today tomorrow = skipn 24 today ++ tomorrow)
    by (apply display_with_tomorrow_long; [exact Hne | lia]).
  assert (Hi : Dashboard.tomorrow_start_idx today tomorrow = 24).
  { unfold Dashboard.tomorrow_start_idx, Dashboard.trim_today.
    destruct tomorrow; [congruence|]. cbn [Dashboard.has_tomorrow andb].
    rewrite Ht. cbn -[skipn]. unfold Py.slice_from. rewrite length_skipn, Ht.
    reflexivity. }
  split; [rewrite Hd, length_app, length_skipn, Ht, Hm; reflexivity|].
  split; [rewrite Hd, (full_day_tail today Ht); reflexivity|].
  split; [exact Hi|].
  split.
  - intros bars b Hb Hin Hc. rewrite Hi, Hd in Hb.
    assert (Hl : Z.of_nat (List.length (skipn 24 today)) = 24)
      by (rewrite length_skipn, Ht; reflexivity).
    rewrite <- Hl in Hb.
    destruct (layout_bars_in _ _ _ _ _ _ _ _ Hb Hin) as [Hrange _].
    apply (marker_iff _ _ _ _ _ _ _ Hb b Hin) in Hc. lia.
  - intros d kept display bars b Hr Hb.
    assert (Hk : display = kept ++ tomorrow
                 /\ Snap.tomorrow_start_idx kept tomorrow display
                    = Z.of_nat (List.length kept)).
    { unfold Snap.reconcile in Hr. unfold Snap.tomorrow_start_idx, Snap.has_tomorrow.
      rewrite Hm. destruct tomorrow as [|q tm]; [congruence|].
      destruct today as [|p t]; [discriminate|].
      destruct (Snap.from_noon (Snap.noon d p) (p :: t)); cbn [Py.bind] in Hr;
        [|discriminate].
      inversion Hr; subst. split; reflexivity. }
    destruct Hk as [Hdisp Hidx].
    split; [exact Hdisp|]. split; [rewrite Hdisp, length_app, Hm; reflexivity|].
    intros Hin Hc. rewrite Hidx, Hdisp in Hb.
    destruct (layout_bars_in _ _ _ _ _ _ _ _ Hb Hin) as [Hrange _].
    apply (marker_iff _ _ _ _ _ _ _ Hb b Hin) in Hc. lia.
Qed.

(** The two sample days: 48 and 48 points, 72 charted. *)
Lemma full_days_window_witness :
  List.length Sample.today48 = 48%nat
  /\ List.length Sample.tomorrow48 = 48%nat
  /\ List.length (Dashboard.display_prices Sample.today48 Sample.tomorrow48) = 72%nat
  /\ Dashboard.tomorrow_start_idx Sample.today48 Sample.tomorrow48 = 24.
Proof.
  assert (Ht : List.length Sample.today48 = 48%nat) by reflexivity.
  assert (Hm : List.length Sample.tomorrow48 = 48%nat) by reflexivity.
  destruct (full_days_window Sample.now Sample.marker_range 30 3
              Sample.today48 Sample.tomorrow48 Ht Hm) as [Hl [_ [Hi _]]].
  split; [exact Ht|]. split; [exact Hm|]. split; [exact Hl | exact Hi].
Defined.

(* ================================================================== *)
(** * The current price *)
(* ================================================================== *)

Lemma find_first {A : Type} (f : A -> bool) (l : list A) (x : A) :
  find f l = Some x <->
  exists before after,
    l = before ++ x :: after /\ f x = true
    /\ forall y, In y before -> f y = false.
Proof.
  split.
  - induction l as [|a t IH]; cbn [find]; [discriminate|].
    destruct (f a) eqn:Ha; intros H.
    + inversion H; subst. exists [], t. repeat split; auto. intros y [].
    + destruct (IH H) as [before [after [-> [Hx Hb]]]].
      exists (a :: before), after. repeat split; auto.
      intros y [<-|Hy]; auto.
  - intros [before [after [-> [Hx Hb]]]].
    induction before as [|a t IH]; cbn [app find].
    + now rewrite Hx.
    + rewrite (Hb a (or_introl eq_refl)). apply IH. intros y Hy. apply Hb. now right.
Qed.

Lemma in_current_slot_iff (now : Datetime.datetime) (p : price_point) :
  in_current_slot now p = true <->
  hour p = Datetime.hour now /\ minute p = Datetime.minute now / 30 * 30.
Proof. unfold in_current_slot. now rewrite andb_true_iff, !Z.eqb_eq. Qed.

(** The half-hour slot is the minute rounded down to 0 or 30. *)
Lemma current_slot_minute (m : Z) :
  0 <= m <= 59 -> m / 30 * 30 = (if m <? 30 then 0 else 30).
Proof.
  intros H. destruct (Z.ltb_spec m 30).
  - rewrite Z.div_small by lia. reflexivity.
  - replace m with (1 * 30 + (m - 30)) at 1 by lia.
    rewrite Z.div_add_l by lia. rewrite Z.div_small by lia. reflexivity.
Qed.

(** C3.  The current price is the price of the first point of the full
    today series whose (hour, minute) equals
    (now.hour, now.minute // 30 * 30); it is [None] exactly when no point of
    the series matches.  Both dashboards compute it the same way. *)
Theorem current_price_exact_slot (now : Datetime.datetime) (all_today : list price_point) :
  (forall v,
     Dashboard.current_price now all_today = Some v <->
     exists before p after,
       all_today = before ++ p :: after
       /\ hour p = Datetime.hour now
       /\ minute p = Datetime.minute now / 30 * 30
       /\ price p = v
       /\ forall q, In q before ->
            ~ (hour q = Datetime.hour now
               /\ minute q = Datetime.minute now / 30 * 30))
  /\ (Dashboard.current_price now all_today = None <->
      forall p, In p all_today ->
        ~ (hour p = Datetime.hour now
           /\ minute p = Datetime.minute now / 30 * 30))
  /\ Snap.current_price now all_today = Dashboard.current_price now all_today.
Proof.
  unfold Dashboard.current_price, Snap.current_price, Py.next_or_none.
  split; [|split; [|reflexivity]].
  - intros v. split.
    + destruct (find (in_current_slot now) all_today) as [p|] eqn:Hf; [|discriminate].
      intros H; inversion H; subst.
      apply find_first in Hf as [before [after [-> [Hp Hb]]]].
      apply in_current_slot_iff in Hp as [Hh Hm].
      exists before, p, after. repeat split; auto.
      intros q Hq Hs. apply in_current_slot_iff in Hs.
      rewrite (Hb q Hq) in Hs. discriminate.
    + intros [before [p [after [-> [Hh [Hm [<- Hb]]]]]]].
      assert (Hf : find (in_current_slot now) (before ++ p :: after) = Some p).
      { apply find_first. exists before, after. repeat split.
        - apply in_current_slot_iff. auto.
        - intros y Hy. destruct (in_current_slot now y) eqn:Hs; [|reflexivity].
          apply in_current_slot_iff in Hs. destruct (Hb y Hy Hs). }
      now rewrite Hf.
  - split.
    + destruct (find (in_current_slot now) all_today) eqn:Hf; [discriminate|].
      intros _ p Hp Hs. apply in_current_slot_iff in Hs.
      rewrite (find_none _ _ Hf p Hp) in Hs. discriminate.
    + intros H. destruct (find (in_current_slot now) all_today) as [p|] eqn:Hf;
        [|reflexivity].
      apply find_some in Hf as [Hin Hs]. apply in_current_slot_iff in Hs.
      destruct (H p Hin Hs).
Qed.

(** When no two points share a slot, the match is the only one. *)
Lemma current_price_unique (now : Datetime.datetime) (all_today : list price_point)
    (p : price_point) :
  NoDup (map (fun q => (hour q, minute q)) all_today) ->
  In p all_today -> in_current_slot now p = true ->
  Dashboard.current_price now all_today = Some (price p).
Proof.
  intros Hnd Hin Hp. unfold Dashboard.current_price, Py.next_or_none.
  destruct (find (in_current_slot now) all_today) as [q|] eqn:Hf.
  - apply find_some in Hf as [Hq Hs]. cbn [option_map]. f_equal. f_equal.
    apply in_current_slot_iff in Hp as [Hh Hm].
    apply in_current_slot_iff in Hs as [Hh' Hm'].
    clear - Hnd Hin Hq Hh Hm Hh' Hm'.
    induction all_today as [|a t IH]; [destruct Hin|].
    cbn [map] in Hnd. inversion Hnd as [|x l Hnot Hnd']; subst.
    destruct Hin as [->|Hin], Hq as [->|Hq]; auto.
    + exfalso. apply Hnot. apply in_map_iff. exists q. split; [congruence | exact Hq].
    + exfalso. apply Hnot. apply in_map_iff. exists p. split; [congruence | exact Hin].
  - rewrite (find_none _ _ Hf p Hin) in Hp. discriminate.
Qed.

(* ================================================================== *)
(** * A price of exactly zero *)
(* ================================================================== *)

(** C10.  When the current slot exists in today's series and its price is
    exactly 0.0, the current price is present ([Some 0.0]) but the renderer
    treats it as absent: the Now box is filled with the default blue (not the
    green of a price below 10p) and no price number is drawn in it.  A gas
    price of exactly 0.0 is likewise omitted from the gas box. *)
Theorem zero_price_is_absent
    (textbbox : metrics) (now : Datetime.datetime)
    (before after : list price_point) (p : price_point) :
  in_current_slot now p = true ->
  (forall q, In q before -> in_current_slot now q = false) ->
  price p = 0%float ->
  let all_today := before ++ p :: after in
  Dashboard.current_price now all_today = Some 0%float
  /\ Snap.current_price now all_today = Some 0%float
  /\ draw_now_box textbbox (Dashboard.current_price now all_today)
     = [ DrawRectangle (5, y_offset) (WIDTH / 3 - 2, y_offset + box_height) BLUE;
         DrawText (10, y_offset + 3) (Str "Now") font_small (200, 200, 200) ]
  /\ get_price_color 0 = GREEN
  /\ draw_gas_box textbbox (Some 0%float)
     = [ DrawRectangle (2 * WIDTH / 3 + 2, y_offset) (WIDTH - 5, y_offset + box_height)
           ORANGE;
         DrawText (2 * WIDTH / 3 + 7, y_offset + 3) (Str "Gas") font_small
           (255, 220, 200) ].
Proof.
  intros Hp Hb Hz all_today.
  assert (Hc : Dashboard.current_price now all_today = Some 0%float).
  { unfold Dashboard.current_price, Py.next_or_none.
    assert (Hf : find (in_current_slot now) all_today = Some p)
      by (apply find_first; exists before, after; auto).
    rewrite Hf. cbn [option_map]. now rewrite Hz. }
  split; [exact Hc|]. split; [exact Hc|]. rewrite Hc.
  split; [reflexivity|]. split; reflexivity.
Qed.

(** The same happens for any price that compares equal to zero, [-0.0]
    included, and for the whole drawing of either dashboard: the Now box is
    followed directly by the Min box. *)
Lemma falsy_now_box (textbbox : metrics) (c : float) :
  (c =? 0)%float = true ->
  draw_now_box textbbox (Some c)
  = [ DrawRectangle (5, y_offset) (WIDTH / 3 - 2, y_offset + box_height) BLUE;
      DrawText (10, y_offset + 3) (Str "Now") font_small (200, 200, 200) ].
Proof. intros H. unfold draw_now_box, Py.truthy. now rewrite H. Qed.

Lemma falsy_gas_box (textbbox : metrics) (g : float) :
  (g =? 0)%float = true ->
  draw_gas_box textbbox (Some g)
  = [ DrawRectangle (2 * WIDTH / 3 + 2, y_offset) (WIDTH - 5, y_offset + box_height)
        ORANGE;
      DrawText (2 * WIDTH / 3 + 7, y_offset + 3) (Str "Gas") font_small
        (255, 220, 200) ].
Proof. intros H. unfold draw_gas_box, Py.truthy. now rewrite H. Qed.

Lemma dashboard_now_box_position
    (textbbox : metrics) (now : Datetime.datetime)
    (today tomorrow : list price_point) (g g' : option float) (ops : list draw_op) :
  today <> [] ->
  Dashboard.draw_dashboard textbbox now today tomorrow g g' = Py.Ok ops ->
  exists lo hi rest,
    ops = draw_header now
          ++ draw_now_box textbbox (Dashboard.current_price now today)
          ++ draw_min_max_boxes textbbox lo hi ++ rest.
Proof.
  intros Hne H. unfold Dashboard.draw_dashboard in H.
  destruct today as [|p t]; [congruence|].
  destruct (Dashboard.min_price (p :: t)) as [lo|]; cbn [Py.bind] in H; [|discriminate].
  destruct (Dashboard.max_price (p :: t)) as [hi|]; cbn [Py.bind] in H; [|discriminate].
  destruct (Dashboard.draw_chart textbbox now (p :: t) tomorrow) as [chart|];
    cbn [Py.bind] in H; [|discriminate].
  inversion H; subst. do 3 eexists. reflexivity.
Qed.

(** A 14:00 slot at 0.0p, seen at 14:10. *)
Lemma zero_price_is_absent_witness :
  let p := Sample.slot Sample.today Sample.utc (Sample.flat 0) 28 in
  let before := [Sample.slot Sample.today Sample.utc (Sample.flat 7.5) 27] in
  let after := [Sample.slot Sample.today Sample.utc (Sample.flat 9) 29] in
  in_current_slot Sample.now p = true
  /\ price p = 0%float
  /\ Dashboard.current_price Sample.now (before ++ p :: after) = Some 0%float
  /\ draw_now_box Sample.textbbox
       (Dashboard.current_price Sample.now (before ++ p :: after))
     = [ DrawRectangle (5, 30) (104, 80) BLUE;
         DrawText (10, 33) (Str "Now") font_small (200, 200, 200) ].
Proof.
  pose (p := Sample.slot Sample.today Sample.utc (Sample.flat 0) 28).
  pose (before := [Sample.slot Sample.today Sample.utc (Sample.flat 7.5) 27]).
  pose (after := [Sample.slot Sample.today Sample.utc (Sample.flat 9) 29]).
  assert (Hp : in_current_slot Sample.now p = true) by reflexivity.
  assert (Hb : forall q, In q before -> in_current_slot Sample.now q = false)
    by (intros q [<-|[]]; reflexivity).
  assert (Hz : price p = 0%float) by reflexivity.
  destruct (zero_price_is_absent Sample.textbbox Sample.now before after p Hp Hb Hz)
    as [Hc [_ [Hn _]]].
  split; [exact Hp|]. split; [exact Hz|]. split; [exact Hc | exact Hn].
Defined.

(* ================================================================== *)
(** * Bar geometry *)
(* ================================================================== *)

Ltac cmp_solve :=
  repeat match goal with
         | |- context [?a ?= ?b] => destruct (Z.compare_spec a b)
         end;
  repeat split; intros; try discriminate; try reflexivity; try (exfalso; lia).

(** [int(x)] is the integer part of [x], toward zero: for [x >= 0] it is the
    [n] with [n <= x < n + 1], for [x <= 0] the [n] with [n - 1 < x <= n]. *)
Lemma int_truncates_toward_zero (x : float) (n : Z) :
  Py.int x = Py.Ok n ->
  (Py.le_int_float 0 x = true ->
     Py.le_int_float n x = true /\ Py.compare_int x (n + 1) = Some Lt)
  /\ (Py.le_float_int x 0 = true ->
        Py.le_float_int x n = true /\ Py.compare_int x (n - 1) = Some Gt).
Proof.
  unfold Py.int, Py.le_int_float, Py.le_float_int, Py.compare_int.
  destruct (Prim2SF x) as [s|s| |s m e]; try discriminate.
  - intros H; inversion H; subst. cbn. split; intros _; split; reflexivity.
  - intros H; inversion H; subst n; clear H.
    assert (Hm : 0 < Z.pos m) by lia.
    destruct e as [|e|k]; cbn [Py.trunc_mag].
    + rewrite Z.shiftl_0_r. destruct s; cbn [cond_Zopp]; cmp_solve.
    + assert (Hs : 0 < Z.shiftl (Z.pos m) (Z.pos e)).
      { rewrite Z.shiftl_mul_pow2 by lia.
        apply Z.mul_pos_pos; [lia | apply Z.pow_pos_nonneg; lia]. }
      destruct s; cbn [cond_Zopp]; cmp_solve.
    + set (q := Z.shiftr (Z.pos m) (Z.pos k)).
      assert (Hp : 0 < 2 ^ Z.pos k) by (apply Z.pow_pos_nonneg; lia).
      assert (Hq : q = Z.pos m / 2 ^ Z.pos k)
        by (unfold q; apply Z.shiftr_div_pow2; lia).
      assert (Hlo : q * 2 ^ Z.pos k <= Z.pos m)
        by (rewrite Hq, Z.mul_comm; apply Z.mul_div_le; lia).
      assert (Hhi : Z.pos m < (q + 1) * 2 ^ Z.pos k).
      { rewrite Hq. pose proof (Z.mul_succ_div_gt (Z.pos m) (2 ^ Z.pos k) Hp). lia. }
      assert (Hq0 : 0 <= q) by (rewrite Hq; apply Z.div_pos; lia).
      clearbody q. rewrite !Z.shiftl_mul_pow2 by lia.
      generalize dependent (2 ^ Z.pos k). intros P HP Hlo Hhi.
      destruct s; cbn [cond_Zopp]; cmp_solve.
Qed.

(** C5 (as stated) fails on the code.  A 2p bar next to a 100p bar has the
    scaled height 2.6 pixels: the code draws it 2 pixels high, where rounding
    to the nearest integer gives 3. *)
Lemma bar_height_counterexample :
  compute_range Sample.low_high = Py.Ok (mkrange 0 100 100)
  /\ scaled_height (mkrange 0 100 100) 2 = Py.Ok 2
  /\ spec_bar_height (mkrange 0 100 100) 2 = Py.Ok 3
  /\ (bars <- layout_bars Sample.now (mkrange 0 100 100) 30 10 2 Sample.low_high ;;
      Py.Ok (map (fun b => (bar_y b, bar_bottom b)) bars))%py
     = Py.Ok [(chart_y + chart_height - 2, chart_y + chart_height);
              (chart_y, chart_y + chart_height)].
Proof. vm_compute. repeat split. Qed.

(** C5 (as the code has it).  For every bar of a non-empty display window
    the pixel height is [int((price - chart_min) / range * chart_height)]:
    the scaled value truncated toward zero, not rounded to nearest.  The bar
    is drawn from [chart_bottom - height] to [chart_bottom], from its left
    edge [chart_x + i * bar_width] to [x + bar_width - 2]: the 2-pixel gap is
    taken from its right edge. *)
Theorem bar_geometry
    (now : Datetime.datetime) (r : chart_range) (cx bw idx : Z)
    (display : list price_point) (bars : list bar) (b : bar) (f : font) :
  layout_bars now r cx bw idx display = Py.Ok bars ->
  In b bars ->
  exists q h,
    Py.truediv (price (bar_point b) - chart_min_price r)%float (price_range r) = Py.Ok q
    /\ Py.int (q * Py.float_of_int chart_height)%float = Py.Ok h
    /\ (Py.le_int_float 0 (q * Py.float_of_int chart_height)%float = true ->
          Py.le_int_float h (q * Py.float_of_int chart_height)%float = true
          /\ Py.compare_int (q * Py.float_of_int chart_height)%float (h + 1) = Some Lt)
    /\ bar_x b = cx + bar_index b * bw
    /\ bar_y b = chart_y + chart_height - h
    /\ bar_bottom b = chart_y + chart_height
    /\ bar_right b = bar_x b + bw - 2
    /\ In (DrawRectangle (bar_x b, bar_y b) (bar_right b, bar_bottom b)
             (get_price_color (price (bar_point b))))
          (draw_bar bw f b).
Proof.
  intros H Hb. destruct (layout_bars_in _ _ _ _ _ _ _ _ H Hb) as [_ [_ Hl]].
  apply layout_bar_ok in Hl as [h [Hh Heq]].
  unfold scaled_height in Hh.
  destruct (Py.truediv (price (bar_point b) - chart_min_price r) (price_range r))
    as [q|] eqn:Hq; cbn [Py.bind] in Hh; [|discriminate].
  exists q, h. split; [reflexivity|]. split; [exact Hh|].
  split; [apply (int_truncates_toward_zero _ _ Hh)|].
  unfold draw_bar. rewrite Heq.
  cbn [bar_x bar_y bar_bottom bar_right bar_fill bar_index bar_point].
  split; [reflexivity|]. split; [reflexivity|]. split; [reflexivity|].
  split; [lia|]. apply in_or_app. left. now left.
Qed.

(** The 2p bar of the sample window is 2 pixels high and 8 pixels wide. *)
Lemma bar_geometry_witness :
  exists bars b,
    layout_bars Sample.now (mkrange 0 100 100) 30 10 2 Sample.low_high = Py.Ok bars
    /\ nth_error bars 0 = Some b
    /\ Py.int (2 / 100 * Py.float_of_int chart_height)%float = Py.Ok 2
    /\ bar_y b = chart_y + chart_height - 2
    /\ bar_right b = bar_x b + 10 - 2.
Proof.
  pose (bars := match layout_bars Sample.now (mkrange 0 100 100) 30 10 2
                        Sample.low_high with
                | Py.Ok bs => bs
                | Py.Raise _ => []
                end).
  assert (H : layout_bars Sample.now (mkrange 0 100 100) 30 10 2 Sample.low_high
              = Py.Ok bars) by (vm_compute; reflexivity).
  destruct (nth_error bars 0) as [b|] eqn:Hb; [|vm_compute in Hb; discriminate].
  assert (Hin : In b bars) by (eapply nth_error_In; exact Hb).
  destruct (bar_geometry Sample.now (mkrange 0 100 100) 30 10 2 Sample.low_high
              bars b font_small H Hin)
    as [q [h [_ [_ [_ [_ [_ [_ [Hr _]]]]]]]]].
  exists bars, b. split; [exact H|]. split; [exact Hb|].
  split; [vm_compute; reflexivity|].
  split; [vm_compute in Hb; inversion Hb; reflexivity | exact Hr].
Defined.

(* ================================================================== *)
(** * Gridlines *)
(* ================================================================== *)

Lemma range_in (start stop step x : Z) :
  0 < step -> In x (Py.range start stop step) ->
  start <= x < stop /\ (x - start) mod step = 0.
Proof.
  intros Hs Hin. unfold Py.range in Hin. apply in_map_iff in Hin as [i [<- Hi]].
  apply in_seq in Hi as [_ Hi]. cbn in Hi.
  set (n := (stop - start + step - 1) / step) in *.
  assert (Hlt : Z.of_nat i + 1 <= n) by lia.
  assert (Hmul : step * n <= stop - start + step - 1)
    by (apply Z.mul_div_le; lia).
  assert (Hle : (Z.of_nat i + 1) * step <= n * step)
    by (apply Z.mul_le_mono_nonneg_r; lia).
  split; [split; [nia | lia]|].
  replace (start + Z.of_nat i * step - start) with (Z.of_nat i * step) by lia.
  apply Z.mod_mul. lia.
Qed.

Lemma mapM_concat_in {A B : Type} (f : A -> Py.result (list B)) (l : list A)
    (ls : list (list B)) (g : B) :
  Py.mapM f l = Py.Ok ls -> In g (List.concat ls) ->
  exists x out, In x l /\ f x = Py.Ok out /\ In g out.
Proof.
  intros H Hg. apply in_concat in Hg as [out [Hout Hg]].
  destruct (mapM_ok_in f l ls H out Hout) as [x [Hx Hf]]. eauto.
Qed.

(** [dashboard.py] starts its gridlines at 0: none has a negative value,
    whatever the chart range. *)
Lemma dashboard_gridlines_nonnegative (r : chart_range) (gs : list (Z * Z)) (g : Z * Z) :
  Dashboard.gridlines r = Py.Ok gs -> In g gs -> 0 <= fst g.
Proof.
  unfold Dashboard.gridlines. intros H Hg.
  destruct (Py.int (chart_max_price r)) as [top|]; cbn [Py.bind] in H; [|discriminate].
  destruct (Py.mapM (Dashboard.gridline r) (Py.range 0 (top + 10) 10)) as [ls|] eqn:Hm;
    cbn [Py.bind] in H; [|discriminate].
  inversion H; subst gs.
  destruct (mapM_concat_in _ _ _ _ Hm Hg) as [v [out [Hv [Hf Hin]]]].
  apply range_in in Hv as [[Hv _] _]; [|lia].
  unfold Dashboard.gridline in Hf.
  destruct (Py.le_float_int (chart_min_price r) v); [|inversion Hf; subst; destruct Hin].
  destruct (scaled_height r (Py.float_of_int v)) as [h|]; cbn [Py.bind] in Hf;
    [|discriminate].
  destruct ((chart_y <=? chart_y + chart_height - h)
            && (chart_y + chart_height - h <=? chart_y + chart_height));
    inversion Hf; subst out; [|destruct Hin].
  destruct Hin as [<-|[]]. exact Hv.
Qed.

(** [dashboard-snap.py] draws a gridline only at a multiple of 10 that lies
    within [[chart_min, chart_max]], inside the chart area. *)
Lemma snap_gridlines_within_range (r : chart_range) (gs : list (Z * Z)) (v y : Z) :
  Snap.gridlines r = Py.Ok gs -> In (v, y) gs ->
  v mod 10 = 0
  /\ Py.le_float_int (chart_min_price r) v = true
  /\ Py.le_int_float v (chart_max_price r) = true
  /\ chart_y <= y <= chart_y + chart_height.
Proof.
  unfold Snap.gridlines. intros H Hg.
  destruct (Snap.min_grid r) as [lo|] eqn:Hlo; cbn [Py.bind] in H; [|discriminate].
  destruct (Snap.max_grid r) as [hi|]; cbn [Py.bind] in H; [|discriminate].
  destruct (Py.mapM (Snap.gridline r) (Py.range lo (hi + 1) Snap.gridline_interval))
    as [ls|] eqn:Hm; cbn [Py.bind] in H; [|discriminate].
  inversion H; subst gs.
  destruct (mapM_concat_in _ _ _ _ Hm Hg) as [x [out [Hx [Hf Hin]]]].
  apply range_in in Hx as [_ Hmod]; [|reflexivity].
  assert (Hlo10 : lo mod 10 = 0).
  { unfold Snap.min_grid in Hlo.
    destruct (Py.floordiv (chart_min_price r) (Py.float_of_int Snap.gridline_interval));
      cbn [Py.bind] in Hlo; [|discriminate].
    destruct (Py.int a); cbn [Py.bind] in Hlo; [|discriminate].
    inversion Hlo; subst lo. apply Z.mod_mul. discriminate. }
  unfold Snap.gridline in Hf.
  destruct (Py.le_float_int (chart_min_price r) x) eqn:H1;
    [|inversion Hf; subst; destruct Hin].
  destruct (Py.le_int_float x (chart_max_price r)) eqn:H2;
    [|inversion Hf; subst; destruct Hin].
  cbn [andb] in Hf.
  destruct (scaled_height r (Py.float_of_int x)) as [h|]; cbn [Py.bind] in Hf;
    [|discriminate].
  remember (chart_y + chart_height - h) as yp eqn:Hyp.
  remember (chart_y + chart_height) as bottom eqn:Hbot.
  destruct ((chart_y <=? yp) && (yp <=? bottom)) eqn:Hy;
    inversion Hf; subst out; [|destruct Hin].
  destruct Hin as [Heq|[]]. inversion Heq; subst v y.
  apply andb_true_iff in Hy as [Hy1 Hy2]. apply Z.leb_le in Hy1, Hy2.
  unfold Snap.gridline_interval in Hmod.
  split; [|split; [exact H1 | split; [exact H2 | lia]]].
  replace x with ((x - lo) + lo) by lia.
  rewrite Z.add_mod, Hmod, Hlo10 by discriminate. reflexivity.
Qed.

(** C6, at the failing input.  For the window [-15p, 5p] the chart range is
    [[-15, 5]] and -10 lies within it; [dashboard.py] draws the gridline at 0
    only, while [dashboard-snap.py] draws those at -10 and 0. *)
Theorem dashboard_gridlines_miss_negative :
  compute_range Sample.below_zero = Py.Ok (mkrange (-15) 5 20)
  /\ Py.le_float_int (-15) (-10) = true
  /\ Py.le_int_float (-10) 5 = true
  /\ Dashboard.gridlines (mkrange (-15) 5 20) = Py.Ok [(0, 123)]
  /\ Snap.gridlines (mkrange (-15) 5 20) = Py.Ok [(-10, 188); (0, 123)].
Proof. vm_compute. repeat split. Qed.

(** [dashboard.py] has no upper filter either: for a single price of 29.9p
    it draws a gridline at 30, above [chart_max]; [dashboard-snap.py] stops
    at 20. *)
Lemma dashboard_gridline_above_max :
  Py.le_int_float 30 29.9 = false
  /\ Dashboard.gridlines (mkrange 0 29.9 29.9)
     = Py.Ok [(0, 220); (10, 177); (20, 134); (30, 90)]
  /\ Snap.gridlines (mkrange 0 29.9 29.9) = Py.Ok [(0, 220); (10, 177); (20, 134)].
Proof. vm_compute. repeat split. Qed.

(* ================================================================== *)
(** * ISO 8601 text: formatting then parsing *)
(* ================================================================== *)

Section IsoText.

Import Datetime.
Local Open Scope string_scope.

Lemma append_assoc (a b c : string) : (a ++ b) ++ c = a ++ (b ++ c).
Proof. induction a as [|x a IH]; cbn; [reflexivity | now rewrite IH]. Qed.

Lemma append_nil_r (a : string) : a ++ "" = a.
Proof. induction a as [|x a IH]; cbn; [reflexivity | now rewrite IH]. Qed.

Lemma length_append (a b : string) :
  String.length (a ++ b) = (String.length a + String.length b)%nat.
Proof. induction a as [|x a IH]; cbn; [reflexivity | now rewrite IH]. Qed.

Lemma length_fixed_digits (n : nat) (z : Z) : String.length (fixed_digits n z) = n.
Proof.
  revert z. induction n as [|n IH]; intros z; cbn [fixed_digits]; [reflexivity|].
  rewrite length_append, IH. cbn. lia.
Qed.

Lemma digit_cases (z : Z) :
  let d := (z mod 10)%Z in
  (d = 0 \/ d = 1 \/ d = 2 \/ d = 3 \/ d = 4 \/ d = 5 \/ d = 6 \/ d = 7 \/ d = 8 \/ d = 9)%Z.
Proof. intros d. pose proof (Z.mod_pos_bound z 10 eq_refl). subst d. lia. Qed.

Lemma digit_val_char (z : Z) : digit_val (digit_char z) = Some (z mod 10)%Z.
Proof.
  unfold digit_char. destruct (digit_cases z) as [H|H]; repeat (destruct H as [H|H]);
    rewrite H; reflexivity.
Qed.

Lemma separator_not_digit (c : ascii) (z : Z) :
  separator c -> Ascii.eqb c (digit_char z) = false.
Proof.
  unfold digit_char. intros Hc.
  destruct (digit_cases z) as [H|H]; repeat (destruct H as [H|H]); rewrite H;
    destruct Hc as [->|[->|[->|[->| ->]]]]; reflexivity.
Qed.

Lemma parse_digits_snoc (n : nat) (acc : Z) (s : string) :
  parse_digits (S n) acc s
  = match parse_digits n acc s with
    | Some (v, String c r) =>
        match digit_val c with
        | Some d => Some (10 * v + d, r)%Z
        | None => None
        end
    | _ => None
    end.
Proof.
  revert acc s. induction n as [|n IH]; intros acc s.
  - cbn. destruct s as [|c r]; [reflexivity|]. now destruct (digit_val c).
  - cbn [parse_digits]. destruct s as [|c r]; [reflexivity|].
    destruct (digit_val c) as [d|]; [|reflexivity].
    rewrite <- IH. reflexivity.
Qed.

Lemma parse_fixed_digits (n : nat) (z acc : Z) (rest : string) :
  (0 <= z < 10 ^ Z.of_nat n)%Z ->
  parse_digits n acc (fixed_digits n z ++ rest) = Some (acc * 10 ^ Z.of_nat n + z, rest)%Z.
Proof.
  revert z acc rest. induction n as [|n IH]; intros z acc rest Hz.
  - cbn in *. f_equal. f_equal. lia.
  - rewrite parse_digits_snoc. cbn [fixed_digits]. rewrite append_assoc.
    rewrite Nat2Z.inj_succ, Z.pow_succ_r in * by lia.
    rewrite IH by (split; [apply Z.div_pos; lia | apply Z.div_lt_upper_bound; lia]).
    cbn [append]. rewrite digit_val_char. f_equal. f_equal.
    pose proof (Z.div_mod z 10 ltac:(lia)). lia.
Qed.


Lemma parse_fixed (n : nat) (z : Z) (rest : string) :
  (0 <= z < 10 ^ Z.of_nat n)%Z ->
  parse_digits n 0 (fixed_digits n z ++ rest) = Some (z, rest).
Proof. intros H. now rewrite parse_fixed_digits. Qed.

Lemma parse_fixed_end (n : nat) (z : Z) :
  (0 <= z < 10 ^ Z.of_nat n)%Z ->
  parse_digits n 0 (fixed_digits n z) = Some (z, "").
Proof.
  intros H. rewrite <- (append_nil_r (fixed_digits n z)). now apply parse_fixed.
Qed.

Lemma lacks_append (c : ascii) (a b : string) :
  lacks c (a ++ b) = lacks c a && lacks c b.
Proof.
  induction a as [|x a IH]; cbn [append lacks]; [reflexivity|].
  now rewrite IH, andb_assoc.
Qed.

Lemma lacks_fixed_digits (c : ascii) (n : nat) (z : Z) :
  separator c -> lacks c (fixed_digits n z) = true.
Proof.
  intros Hc. revert z. induction n as [|n IH]; intros z; cbn [fixed_digits];
    [reflexivity|].
  rewrite lacks_append, IH. cbn [lacks]. now rewrite separator_not_digit.
Qed.

Lemma split_at_none (c : ascii) (s : string) :
  lacks c s = true -> split_at c s = None.
Proof.
  induction s as [|x s IH]; cbn [lacks split_at]; [reflexivity|].
  intros H. apply andb_true_iff in H as [Hx Hs].
  apply negb_true_iff in Hx. now rewrite Hx, IH.
Qed.

Lemma split_at_first (c : ascii) (a b : string) :
  lacks c a = true -> split_at c (a ++ String c b) = Some (a, b).
Proof.
  induction a as [|x a IH]; cbn [lacks append split_at].
  - now rewrite Ascii.eqb_refl.
  - intros H. apply andb_true_iff in H as [Hx Hs].
    apply negb_true_iff in Hx. now rewrite Hx, IH.
Qed.

Lemma parse_frac_text (us : Z) :
  (0 <= us <= 999999)%Z -> parse_fraction (frac_text us) = Some us.
Proof.
  intros H. unfold frac_text. destruct (Z.eqb_spec us 0) as [->|Hne]; [reflexivity|].
  cbn [append parse_fraction]. cbn [Ascii.eqb Bool.eqb].
  rewrite length_fixed_digits. cbn [Nat.eqb].
  rewrite parse_fixed_end by (cbn; lia). reflexivity.
Qed.

Lemma parse_hms_text (h m s us : Z) :
  (0 <= h < 100)%Z -> (0 <= m < 100)%Z -> (0 <= s < 100)%Z ->
  (0 <= us <= 999999)%Z ->
  parse_hh_mm_ss_ff (hms_text h m s us) = Some (h, m, s, us).
Proof.
  intros Hh Hm Hs Hus. unfold parse_hh_mm_ss_ff, hms_text.
  rewrite parse_fixed by (cbn; lia). cbn [append expect Ascii.eqb Bool.eqb].
  rewrite parse_fixed by (cbn; lia). cbn [append expect Ascii.eqb Bool.eqb].
  rewrite parse_fixed by (cbn; lia).
  now rewrite parse_frac_text.
Qed.

Lemma parse_hm_text (h m : Z) :
  (0 <= h < 100)%Z -> (0 <= m < 100)%Z ->
  parse_hh_mm_ss_ff (hm_text h m) = Some (h, m, 0, 0)%Z.
Proof.
  intros Hh Hm. unfold parse_hh_mm_ss_ff, hm_text.
  rewrite parse_fixed by (cbn; lia). cbn [append expect Ascii.eqb Bool.eqb].
  rewrite parse_fixed_end by (cbn; lia). reflexivity.
Qed.

Lemma lacks_frac_text (c : ascii) (us : Z) :
  c = "-"%char \/ c = "+"%char -> lacks c (frac_text us) = true.
Proof.
  intros Hc. unfold frac_text. destruct (us =? 0)%Z; [reflexivity|].
  cbn [append lacks]. rewrite lacks_fixed_digits by (destruct Hc as [->| ->]; red; auto).
  destruct Hc as [->| ->]; reflexivity.
Qed.

Lemma lacks_hms_text (c : ascii) (h m s us : Z) :
  c = "-"%char \/ c = "+"%char -> lacks c (hms_text h m s us) = true.
Proof.
  intros Hc. unfold hms_text.
  assert (Hsep : separator c) by (destruct Hc as [->| ->]; red; auto).
  rewrite !lacks_append, !lacks_fixed_digits, lacks_frac_text by assumption.
  destruct Hc as [->| ->]; reflexivity.
Qed.


Lemma format_offset_text (off : Z) :
  format_offset (Some off)
  = (if (off <? 0)%Z then "-" else "+") ++ offset_text (Z.abs off).
Proof.
  unfold format_offset, offset_text, hm_text, hms_text, frac_text.
  destruct (((Z.abs off mod 60000000 / 1000000 =? 0)
             && (Z.abs off mod 1000000 =? 0))%Z).
  - now rewrite append_nil_r.
  - reflexivity.
Qed.

Lemma offset_fields (a : Z) :
  (0 <= a < 86400000000)%Z ->
  (0 <= a / 3600000000 < 100
   /\ 0 <= (a mod 3600000000) / 60000000 < 100
   /\ 0 <= (a mod 60000000) / 1000000 < 100
   /\ 0 <= a mod 1000000 <= 999999
   /\ ((a / 3600000000 * 60 + (a mod 3600000000) / 60000000) * 60
         + (a mod 60000000) / 1000000) * 1000000 + a mod 1000000 = a)%Z.
Proof. intros H. Z.div_mod_to_equations. lia. Qed.

Lemma length_offset_text (a : Z) :
  let n := String.length (offset_text a) in
  ((n =? 5) || (n =? 8) || (n =? 15))%nat = true.
Proof.
  unfold offset_text, hm_text, hms_text, frac_text.
  destruct (((a mod 60000000 / 1000000 =? 0) && (a mod 1000000 =? 0))%Z).
  - rewrite !length_append, !length_fixed_digits. reflexivity.
  - destruct (a mod 1000000 =? 0)%Z;
      rewrite !length_append, !length_fixed_digits; reflexivity.
Qed.

Lemma parse_offset_text (a : Z) :
  (0 <= a < 86400000000)%Z ->
  exists h m s us,
    parse_hh_mm_ss_ff (offset_text a) = Some (h, m, s, us)
    /\ (((h * 60 + m) * 60 + s) * 1000000 + us = a)%Z.
Proof.
  intros H. destruct (offset_fields a H) as [Hh [Hm [Hs [Hus Hsum]]]].
  unfold offset_text.
  destruct (((a mod 60000000 / 1000000 =? 0) && (a mod 1000000 =? 0))%Z) eqn:Hz.
  - apply andb_true_iff in Hz as [Hz1 Hz2]. apply Z.eqb_eq in Hz1, Hz2.
    do 4 eexists. split; [apply parse_hm_text; assumption|]. lia.
  - do 4 eexists. split; [apply parse_hms_text; assumption|]. exact Hsum.
Qed.

Lemma lacks_offset_text (c : ascii) (a : Z) :
  c = "-"%char \/ c = "+"%char -> lacks c (offset_text a) = true.
Proof.
  intros Hc. unfold offset_text.
  destruct (((a mod 60000000 / 1000000 =? 0) && (a mod 1000000 =? 0))%Z).
  - unfold hm_text.
    assert (Hsep : separator c) by (destruct Hc as [->| ->]; red; auto).
    rewrite !lacks_append, !lacks_fixed_digits by assumption.
    destruct Hc as [->| ->]; reflexivity.
  - now apply lacks_hms_text.
Qed.

Lemma parse_time_text (h m s us : Z) (off : option Z) :
  (0 <= h < 100)%Z -> (0 <= m < 100)%Z -> (0 <= s < 100)%Z ->
  (0 <= us <= 999999)%Z -> valid_offset off = true ->
  parse_isoformat_time (hms_text h m s us ++ format_offset off)
  = Some (h, m, s, us, off).
Proof.
  intros Hh Hm Hs Hus Hoff. unfold parse_isoformat_time, split_tz.
  destruct off as [o|].
  - cbn [valid_offset] in Hoff. apply andb_true_iff in Hoff as [Hlo Hhi].
    apply Z.ltb_lt in Hlo, Hhi.
    assert (Ha : (0 <= Z.abs o < 86400000000)%Z) by lia.
    destruct (parse_offset_text _ Ha) as [th [tm [ts [tus [Hp Hsum]]]]].
    pose proof (length_offset_text (Z.abs o)) as Hlen. cbn zeta in Hlen.
    rewrite format_offset_text. destruct (Z.ltb_spec o 0) as [Hneg|Hpos];
      cbn [append].
    + rewrite split_at_first by (apply lacks_hms_text; auto).
      rewrite parse_hms_text by assumption. rewrite Hlen, Hp.
      do 3 f_equal. lia.
    + rewrite split_at_none.
      2:{ rewrite lacks_append, lacks_hms_text by auto. cbn [lacks].
          rewrite lacks_offset_text by auto. reflexivity. }
      rewrite split_at_first by (apply lacks_hms_text; auto).
      rewrite parse_hms_text by assumption. rewrite Hlen, Hp.
      do 3 f_equal. lia.
  - cbn [format_offset]. rewrite append_nil_r.
    rewrite !split_at_none by (apply lacks_hms_text; auto).
    now rewrite parse_hms_text.
Qed.


Ltac split_andb :=
  repeat match goal with
         | H : (_ && _)%bool = true |- _ => apply andb_true_iff in H as [H ?]
         end;
  repeat match goal with
         | H : (_ <=? _)%Z = true |- _ => apply Z.leb_le in H
         end.

Lemma days_in_month_bound (y m : Z) : (days_in_month y m <= 31)%Z.
Proof.
  unfold days_in_month.
  repeat match goal with |- context [if ?b then _ else _] => destruct b end; lia.
Qed.

Lemma parse_date_text (d : date) (rest : string) :
  valid_date d = true ->
  parse_isoformat_date (date_isoformat d ++ rest)
  = Some (year d, month d, day d, rest).
Proof.
  intros Hv. unfold valid_date in Hv. split_andb.
  pose proof (days_in_month_bound (year d) (month d)).
  unfold parse_isoformat_date, date_isoformat. rewrite !append_assoc.
  rewrite parse_fixed by (cbn; lia). cbn [append expect Ascii.eqb Bool.eqb].
  rewrite parse_fixed by (cbn; lia). cbn [append expect Ascii.eqb Bool.eqb].
  rewrite parse_fixed by (cbn; lia). reflexivity.
Qed.

Lemma isoformat_text (t : datetime) :
  isoformat t
  = date_isoformat (dt_date t)
      ++ String "T" (hms_text (hour t) (minute t) (second t) (microsecond t)
                       ++ format_offset (utcoffset t)).
Proof.
  unfold isoformat, hms_text, frac_text. cbv zeta.
  rewrite !append_assoc. reflexivity.
Qed.

Lemma hms_text_cons (h m s us : Z) (rest : string) :
  exists c r, hms_text h m s us ++ rest = String c r.
Proof. unfold hms_text. cbn [fixed_digits append]. eauto. Qed.

(** Parsing what [isoformat] wrote gives the datetime back. *)
Lemma fromisoformat_isoformat (t : datetime) :
  valid_datetime t = true -> fromisoformat (isoformat t) = Py.Ok t.
Proof.
  intros Hv. pose proof Hv as Hv'. unfold valid_datetime in Hv'. split_andb.
  unfold fromisoformat. rewrite isoformat_text, parse_date_text by assumption.
  destruct (hms_text_cons (hour t) (minute t) (second t) (microsecond t)
              (format_offset (utcoffset t))) as [c [r Hcr]].
  rewrite Hcr, <- Hcr. rewrite parse_time_text by (assumption || lia).
  destruct t as [[y mo d] h mi s us off]. cbn [dt_date year month day hour minute
    second microsecond utcoffset] in *. now rewrite Hv.
Qed.

(** Parsing what [date.isoformat] wrote gives midnight of that date. *)
Lemma fromisoformat_date (d : date) :
  valid_date d = true ->
  fromisoformat (date_isoformat d) = Py.Ok (mkdatetime d 0 0 0 0 None).
Proof.
  intros Hv. unfold fromisoformat.
  rewrite <- (append_nil_r (date_isoformat d)), parse_date_text by assumption.
  destruct d as [y mo dd]. cbn [year month day].
  unfold valid_datetime. cbn [dt_date hour minute second microsecond utcoffset].
  rewrite Hv. reflexivity.
Qed.

End IsoText.

(* ================================================================== *)
(** * The cache round trip *)
(* ================================================================== *)

Lemma valid_datetime_date (t : Datetime.datetime) :
  Datetime.valid_datetime t = true -> Datetime.valid_date (Datetime.dt_date t) = true.
Proof.
  unfold Datetime.valid_datetime. intros H.
  do 9 (apply andb_true_iff in H as [H _]). exact H.
Qed.

Lemma dashboard_item_round_trip (p : price_point) :
  cacheable p ->
  exists item, Dashboard.to_cache_item p = Py.Ok item
               /\ Dashboard.from_cache_item item = Py.Ok p.
Proof.
  intros [Hv Hd]. unfold Dashboard.to_cache_item. rewrite Hd.
  eexists. split; [reflexivity|].
  unfold Dashboard.from_cache_item. cbn [c_timestamp c_hour c_minute c_price].
  rewrite fromisoformat_isoformat by exact Hv. cbn [Py.bind].
  destruct p as [h m pr ts d]. cbn [timestamp date hour minute price] in *.
  now rewrite Hd.
Qed.

Lemma snap_item_round_trip (p : price_point) :
  cacheable p ->
  exists item, Snap.to_cache_item p = Py.Ok item
               /\ Snap.from_cache_item item = Py.Ok p.
Proof.
  intros [Hv Hd]. unfold Snap.to_cache_item. rewrite Hd.
  eexists. split; [reflexivity|].
  unfold Snap.from_cache_item. cbn [c_timestamp c_hour c_minute c_price c_date].
  rewrite fromisoformat_isoformat by exact Hv. cbn [Py.bind].
  rewrite fromisoformat_date by (apply valid_datetime_date; exact Hv).
  cbn [Py.bind Datetime.dt_date].
  destruct p as [h m pr ts d]. cbn [timestamp date hour minute price] in *.
  now rewrite Hd.
Qed.

Lemma mapM_round_trip {A B : Type} (f : A -> Py.result B) (g : B -> Py.result A)
    (l : list A) :
  Forall (fun x => exists y, f x = Py.Ok y /\ g y = Py.Ok x) l ->
  exists ys, Py.mapM f l = Py.Ok ys /\ Py.mapM g ys = Py.Ok l.
Proof.
  induction 1 as [|x t [y [Hf Hg]] _ [ys [Hys Hback]]].
  - exists []. split; reflexivity.
  - exists (y :: ys). cbn [Py.mapM]. rewrite Hf, Hys, Hg, Hback. split; reflexivity.
Qed.

(** C8.  Writing a price series to the cache (timestamp as ISO 8601 text,
    date as ISO date text) and loading it again gives the same series: the
    same hour, minute, price, timestamp and date for every point, in the
    same order.  This holds for every series whose points carry the date of
    their timestamp, the empty one included, in both dashboards. *)
Theorem cache_round_trip (prices : list price_point) :
  Forall cacheable prices ->
  (exists items,
     Dashboard.save_cache prices = Py.Ok items
     /\ Dashboard.load_cache items = Py.Ok prices)
  /\ (exists items,
        Snap.save_cache prices = Py.Ok items
        /\ Snap.load_cache items = Py.Ok prices).
Proof.
  intros H. split.
  - apply mapM_round_trip. eapply Forall_impl; [|exact H].
    intros p Hp. now apply dashboard_item_round_trip.
  - apply mapM_round_trip. eapply Forall_impl; [|exact H].
    intros p Hp. now apply snap_item_round_trip.
Qed.

(** Four sample points written and read back. *)
Lemma cache_round_trip_witness :
  Forall cacheable (Sample.marker_today ++ Sample.marker_tomorrow)
  /\ exists items,
       Dashboard.save_cache (Sample.marker_today ++ Sample.marker_tomorrow)
       = Py.Ok items
       /\ Dashboard.load_cache items
          = Py.Ok (Sample.marker_today ++ Sample.marker_tomorrow).
Proof.
  assert (H : Forall cacheable (Sample.marker_today ++ Sample.marker_tomorrow))
    by (repeat (apply Forall_cons; [split; reflexivity|]); apply Forall_nil).
  split; [exact H|].
  exact (proj1 (cache_round_trip (Sample.marker_today ++ Sample.marker_tomorrow) H)).
Defined.

(** The text that is written for the 14:00 point of the sample day. *)
Lemma cache_item_example :
  Dashboard.to_cache_item (Sample.slot Sample.today Sample.utc (Sample.flat 10) 28)
  = Py.Ok (mkcache 14 0 10 "2024-01-15T14:00:00+00:00" (Some "2024-01-15"%string)).
Proof. reflexivity. Qed.

(* ================================================================== *)
(** * The order of floats *)
(* ================================================================== *)

Lemma compare_rank (x y : spec_float) :
  x <> S754_nan -> y <> S754_nan ->
  SFcompare x y = Some (lex_compare (rank x) (rank y)).
Proof.
  intros Hx Hy.
  destruct x as [sx|sx| |sx mx ex], y as [sy|sy| |sy my ey]; try congruence;
    try (destruct sx, sy; reflexivity); try (destruct sx; reflexivity);
    try (destruct sy; reflexivity).
  destruct sx, sy; cbn [SFcompare rank lex_compare]; try reflexivity.
  change (-1 ?= -1) with Eq. cbv iota. f_equal.
  rewrite Z.compare_opp, (Z.compare_antisym ex ey).
  destruct (ex ?= ey); reflexivity.
Qed.

Lemma lex_compare_le (a b : Z * Z * Z) :
  lex_compare a b <> Gt <-> lex_le a b.
Proof.
  destruct a as [[a1 a2] a3], b as [[b1 b2] b3]. unfold lex_compare, lex_le.
  destruct (Z.compare_spec a1 b1); [destruct (Z.compare_spec a2 b2);
    [destruct (Z.compare_spec a3 b3)|..]|..];
    split; intros Hc; try congruence; try lia; try (exfalso; lia).
Qed.

Lemma lex_compare_lt (a b : Z * Z * Z) :
  lex_compare a b = Lt -> lex_le a b.
Proof. intros H. apply lex_compare_le. congruence. Qed.

Lemma lex_le_trans (a b c : Z * Z * Z) : lex_le a b -> lex_le b c -> lex_le a c.
Proof.
  destruct a as [[a1 a2] a3], b as [[b1 b2] b3], c as [[c1 c2] c3].
  unfold lex_le. lia.
Qed.

Lemma lex_le_total (a b : Z * Z * Z) : lex_compare a b <> Lt -> lex_le b a.
Proof.
  destruct a as [[a1 a2] a3], b as [[b1 b2] b3]. unfold lex_compare, lex_le.
  destruct (Z.compare_spec a1 b1); [destruct (Z.compare_spec a2 b2);
    [destruct (Z.compare_spec a3 b3)|..]|..];
    intros Hc; try congruence; lia.
Qed.

Lemma lex_le_refl (a : Z * Z * Z) : lex_le a a.
Proof. destruct a as [[a1 a2] a3]. unfold lex_le. lia. Qed.

(** [x <= y] on floats that are not NaN is the order of the ranks. *)
Lemma leb_rank (x y : float) :
  not_nan x -> not_nan y ->
  ((x <=? y)%float = true <-> lex_le (rank (Prim2SF x)) (rank (Prim2SF y))).
Proof.
  intros Hx Hy. rewrite leb_spec. unfold SFleb. rewrite compare_rank by assumption.
  rewrite <- lex_compare_le.
  destruct (lex_compare (rank (Prim2SF x)) (rank (Prim2SF y))); split; congruence.
Qed.

Lemma ltb_rank (x y : float) :
  not_nan x -> not_nan y ->
  ((x <? y)%float = true <-> lex_compare (rank (Prim2SF x)) (rank (Prim2SF y)) = Lt).
Proof.
  intros Hx Hy. rewrite ltb_spec. unfold SFltb. rewrite compare_rank by assumption.
  destruct (lex_compare (rank (Prim2SF x)) (rank (Prim2SF y))); split; congruence.
Qed.

Lemma leb_refl (x : float) : not_nan x -> (x <=? x)%float = true.
Proof. intros H. apply leb_rank; auto. apply lex_le_refl. Qed.

Lemma leb_trans (x y z : float) :
  not_nan x -> not_nan y -> not_nan z ->
  (x <=? y)%float = true -> (y <=? z)%float = true -> (x <=? z)%float = true.
Proof.
  intros Hx Hy Hz Hxy Hyz. apply leb_rank in Hxy, Hyz; auto.
  apply leb_rank; auto. eapply lex_le_trans; eauto.
Qed.

Lemma ltb_leb (x y : float) :
  not_nan x -> not_nan y -> (x <? y)%float = true -> (x <=? y)%float = true.
Proof.
  intros Hx Hy H. apply ltb_rank in H; auto. apply leb_rank; auto.
  now apply lex_compare_lt.
Qed.

Lemma not_ltb_leb (x y : float) :
  not_nan x -> not_nan y -> (x <? y)%float = false -> (y <=? x)%float = true.
Proof.
  intros Hx Hy H. apply leb_rank; auto. apply lex_le_total. intros Hlt.
  apply ltb_rank in Hlt; auto. congruence.
Qed.

(** [min] and [max] over prices that are not NaN: the result is one of the
    items, below (above) every item. *)
Lemma min_from_least (l : list float) (m0 : float) :
  In (Py.min_from m0 l) (m0 :: l)
  /\ (not_nan m0 -> Forall not_nan l ->
      not_nan (Py.min_from m0 l)
      /\ Forall (fun x => (Py.min_from m0 l <=? x)%float = true) (m0 :: l)).
Proof.
  revert m0. induction l as [|x t IH]; intros m0; unfold Py.min_from; cbn [fold_left].
  - split; [now left|]. intros H0 _. split; [exact H0|].
    constructor; [now apply leb_refl | constructor].
  - fold (Py.min_from (if (x <? m0)%float then x else m0) t).
    set (m1 := if (x <? m0)%float then x else m0).
    destruct (IH m1) as [Hin Hle]. split.
    + destruct Hin as [Hin|Hin]; [|right; right; exact Hin].
      rewrite <- Hin. unfold m1. destruct (x <? m0)%float; [right; now left | now left].
    + intros H0 Hl. inversion Hl as [|? ? Hx Ht]; subst.
      assert (H1 : not_nan m1) by (unfold m1; destruct (x <? m0)%float; assumption).
      destruct (Hle H1 Ht) as [Hr Hall]. split; [exact Hr|].
      inversion Hall as [|? ? Hm1 Hrest]; subst.
      assert (Hm0 : (m1 <=? m0)%float = true /\ (m1 <=? x)%float = true).
      { unfold m1. destruct (x <? m0)%float eqn:Hlt.
        - split; [now apply ltb_leb | now apply leb_refl].
        - split; [now apply leb_refl | now apply not_ltb_leb]. }
      destruct Hm0 as [Hm0 Hmx].
      constructor; [eapply (leb_trans _ m1); eauto|].
      constructor; [eapply (leb_trans _ m1); eauto | exact Hrest].
Qed.

Lemma max_from_greatest (l : list float) (m0 : float) :
  In (Py.max_from m0 l) (m0 :: l)
  /\ (not_nan m0 -> Forall not_nan l ->
      not_nan (Py.max_from m0 l)
      /\ Forall (fun x => (x <=? Py.max_from m0 l)%float = true) (m0 :: l)).
Proof.
  revert m0. induction l as [|x t IH]; intros m0; unfold Py.max_from; cbn [fold_left].
  - split; [now left|]. intros H0 _. split; [exact H0|].
    constructor; [now apply leb_refl | constructor].
  - fold (Py.max_from (if (m0 <? x)%float then x else m0) t).
    set (m1 := if (m0 <? x)%float then x else m0).
    destruct (IH m1) as [Hin Hle]. split.
    + destruct Hin as [Hin|Hin]; [|right; right; exact Hin].
      rewrite <- Hin. unfold m1. destruct (m0 <? x)%float; [right; now left | now left].
    + intros H0 Hl. inversion Hl as [|? ? Hx Ht]; subst.
      assert (H1 : not_nan m1) by (unfold m1; destruct (m0 <? x)%float; assumption).
      destruct (Hle H1 Ht) as [Hr Hall]. split; [exact Hr|].
      inversion Hall as [|? ? Hm1 Hrest]; subst.
      assert (Hm0 : (m0 <=? m1)%float = true /\ (x <=? m1)%float = true).
      { unfold m1. destruct (m0 <? x)%float eqn:Hlt.
        - split; [now apply ltb_leb | now apply leb_refl].
        - split; [now apply leb_refl | now apply not_ltb_leb]. }
      destruct Hm0 as [Hm0 Hmx].
      constructor; [eapply (leb_trans _ m1); eauto|].
      constructor; [eapply (leb_trans _ m1); eauto | exact Hrest].
Qed.

Lemma min_least (l : list float) (lo : float) :
  Py.min l = Py.Ok lo ->
  In lo l /\ (Forall not_nan l -> Forall (fun x => (lo <=? x)%float = true) l).
Proof.
  destruct l as [|x t]; [discriminate|]. cbn [Py.min]. intros H; inversion H; subst.
  destruct (min_from_least t x) as [Hin Hle]. split; [exact Hin|].
  intros Hl. inversion Hl; subst. now apply Hle.
Qed.

Lemma max_greatest (l : list float) (hi : float) :
  Py.max l = Py.Ok hi ->
  In hi l /\ (Forall not_nan l -> Forall (fun x => (x <=? hi)%float = true) l).
Proof.
  destruct l as [|x t]; [discriminate|]. cbn [Py.max]. intros H; inversion H; subst.
  destruct (max_from_greatest t x) as [Hin Hle]. split; [exact Hin|].
  intros Hl. inversion Hl; subst. now apply Hle.
Qed.

(* ================================================================== *)
(** * The Min and Max statistics *)
(* ================================================================== *)

Lemma forall_prices (P : float -> Prop) (l : list price_point) :
  Forall P (map price l) <-> Forall (fun p => P (price p)) l.
Proof. apply Forall_map. Qed.

(** C2 (as the code has it).  In both dashboards the Min and Max statistics
    are [min] and [max] over the prices of the complete today series, the
    one taken before any trimming: each is a price of that series, below
    (above) every price of it.  The Min and Max boxes are drawn with these
    two values whatever the display window is.  In [dashboard-snap.py] both
    are zero when the today series is empty.  In [dashboard.py] they are
    not: [min] and [max] have no [else 0] there and raise [ValueError] on an
    empty series, and [draw_dashboard] never comes to them, as it draws the
    loading screen and returns. *)
Theorem stats_over_full_today (all_today : list price_point) :
  (forall lo, Dashboard.min_price all_today = Py.Ok lo ->
     In lo (map price all_today)
     /\ (Forall (fun p => not_nan (price p)) all_today ->
         Forall (fun p => (lo <=? price p)%float = true) all_today))
  /\ (forall hi, Dashboard.max_price all_today = Py.Ok hi ->
        In hi (map price all_today)
        /\ (Forall (fun p => not_nan (price p)) all_today ->
            Forall (fun p => (price p <=? hi)%float = true) all_today))
  /\ (all_today <> [] ->
        Snap.min_price all_today = Dashboard.min_price all_today
        /\ Snap.max_price all_today = Dashboard.max_price all_today
        /\ exists lo hi, Dashboard.min_price all_today = Py.Ok lo
                         /\ Dashboard.max_price all_today = Py.Ok hi)
  /\ (all_today = [] ->
        Snap.min_price all_today = Py.Ok 0%float
        /\ Snap.max_price all_today = Py.Ok 0%float
        /\ Dashboard.min_price all_today = Py.Raise Py.ValueError
        /\ Dashboard.max_price all_today = Py.Raise Py.ValueError
        /\ forall textbbox now tomorrow g g',
             Dashboard.draw_dashboard textbbox now all_today tomorrow g g'
             = Py.Ok (draw_header now ++ draw_loading))
  /\ (forall textbbox now tomorrow g g' ops,
        all_today <> [] ->
        Dashboard.draw_dashboard textbbox now all_today tomorrow g g' = Py.Ok ops ->
        exists lo hi rest,
          Dashboard.min_price all_today = Py.Ok lo
          /\ Dashboard.max_price all_today = Py.Ok hi
          /\ ops = draw_header now
                   ++ draw_now_box textbbox (Dashboard.current_price now all_today)
                   ++ draw_min_max_boxes textbbox lo hi ++ rest)
  /\ (forall textbbox now agile_prices gas_price ops,
        Snap.all_today (Datetime.dt_date now) agile_prices = all_today ->
        agile_prices <> [] ->
        Snap.draw_dashboard textbbox now agile_prices gas_price = Py.Ok ops ->
        exists lo hi rest,
          Snap.min_price all_today = Py.Ok lo
          /\ Snap.max_price all_today = Py.Ok hi
          /\ ops = draw_header now
                   ++ draw_now_box textbbox (Snap.current_price now all_today)
                   ++ draw_min_max_boxes textbbox lo hi ++ rest).
Proof.
  split; [|split; [|split; [|split; [|split]]]].
  - intros lo H. unfold Dashboard.min_price in H.
    destruct (min_least _ _ H) as [Hin Hle]. split; [exact Hin|].
    intros Hn. apply (forall_prices (fun x => (lo <=? x)%float = true)).
    apply Hle. now apply (forall_prices not_nan).
  - intros hi H. unfold Dashboard.max_price in H.
    destruct (max_greatest _ _ H) as [Hin Hle]. split; [exact Hin|].
    intros Hn. apply (forall_prices (fun x => (x <=? hi)%float = true)).
    apply Hle. now apply (forall_prices not_nan).
  - intros Hne. destruct all_today as [|p t]; [congruence|].
    split; [reflexivity|]. split; [reflexivity|]. do 2 eexists. split; reflexivity.
  - intros ->. repeat split; reflexivity.
  - intros textbbox now tomorrow g g' ops Hne H. unfold Dashboard.draw_dashboard in H.
    destruct all_today as [|p t]; [congruence|].
    destruct (Dashboard.min_price (p :: t)) as [lo|]; cbn [Py.bind] in H; [|discriminate].
    destruct (Dashboard.max_price (p :: t)) as [hi|]; cbn [Py.bind] in H; [|discriminate].
    destruct (Dashboard.draw_chart textbbox now (p :: t) tomorrow) as [chart|];
      cbn [Py.bind] in H; [|discriminate].
    injection H as <-. do 3 eexists. split; [reflexivity|]. split; reflexivity.
  - intros textbbox now agile gas ops Hall Hne H. unfold Snap.draw_dashboard in H.
    destruct (Datetime.next_day (Datetime.dt_date now)) as [tomorrow|];
      cbn [Py.bind] in H; [|discriminate].
    destruct agile as [|a agile']; [congruence|].
    rewrite Hall in H.
    destruct (Snap.reconcile (Datetime.dt_date now) all_today
                (Snap.tomorrow_prices tomorrow (a :: agile'))) as [[kept display]|];
      cbn [Py.bind] in H; [|discriminate].
    destruct (Snap.min_price all_today) as [lo|]; cbn [Py.bind] in H; [|discriminate].
    destruct (Snap.max_price all_today) as [hi|]; cbn [Py.bind] in H; [|discriminate].
    destruct (Snap.tomorrow_max (Snap.tomorrow_prices tomorrow (a :: agile')))
      as [tmax|]; cbn [Py.bind] in H; [|discriminate].
    destruct (Snap.draw_chart now kept (Snap.tomorrow_prices tomorrow (a :: agile'))
                display) as [chart|]; cbn [Py.bind] in H; [|discriminate].
    injection H as <-. do 3 eexists. split; [reflexivity|]. split; reflexivity.
Qed.

(** C2 (as stated) fails on [dashboard.py]: for an empty today series its
    minimum and maximum are not zero but a [ValueError], and no Min or Max
    box is drawn, with tomorrow's prices at hand or not: the drawing is the
    title, the clock and [Loading...].  [dashboard-snap.py], given the same
    prices of tomorrow only, draws both boxes with zero. *)
Lemma stats_empty_today_counterexample :
  Dashboard.min_price [] = Py.Raise Py.ValueError
  /\ Dashboard.max_price [] = Py.Raise Py.ValueError
  /\ Dashboard.min_price [] <> Py.Ok 0%float
  /\ Dashboard.max_price [] <> Py.Ok 0%float
  /\ Dashboard.draw_dashboard Sample.textbbox Sample.now [] Sample.tomorrow48
       None None
     = Py.Ok (draw_header Sample.now ++ draw_loading)
  /\ Snap.all_today Sample.today Sample.tomorrow48 = []
  /\ exists rest,
       Snap.draw_dashboard Sample.textbbox Sample.now Sample.tomorrow48
         (Snap.mkgas None None)
       = Py.Ok (draw_header Sample.now
                  ++ draw_now_box Sample.textbbox None
                  ++ draw_min_max_boxes Sample.textbbox 0%float 0%float ++ rest).
Proof.
  split; [reflexivity|]. split; [reflexivity|].
  split; [discriminate|]. split; [discriminate|].
  split; [reflexivity|]. split; [vm_compute; reflexivity|].
  pose (ops := match Snap.draw_dashboard Sample.textbbox Sample.now Sample.tomorrow48
                       (Snap.mkgas None None) with
               | Py.Ok l => l
               | Py.Raise _ => []
               end).
  exists (skipn (List.length (draw_header Sample.now
                               ++ draw_now_box Sample.textbbox None
                               ++ draw_min_max_boxes Sample.textbbox 0%float 0%float))
            ops).
  vm_compute. reflexivity.
Qed.

(** On the sample days the Min box shows 5.0p, the lowest price of the whole
    of today, although the lowest charted price is 12.5p. *)
Lemma stats_not_from_display_window :
  Dashboard.min_price Sample.today48 = Py.Ok 5%float
  /\ Dashboard.max_price Sample.today48 = Py.Ok 28.5%float
  /\ Py.min (map price (Dashboard.display_prices Sample.today48 Sample.tomorrow48))
     = Py.Ok 12.5%float.
Proof. vm_compute. repeat split. Qed.

(* ================================================================== *)
(** * Subtraction of distinct floats is not zero *)
(* ================================================================== *)

Lemma fexp64 (k : Z) : fexp prec emax k = Z.max (k - 53) (-1074).
Proof. reflexivity. Qed.

Lemma digits2_pos_positive (m : Z) : 0 < m -> 0 < Zdigits2 m.
Proof. destruct m; cbn; lia. Qed.

Lemma digits2_zero_or_positive (m : Z) : 0 <= m -> 0 < Zdigits2 m -> 0 < m.
Proof. destruct m; cbn; lia. Qed.

(** One step of [shr] halves the mantissa: it has one digit less. *)
Lemma shr_1_digits (mrs : shr_record) :
  0 <= shr_m mrs ->
  0 <= shr_m (shr_1 mrs)
  /\ Zdigits2 (shr_m (shr_1 mrs)) = Z.max 0 (Zdigits2 (shr_m mrs) - 1).
Proof.
  destruct mrs as [m r s]. cbn [shr_m]. intros Hm.
  destruct m as [|p|p]; [cbn; lia | | lia].
  destruct p as [p|p|]; cbn [shr_1 shr_m Zdigits2 digits2_pos]; lia.
Qed.

Lemma iter_shr_1_digits (p : positive) (mrs : shr_record) :
  0 <= shr_m mrs ->
  0 <= shr_m (iter_pos shr_1 p mrs)
  /\ Zdigits2 (shr_m (iter_pos shr_1 p mrs))
     = Z.max 0 (Zdigits2 (shr_m mrs) - Z.pos p).
Proof.
  revert mrs. induction p as [p IH|p IH|]; intros mrs Hm; cbn [iter_pos].
  - destruct (shr_1_digits mrs Hm) as [H1 D1].
    destruct (IH _ H1) as [H2 D2]. destruct (IH _ H2) as [H3 D3].
    split; [exact H3|]. rewrite D3, D2, D1. lia.
  - destruct (IH _ Hm) as [H2 D2]. destruct (IH _ H2) as [H3 D3].
    split; [exact H3|]. rewrite D3, D2. lia.
  - apply shr_1_digits. exact Hm.
Qed.

Lemma shr_m_of_loc (m : Z) (l : location) : shr_m (shr_record_of_loc m l) = m.
Proof. destruct l as [|[]]; reflexivity. Qed.

(** Shifting a positive mantissa to its canonical exponent leaves it
    positive, when the exponent is at least [emin]. *)
Lemma shr_fexp_positive (m e : Z) (l : location) :
  0 < m -> -1074 <= e ->
  0 < shr_m (fst (shr_fexp prec emax m e l))
  /\ -1074 <= snd (shr_fexp prec emax m e l).
Proof.
  intros Hm He. unfold shr_fexp, shr. rewrite fexp64.
  pose proof (digits2_pos_positive m Hm) as Hd.
  destruct (Z.max (Zdigits2 m + e - 53) (-1074) - e) as [|n|n] eqn:Hn;
    cbn [fst snd]; rewrite ?shr_m_of_loc; try (split; lia).
  destruct (iter_shr_1_digits n (shr_record_of_loc m l)) as [H0 D];
    [rewrite shr_m_of_loc; lia|].
  rewrite shr_m_of_loc in D. split; [|lia].
  apply digits2_zero_or_positive; [exact H0|]. rewrite D. lia.
Qed.

Lemma round_nearest_even_positive (m : Z) (l : location) :
  0 < m -> 0 < round_nearest_even m l.
Proof.
  intros Hm. unfold round_nearest_even.
  destruct l as [|[]]; try lia. destruct (Z.even m); lia.
Qed.

Lemma binary_round_aux_not_zero (s : bool) (m e : Z) (l : location) :
  0 < m -> -1074 <= e ->
  is_zero_sf (binary_round_aux prec emax s m e l) = false.
Proof.
  intros Hm He. unfold binary_round_aux.
  destruct (shr_fexp_positive m e l Hm He) as [H1 E1].
  destruct (shr_fexp prec emax m e l) as [mrs' e']. cbn [fst snd] in H1, E1.
  pose proof (round_nearest_even_positive (shr_m mrs') (loc_of_shr_record mrs') H1) as H2.
  destruct (shr_fexp_positive _ e' loc_Exact H2 E1) as [H3 _].
  destruct (shr_fexp prec emax (round_nearest_even (shr_m mrs') (loc_of_shr_record mrs'))
              e' loc_Exact) as [mrs'' e'']. cbn [fst] in H3.
  destruct (shr_m mrs'') as [|p|p]; try lia.
  destruct (e'' <=? emax - prec); reflexivity.
Qed.

Lemma binary_round_not_zero (s : bool) (m : positive) (e : Z) :
  -1074 <= e -> is_zero_sf (binary_round prec emax s m e) = false.
Proof.
  intros He. unfold binary_round, shl_align. rewrite fexp64.
  destruct (Z.max (Z.pos (digits2_pos m) + e - 53) (-1074) - e) as [|d|d] eqn:Hd;
    apply binary_round_aux_not_zero; lia.
Qed.

Lemma binary_normalize_not_zero (m e : Z) (szero : bool) :
  m <> 0 -> -1074 <= e ->
  is_zero_sf (binary_normalize prec emax m e szero) = false.
Proof.
  intros Hm He. destruct m as [|p|p]; [congruence| |];
    cbn [binary_normalize]; now apply binary_round_not_zero.
Qed.

Lemma valid_exponent (s : bool) (m : positive) (e : Z) :
  valid_binary (S754_finite s m e) = true ->
  Z.max (Z.pos (digits2_pos m) + e - 53) (-1074) = e.
Proof.
  cbn [SpecFloat.valid_binary]. unfold bounded, canonical_mantissa. rewrite fexp64.
  intros H. apply andb_true_iff in H as [H _]. now apply Z.eqb_eq in H.
Qed.

Lemma digits2_pos_iter (m d : positive) :
  Z.pos (digits2_pos (Pos.iter xO m d)) = Z.pos (digits2_pos m) + Z.pos d.
Proof.
  revert m. induction d as [d IH|d IH|]; intros m; cbn [Pos.iter digits2_pos].
  - rewrite Pos2Z.inj_succ, IH, IH. lia.
  - rewrite IH, IH. lia.
  - lia.
Qed.

(** Two valid finite floats whose aligned mantissas agree are the same. *)
Lemma aligned_equal (sx sy : bool) (mx my : positive) (ex ey : Z) :
  valid_binary (S754_finite sx mx ex) = true ->
  valid_binary (S754_finite sy my ey) = true ->
  cond_Zopp sx (Z.pos (fst (shl_align mx ex (Z.min ex ey))))
  - cond_Zopp sy (Z.pos (fst (shl_align my ey (Z.min ex ey)))) = 0 ->
  sx = sy /\ mx = my /\ ex = ey.
Proof.
  intros Vx Vy H. apply valid_exponent in Vx, Vy.
  assert (Hs : sx = sy /\ fst (shl_align mx ex (Z.min ex ey))
                          = fst (shl_align my ey (Z.min ex ey))).
  { destruct sx, sy; cbn [cond_Zopp] in H; split; try reflexivity;
      try (exfalso; lia);
      (assert (E : Z.pos (fst (shl_align mx ex (Z.min ex ey)))
                   = Z.pos (fst (shl_align my ey (Z.min ex ey)))) by lia;
       now inversion E). }
  destruct Hs as [Hs Hm]. split; [exact Hs|].
  unfold shl_align in Hm.
  destruct (Z.min ex ey - ex) as [|dx|dx] eqn:Hx;
    destruct (Z.min ex ey - ey) as [|dy|dy] eqn:Hy; cbn [fst] in Hm;
    try (exfalso; lia).
  - split; [exact Hm | lia].
  - exfalso. subst mx. rewrite digits2_pos_iter in Vx. lia.
  - exfalso. subst my. rewrite digits2_pos_iter in Vy. lia.
Qed.

Lemma SFeqb_refl_finite (s : bool) (m : positive) (e : Z) :
  SFeqb (S754_finite s m e) (S754_finite s m e) = true.
Proof.
  unfold SFeqb, SFcompare. rewrite Z.compare_refl.
  change (PosDef.Pos.compare_cont Eq m m) with (Pos.compare m m).
  rewrite Pos.compare_refl. destruct s; reflexivity.
Qed.

Lemma valid_exponent_min (s : bool) (m : positive) (e : Z) :
  valid_binary (S754_finite s m e) = true -> -1074 <= e.
Proof. intros H. apply valid_exponent in H. lia. Qed.

(** The subtraction of two valid floats that do not compare equal is not a
    zero. *)
Lemma SFsub_not_zero (x y : spec_float) :
  valid_binary x = true -> valid_binary y = true ->
  SFeqb x y = false -> is_zero_sf (SF64sub x y) = false.
Proof.
  intros Vx Vy Hne.
  destruct x as [sx|sx| |sx mx ex], y as [sy|sy| |sy my ey];
    try reflexivity;
    try (destruct sx, sy; reflexivity);
    try (destruct sx, sy; discriminate Hne).
  unfold SF64sub, SFsub.
  apply binary_normalize_not_zero.
  - intros H0. destruct (aligned_equal _ _ _ _ _ _ Vx Vy H0) as [-> [-> ->]].
    rewrite SFeqb_refl_finite in Hne. discriminate.
  - apply valid_exponent_min in Vx, Vy. lia.
Qed.

Lemma eqb_zero_sf (x : float) : (x =? 0)%float = is_zero_sf (Prim2SF x).
Proof.
  rewrite eqb_spec. change (Prim2SF 0) with (S754_zero false).
  destruct (Prim2SF x) as [s|s| |s m e]; try reflexivity; destruct s; reflexivity.
Qed.

(** [a - b] is not [0.0] unless [a == b]: with the guard
    [chart_max_price != chart_min_price] the divisor is never zero. *)
Lemma sub_not_zero (a b : float) :
  (a =? b)%float = false -> (a - b =? 0)%float = false.
Proof.
  intros H. rewrite eqb_zero_sf, sub_spec. rewrite eqb_spec in H.
  apply SFsub_not_zero; auto using Prim2SF_valid.
Qed.

(* ================================================================== *)
(** * The chart range and division by zero *)
(* ================================================================== *)

Lemma no_zero_division_ok {A : Type} (a : A) : no_zero_division (Py.Ok a).
Proof. discriminate. Qed.

Lemma no_zero_division_bind {A B : Type} (c : Py.result A) (k : A -> Py.result B) :
  no_zero_division c ->
  (forall a, c = Py.Ok a -> no_zero_division (k a)) ->
  no_zero_division (Py.bind c k).
Proof.
  unfold no_zero_division. destruct c as [a|e]; cbn [Py.bind]; intros Hc Hk.
  - now apply Hk.
  - congruence.
Qed.

Lemma no_zero_division_mapM {A B : Type} (f : A -> Py.result B) (l : list A) :
  (forall x, In x l -> no_zero_division (f x)) -> no_zero_division (Py.mapM f l).
Proof.
  induction l as [|x t IH]; cbn [Py.mapM]; intros H; [apply no_zero_division_ok|].
  apply no_zero_division_bind; [apply H; now left|]. intros y _.
  apply no_zero_division_bind; [apply IH; intros; apply H; now right|].
  intros ys _. apply no_zero_division_ok.
Qed.

Lemma no_zero_division_int (x : float) : no_zero_division (Py.int x).
Proof. unfold no_zero_division, Py.int. destruct (Prim2SF x); discriminate. Qed.

Lemma no_zero_division_round (x : float) : no_zero_division (Py.round x).
Proof. unfold no_zero_division, Py.round. destruct (Prim2SF x); discriminate. Qed.

Lemma no_zero_division_min (l : list float) : no_zero_division (Py.min l).
Proof. destruct l; discriminate. Qed.

Lemma no_zero_division_max (l : list float) : no_zero_division (Py.max l).
Proof. destruct l; discriminate. Qed.

(** What [compute_range] returns. *)
Lemma compute_range_ok (display : list price_point) (r : chart_range) :
  compute_range display = Py.Ok r ->
  exists lo hi,
    Py.min (map price display) = Py.Ok lo
    /\ Py.max (map price display) = Py.Ok hi
    /\ chart_min_price r = Py.min2 0 lo
    /\ chart_max_price r = hi
    /\ price_range r
       = (if Py.ne hi (Py.min2 0 lo) then (hi - Py.min2 0 lo)%float else 1%float).
Proof.
  unfold compute_range.
  destruct (Py.min (map price display)) as [lo|]; cbn [Py.bind]; [|discriminate].
  destruct (Py.max (map price display)) as [hi|]; cbn [Py.bind]; [|discriminate].
  intros H. injection H as <-. exists lo, hi. cbn. repeat split.
Qed.

Lemma compute_range_total (display : list price_point) :
  display <> [] -> exists r, compute_range display = Py.Ok r.
Proof.
  destruct display as [|p t]; [congruence|]. intros _. unfold compute_range.
  cbn [map Py.min Py.max Py.bind]. eauto.
Qed.

Lemma price_range_not_zero (display : list price_point) (r : chart_range) :
  compute_range display = Py.Ok r -> (price_range r =? 0)%float = false.
Proof.
  intros H. destruct (compute_range_ok _ _ H) as [lo [hi [_ [_ [_ [_ Hr]]]]]].
  rewrite Hr. unfold Py.ne.
  destruct (hi =? Py.min2 0 lo)%float eqn:He; cbn [negb].
  - reflexivity.
  - now apply sub_not_zero.
Qed.

Lemma scaled_height_no_zero_division (r : chart_range) (v : float) :
  (price_range r =? 0)%float = false ->
  scaled_height r v
  = Py.int ((v - chart_min_price r) / price_range r * Py.float_of_int chart_height)%float
  /\ no_zero_division (scaled_height r v).
Proof.
  intros H. unfold scaled_height, Py.truediv. rewrite H. cbn [Py.bind].
  split; [reflexivity | apply no_zero_division_int].
Qed.

Lemma layout_bars_no_zero_division (now : Datetime.datetime) (r : chart_range)
    (cx bw idx : Z) (display : list price_point) :
  (price_range r =? 0)%float = false ->
  no_zero_division (layout_bars now r cx bw idx display).
Proof.
  intros H. apply no_zero_division_mapM. intros [i p] _. unfold layout_bar.
  apply no_zero_division_bind; [now apply scaled_height_no_zero_division|].
  intros h _. apply no_zero_division_ok.
Qed.

Lemma scaled_height_nzd (r : chart_range) (v : float) :
  (price_range r =? 0)%float = false -> no_zero_division (scaled_height r v).
Proof. intros H. now apply scaled_height_no_zero_division. Qed.

Create HintDb nzd.
#[local] Hint Resolve no_zero_division_min no_zero_division_max
  no_zero_division_int no_zero_division_round scaled_height_nzd
  layout_bars_no_zero_division : nzd.

(** Walks through the binds and branches of a computation. *)
Ltac nzd :=
  repeat first
    [ apply no_zero_division_ok
    | solve [auto with nzd]
    | apply no_zero_division_bind; [|intros ? ?]
    | apply no_zero_division_mapM; intros ? ?
    | match goal with
      | |- no_zero_division (if ?b then _ else _) => destruct b
      | |- no_zero_division (match ?x with (_, _) => _ end) => destruct x
      | |- no_zero_division (match ?x with [] => _ | _ :: _ => _ end) => destruct x
      end ].

Lemma draw_bars_no_zero_division (now : Datetime.datetime) (r : chart_range)
    (cx bw idx : Z) (f : font) (display : list price_point) :
  (price_range r =? 0)%float = false ->
  no_zero_division (draw_bars now r cx bw idx f display).
Proof. intros H. unfold draw_bars. nzd. Qed.

Lemma dashboard_gridlines_no_zero_division (r : chart_range) :
  (price_range r =? 0)%float = false -> no_zero_division (Dashboard.gridlines r).
Proof. intros H. unfold Dashboard.gridlines, Dashboard.gridline. nzd. Qed.

Lemma ten_not_zero : (Py.float_of_int Snap.gridline_interval =? 0)%float = false.
Proof. vm_compute. reflexivity. Qed.

Lemma floordiv_ten_no_zero_division (x : float) :
  no_zero_division (Py.floordiv x (Py.float_of_int Snap.gridline_interval)).
Proof. unfold Py.floordiv. rewrite ten_not_zero. nzd. Qed.

Lemma snap_gridlines_no_zero_division (r : chart_range) :
  (price_range r =? 0)%float = false -> no_zero_division (Snap.gridlines r).
Proof.
  intros H. pose proof floordiv_ten_no_zero_division as Hten.
  unfold Snap.gridlines, Snap.min_grid, Snap.max_grid, Snap.gridline. nzd.
Qed.

Lemma compute_range_no_zero_division (display : list price_point) :
  no_zero_division (compute_range display).
Proof. unfold compute_range. nzd. Qed.

#[local] Hint Resolve draw_bars_no_zero_division dashboard_gridlines_no_zero_division
  snap_gridlines_no_zero_division compute_range_no_zero_division
  floordiv_ten_no_zero_division : nzd.

Lemma dashboard_chart_no_zero_division (textbbox : metrics) (now : Datetime.datetime)
    (today tomorrow : list price_point) :
  no_zero_division (Dashboard.draw_chart textbbox now today tomorrow).
Proof.
  unfold Dashboard.draw_chart.
  destruct (Dashboard.display_prices today tomorrow) as [|p t]; [nzd|].
  apply no_zero_division_bind; [nzd|].
  intros r Hr. apply price_range_not_zero in Hr.
  unfold Dashboard.draw_tomorrow_labels. nzd.
Qed.

Lemma snap_chart_no_zero_division (now : Datetime.datetime)
    (kept tomorrow display : list price_point) :
  no_zero_division (Snap.draw_chart now kept tomorrow display).
Proof.
  unfold Snap.draw_chart. destruct display as [|p t]; [nzd|].
  apply no_zero_division_bind; [nzd|].
  intros r Hr. apply price_range_not_zero in Hr. nzd.
Qed.

Lemma ge_no_zero_division (a b : Datetime.datetime) :
  no_zero_division (Datetime.ge a b).
Proof.
  unfold Datetime.ge, no_zero_division.
  destruct (Datetime.utcoffset a), (Datetime.utcoffset b); discriminate.
Qed.

Lemma next_day_no_zero_division (d : Datetime.date) :
  no_zero_division (Datetime.next_day d).
Proof. unfold Datetime.next_day. nzd. discriminate. Qed.

#[local] Hint Resolve ge_no_zero_division next_day_no_zero_division
  dashboard_chart_no_zero_division snap_chart_no_zero_division : nzd.

Lemma from_noon_no_zero_division (noon : Datetime.datetime) (l : list price_point) :
  no_zero_division (Snap.from_noon noon l).
Proof. induction l as [|p t IH]; cbn [Snap.from_noon]; nzd. Qed.

#[local] Hint Resolve from_noon_no_zero_division : nzd.

(** Neither dashboard can raise [ZeroDivisionError]. *)
Lemma dashboard_no_zero_division (textbbox : metrics) (now : Datetime.datetime)
    (today tomorrow : list price_point) (g g' : option float) :
  no_zero_division (Dashboard.draw_dashboard textbbox now today tomorrow g g').
Proof.
  unfold Dashboard.draw_dashboard, Dashboard.min_price, Dashboard.max_price.
  destruct today as [|p t]; nzd.
Qed.

Lemma snap_no_zero_division (textbbox : metrics) (now : Datetime.datetime)
    (agile_prices : list price_point) (gas_price : Snap.gas) :
  no_zero_division (Snap.draw_dashboard textbbox now agile_prices gas_price).
Proof.
  unfold Snap.draw_dashboard, Snap.reconcile, Snap.min_price, Snap.max_price,
    Snap.tomorrow_max.
  nzd.
Qed.

(** C4.  For every non-empty display window the chart range is computed:
    [chart_min = min(0, min(prices))], [chart_max = max(prices)], and the
    divisor is [chart_max - chart_min], or 1 when the two are equal.  The
    divisor is never zero, so the bar heights are computed without a
    division by zero, and neither dashboard can raise
    [ZeroDivisionError]. *)
Theorem chart_range_never_divides_by_zero (display : list price_point) :
  display <> [] ->
  exists r lo hi,
    compute_range display = Py.Ok r
    /\ Py.min (map price display) = Py.Ok lo
    /\ Py.max (map price display) = Py.Ok hi
    /\ chart_min_price r = (if (lo <? 0)%float then lo else 0%float)
    /\ chart_max_price r = hi
    /\ ((chart_max_price r =? chart_min_price r)%float = true ->
        price_range r = 1%float)
    /\ ((chart_max_price r =? chart_min_price r)%float = false ->
        price_range r = (chart_max_price r - chart_min_price r)%float)
    /\ (price_range r =? 0)%float = false
    /\ (forall v,
          scaled_height r v
          = Py.int ((v - chart_min_price r) / price_range r
                    * Py.float_of_int chart_height)%float)
    /\ (forall now cx bw idx,
          no_zero_division (layout_bars now r cx bw idx display))
    /\ (forall textbbox now today tomorrow g g',
          no_zero_division
            (Dashboard.draw_dashboard textbbox now today tomorrow g g'))
    /\ (forall textbbox now agile_prices gas_price,
          no_zero_division (Snap.draw_dashboard textbbox now agile_prices gas_price)).
Proof.
  intros Hne. destruct (compute_range_total display Hne) as [r Hr].
  destruct (compute_range_ok display r Hr) as [lo [hi [Hlo [Hhi [Hmin [Hmax Hrng]]]]]].
  pose proof (price_range_not_zero display r Hr) as Hnz.
  exists r, lo, hi.
  split; [exact Hr|]. split; [exact Hlo|]. split; [exact Hhi|].
  split; [exact Hmin|]. split; [exact Hmax|].
  split; [|split].
  - intros He. rewrite Hrng. unfold Py.ne. rewrite <- Hmax, <- Hmin, He. reflexivity.
  - intros He. rewrite Hrng. unfold Py.ne. rewrite <- Hmax, <- Hmin, He. reflexivity.
  - split; [exact Hnz|].
    split; [intros v; now apply scaled_height_no_zero_division|].
    split; [intros; now apply layout_bars_no_zero_division|].
    split; [intros; apply dashboard_no_zero_division|].
    intros; apply snap_no_zero_division.
Qed.

(** The range of the sample window [2p, 100p]. *)
Lemma chart_range_never_divides_by_zero_witness :
  Sample.low_high <> []
  /\ exists r,
       compute_range Sample.low_high = Py.Ok r
       /\ (price_range r =? 0)%float = false
       /\ scaled_height r 2 = Py.Ok 2.
Proof.
  assert (Hne : Sample.low_high <> []) by discriminate.
  destruct (chart_range_never_divides_by_zero Sample.low_high Hne)
    as [r [lo [hi [Hr [_ [_ [_ [_ [_ [_ [Hnz _]]]]]]]]]]].
  split; [exact Hne|]. exists r. split; [exact Hr|]. split; [exact Hnz|].
  vm_compute in Hr. injection Hr as <-. vm_compute. reflexivity.
Defined.

(** A constant series at -5p, and a single point at 0p: the divisor is
    forced to 1 and every bar has height 0. *)
Lemma constant_series_example :
  compute_range (Sample.day Sample.today Sample.utc (Sample.flat (-5)) 3)
  = Py.Ok (mkrange (-5) (-5) 1)
  /\ (bars <- layout_bars Sample.now (mkrange (-5) (-5) 1) 30 95 3
                (Sample.day Sample.today Sample.utc (Sample.flat (-5)) 3) ;;
      Py.Ok (map bar_y bars))%py
     = Py.Ok [chart_y + chart_height; chart_y + chart_height; chart_y + chart_height]
  /\ compute_range (Sample.day Sample.today Sample.utc (Sample.flat 0) 1)
     = Py.Ok (mkrange 0 0 1)
  /\ scaled_height (mkrange 0 0 1) 0 = Py.Ok 0.
Proof. vm_compute. repeat split. Qed.

(* ================================================================== *)
(** * Further properties of the statistics and the colours *)
(* ================================================================== *)

(** The current price, when there is one, lies between the Min and the Max
    that are shown next to it: all three are taken over the same series
    (lines 319-323 of [dashboard.py], 323-329 of [dashboard-snap.py]). *)
Theorem current_price_between_min_and_max
    (now : Datetime.datetime) (all_today : list price_point) (cur lo hi : float) :
  Forall (fun p => not_nan (price p)) all_today ->
  Dashboard.current_price now all_today = Some cur ->
  Dashboard.min_price all_today = Py.Ok lo ->
  Dashboard.max_price all_today = Py.Ok hi ->
  (lo <=? cur)%float = true /\ (cur <=? hi)%float = true
  /\ Snap.current_price now all_today = Some cur
  /\ Snap.min_price all_today = Py.Ok lo /\ Snap.max_price all_today = Py.Ok hi.
Proof.
  intros Hnn Hc Hlo Hhi.
  assert (Hs : Snap.current_price now all_today = Some cur) by exact Hc.
  unfold Dashboard.current_price, Py.next_or_none in Hc.
  destruct (find (in_current_slot now) all_today) as [p|] eqn:Hf; [|discriminate].
  injection Hc as <-. apply find_some in Hf as [Hin _].
  apply (proj2 (forall_prices not_nan all_today)) in Hnn.
  destruct (min_least _ _ Hlo) as [_ Hmin]. destruct (max_greatest _ _ Hhi) as [_ Hmax].
  specialize (Hmin Hnn). specialize (Hmax Hnn).
  rewrite Forall_forall in Hmin, Hmax.
  assert (Hp : In (price p) (map price all_today)) by now apply in_map.
  split; [now apply Hmin|]. split; [now apply Hmax|]. split; [exact Hs|].
  destruct all_today as [|q t]; [destruct Hin|]. split; assumption.
Qed.

Lemma current_price_between_min_and_max_witness :
  (10 <=? 10)%float = true /\ (10 <=? 20)%float = true
  /\ Snap.current_price Sample.now Sample.marker_today = Some 10%float
  /\ Snap.min_price Sample.marker_today = Py.Ok 10%float
  /\ Snap.max_price Sample.marker_today = Py.Ok 20%float.
Proof.
  apply (current_price_between_min_and_max Sample.now Sample.marker_today 10 10 20).
  - repeat (apply Forall_cons; [vm_compute; discriminate|]). apply Forall_nil.
  - reflexivity.
  - reflexivity.
  - reflexivity.
Defined.

Lemma lex_compare_lt_iff (a b : Z * Z * Z) : lex_compare a b = Lt <-> lex_lt a b.
Proof.
  destruct a as [[a1 a2] a3], b as [[b1 b2] b3]. unfold lex_compare, lex_lt.
  destruct (Z.compare_spec a1 b1); [destruct (Z.compare_spec a2 b2);
    [destruct (Z.compare_spec a3 b3)|..]|..];
    split; intros Hc; try congruence; try lia; try (exfalso; lia).
Qed.

Lemma lex_le_lt_trans (a b c : Z * Z * Z) : lex_le a b -> lex_lt b c -> lex_lt a c.
Proof.
  destruct a as [[a1 a2] a3], b as [[b1 b2] b3], c as [[c1 c2] c3].
  unfold lex_le, lex_lt. lia.
Qed.

Lemma leb_ltb_trans (x y z : float) :
  not_nan x -> not_nan y -> not_nan z ->
  (x <=? y)%float = true -> (y <? z)%float = true -> (x <? z)%float = true.
Proof.
  intros Hx Hy Hz Hxy Hyz. apply leb_rank in Hxy; auto. apply ltb_rank in Hyz; auto.
  apply ltb_rank; auto. apply lex_compare_lt_iff in Hyz. apply lex_compare_lt_iff.
  eapply lex_le_lt_trans; eauto.
Qed.

(** A comparison with NaN is false, so a NaN price is painted red. *)
Lemma ltb_nan_l (x c : float) : Prim2SF x = S754_nan -> (x <? c)%float = false.
Proof. intros H. rewrite ltb_spec, H. reflexivity. Qed.

Lemma nan_price_is_red (x : float) : Prim2SF x = S754_nan -> get_price_color x = RED.
Proof. intros H. unfold get_price_color. now rewrite !(ltb_nan_l x _ H). Qed.

(** [get_price_color] is monotone: a higher price never gets a cheaper band.
    Everything below 10p is green, negative prices included. *)
Theorem price_color_monotone (x y : float) :
  not_nan x -> not_nan y -> (x <=? y)%float = true ->
  color_band (get_price_color x) <= color_band (get_price_color y)
  /\ ((y <? 10)%float = true -> get_price_color x = GREEN).
Proof.
  intros Hx Hy Hle.
  assert (T : forall c, not_nan c -> (y <? c)%float = true -> (x <? c)%float = true)
    by (intros c Hc Hyc; apply (leb_ltb_trans x y c); assumption).
  assert (T10 := T 10%float ltac:(vm_compute; discriminate)).
  assert (T20 := T 20%float ltac:(vm_compute; discriminate)).
  assert (T35 := T 35%float ltac:(vm_compute; discriminate)).
  clear T. unfold get_price_color. split.
  - destruct (y <? 10)%float; [rewrite (T10 eq_refl); vm_compute; discriminate|].
    destruct (y <? 20)%float;
      [rewrite (T20 eq_refl); destruct (x <? 10)%float; vm_compute; discriminate|].
    destruct (y <? 35)%float;
      [rewrite (T35 eq_refl); destruct (x <? 10)%float, (x <? 20)%float;
       vm_compute; discriminate|].
    destruct (x <? 10)%float, (x <? 20)%float, (x <? 35)%float; vm_compute; discriminate.
  - intros H. now rewrite (T10 H).
Qed.

Lemma price_color_monotone_witness :
  color_band (get_price_color (-3.5)) <= color_band (get_price_color 9.99)
  /\ ((9.99 <? 10)%float = true -> get_price_color (-3.5) = GREEN).
Proof.
  apply (price_color_monotone (-3.5) 9.99).
  - vm_compute; discriminate.
  - vm_compute; discriminate.
  - reflexivity.
Defined.

(* ================================================================== *)
(** * The bars across the chart *)
(* ================================================================== *)

Lemma enumerate_from_length {A : Type} (l : list A) (i : Z) :
  List.length (Py.enumerate_from i l) = List.length l.
Proof. revert i. induction l; intros; cbn; [reflexivity | now rewrite IHl]. Qed.

(** With [bar_width = chart_width // num_bars] the bars stay inside the chart
    region, one after the other: each bar starts where the previous one
    ended plus its 2-pixel gap, and the last gap ends at or before the right
    edge.  A bar is at least one pixel wide as long as there are at most
    [chart_width // 2] bars; with more bars its right edge lies left of its
    left edge.  [cx] and [cw] are [chart_x] and [chart_width] in
    [dashboard.py], [chart_left] and [chart_width] in [dashboard-snap.py]. *)
Theorem bars_tile_the_chart
    (now : Datetime.datetime) (r : chart_range) (cx cw idx : Z)
    (display : list price_point) (bars : list bar) :
  0 < cw -> display <> [] ->
  layout_bars now r cx (cw / Z.of_nat (List.length display)) idx display = Py.Ok bars ->
  List.length bars = List.length display
  /\ forall b, In b bars ->
       cx <= bar_x b
       /\ bar_right b + 2 <= cx + cw
       /\ (Z.of_nat (List.length display) <= cw / 2 <-> bar_x b <= bar_right b)
       /\ (forall b', In b' bars -> bar_index b' = bar_index b + 1 ->
             bar_x b' = bar_right b + 2).
Proof.
  intros Hcw Hne H. set (n := Z.of_nat (List.length display)) in *.
  assert (Hn : 0 < n) by (destruct display; [congruence | unfold n; cbn; lia]).
  split.
  { unfold layout_bars in H. apply mapM_ok_length in H. rewrite H.
    apply enumerate_from_length. }
  assert (Hbw : 0 <= cw / n) by (apply Z.div_pos; lia).
  assert (Hmul : n * (cw / n) <= cw) by (apply Z.mul_div_le; lia).
  intros b Hb. destruct (layout_bars_in _ _ _ _ _ _ _ _ H Hb) as [Hi [_ Hl]].
  apply layout_bar_ok in Hl as [h [_ Heq]].
  assert (Hx : bar_x b = cx + bar_index b * (cw / n)) by (rewrite Heq; reflexivity).
  assert (Hr : bar_right b = bar_x b + cw / n - 2) by (rewrite Heq; reflexivity).
  fold n in Hi.
  split; [rewrite Hx; nia|]. split; [rewrite Hr, Hx; nia|]. split.
  - rewrite Hr. split.
    + intros Hsmall.
      assert (2 <= cw / n).
      { apply Z.div_le_lower_bound; [lia|].
        pose proof (Z.mul_div_le cw 2 ltac:(lia)). nia. }
      lia.
    + intros Hwide. assert (H2 : 2 <= cw / n) by lia.
      apply Z.div_le_lower_bound; [lia|]. nia.
  - intros b' Hb' Hnext.
    destruct (layout_bars_in _ _ _ _ _ _ _ _ H Hb') as [_ [_ Hl']].
    apply layout_bar_ok in Hl' as [h' [_ Heq']].
    assert (Hx' : bar_x b' = cx + bar_index b' * (cw / n)) by (rewrite Heq'; reflexivity).
    rewrite Hx', Hr, Hx, Hnext. lia.
Qed.

(** Four bars across the 285 pixels of [dashboard.py]: 71 pixels each. *)
Lemma bars_tile_the_chart_witness :
  exists bars,
    layout_bars Sample.now Sample.marker_range Dashboard.chart_x
      (Dashboard.chart_width
        / Z.of_nat (List.length (Sample.marker_today ++ Sample.marker_tomorrow)))
      2 (Sample.marker_today ++ Sample.marker_tomorrow) = Py.Ok bars
    /\ List.length bars = 4%nat
    /\ forall b, In b bars ->
         Dashboard.chart_x <= bar_x b
         /\ bar_right b + 2 <= Dashboard.chart_x + Dashboard.chart_width.
Proof.
  pose (display := Sample.marker_today ++ Sample.marker_tomorrow).
  pose (bars := match layout_bars Sample.now Sample.marker_range Dashboard.chart_x
                        (Dashboard.chart_width / Z.of_nat (List.length display))
                        2 display with
                | Py.Ok bs => bs
                | Py.Raise _ => []
                end).
  assert (H : layout_bars Sample.now Sample.marker_range Dashboard.chart_x
                (Dashboard.chart_width / Z.of_nat (List.length display))
                2 display = Py.Ok bars)
    by (vm_compute; reflexivity).
  destruct (bars_tile_the_chart Sample.now Sample.marker_range Dashboard.chart_x
              Dashboard.chart_width 2 display bars) as [Hlen Hall].
  - reflexivity.
  - discriminate.
  - exact H.
  - exists bars. split; [exact H|]. split; [exact Hlen|].
    intros b Hb. destruct (Hall b Hb) as [H1 [H2 _]]. split; assumption.
Defined.

(* ================================================================== *)
(** * The tomorrow section of the chart *)
(* ================================================================== *)

Lemma price_color_not_background (x : float) (p0 p1 : Z * Z) :
  is_tomorrow_background (DrawRectangle p0 p1 (get_price_color x)) = false.
Proof.
  unfold get_price_color.
  destruct (x <? 10)%float, (x <? 20)%float, (x <? 35)%float; reflexivity.
Qed.

Lemma draw_bar_plain (now : Datetime.datetime) (r : chart_range) (cx bw idx : Z)
    (f : font) (i : Z) (p : price_point) (b : bar) (op : draw_op) :
  layout_bar now r cx bw idx (i, p) = Py.Ok b -> In op (draw_bar bw f b) ->
  is_tomorrow_background op = false /\ is_literal_text op = false.
Proof.
  intros Hl Hin. apply layout_bar_ok in Hl as [h [_ Heq]].
  unfold draw_bar in Hin. apply in_app_or in Hin as [Hin|Hin].
  - destruct Hin as [<-|[]]. rewrite Heq. cbn [bar_fill].
    split; [apply price_color_not_background | reflexivity].
  - apply in_app_or in Hin as [Hin|Hin].
    + destruct (is_current b); [|destruct Hin].
      unfold draw_dashes in Hin. apply in_map_iff in Hin as [y [<- _]].
      split; reflexivity.
    + unfold draw_hour_label in Hin.
      destruct ((minute (bar_point b) =? 0)
                && ((hour (bar_point b) mod 4 =? 0) || (hour (bar_point b) =? 0)));
        [destruct Hin as [<-|[]]; split; reflexivity | destruct Hin].
Qed.

Lemma draw_bars_plain (now : Datetime.datetime) (r : chart_range) (cx bw idx : Z)
    (f : font) (display : list price_point) (ops : list draw_op) (op : draw_op) :
  draw_bars now r cx bw idx f display = Py.Ok ops -> In op ops ->
  is_tomorrow_background op = false /\ is_literal_text op = false.
Proof.
  unfold draw_bars. destruct (layout_bars now r cx bw idx display) as [bars|] eqn:Hb;
    cbn [Py.bind]; intros H Hin; [|discriminate].
  injection H as <-. apply in_flat_map in Hin as [b [Hbin Hin]].
  destruct (layout_bars_in _ _ _ _ _ _ _ _ Hb Hbin) as [_ [_ Hl]].
  eapply draw_bar_plain; eauto.
Qed.


Lemma snap_gridlines_plain (grid : list (Z * Z)) (op : draw_op) :
  In op (flat_map Snap.draw_gridline grid) ->
  is_tomorrow_background op = false /\ is_literal_text op = false.
Proof.
  intros Hin. apply in_flat_map in Hin as [[v y] [_ Hin]].
  destruct Hin as [<-|[<-|[]]]; split; reflexivity.
Qed.



(** The chart of [dashboard-snap.py] on the lists that its reconciler
    returns: without a list of tomorrow no background and no literal text,
    with one the background first and the label last. *)
Lemma snap_chart_with_and_without_tomorrow
    (now : Datetime.datetime) (d : Datetime.date)
    (today tomorrow kept display : list price_point) (ops : list draw_op) :
  Snap.reconcile d today tomorrow = Py.Ok (kept, display) ->
  Snap.draw_chart now kept tomorrow display = Py.Ok ops ->
  (tomorrow = [] ->
     forall op, In op ops ->
       is_tomorrow_background op = false /\ is_literal_text op = false)
  /\ (tomorrow <> [] ->
      let bar_width := Snap.chart_width / Z.of_nat (List.length display) in
      let x := Snap.chart_left + Z.of_nat (List.length kept) * bar_width in
      exists middle,
        ops = DrawRectangle (x, chart_y) (Snap.chart_right, chart_y + chart_height)
                (30, 40, 60)
              :: middle
              ++ [DrawText (x + 3, chart_y + 5) (Str "Tmrw") font_tiny (150, 150, 160)]).
Proof.
  intros Hrec H. split.
  - intros ->. unfold Snap.draw_chart in H.
    destruct display as [|p0 d0] eqn:Hd.
    + injection H as <-. intros op [].
    + rewrite <- Hd in H. clear Hd.
      destruct (compute_range display) as [r|]; cbn [Py.bind] in H; [|discriminate].
      change (Snap.has_tomorrow []) with false in H. cbn [andb] in H.
      destruct (Snap.gridlines r) as [grid|]; cbn [Py.bind] in H; [|discriminate].
      match type of H with
      | Py.bind ?c _ = _ => destruct c as [bars|] eqn:Hb; cbn [Py.bind] in H; [|discriminate]
      end.
      injection H as <-. intros op Hin. cbn [app] in Hin.
      apply in_app_or in Hin as [Hin|Hin]; [eapply snap_gridlines_plain; exact Hin|].
      rewrite app_nil_r in Hin. eapply draw_bars_plain; eauto.
  - intros Hne. cbv zeta.
    assert (Hhas : Snap.has_tomorrow tomorrow = true)
      by (destruct tomorrow; [congruence | reflexivity]).
    assert (Hdisp : display = kept ++ tomorrow).
    { unfold Snap.reconcile in Hrec. destruct tomorrow as [|q tm]; [congruence|].
      destruct today as [|p t].
      - injection Hrec as <- <-. reflexivity.
      - destruct (Snap.from_noon (Snap.noon d p) (p :: t)) as [k|]; cbn [Py.bind] in Hrec;
          [|discriminate].
        injection Hrec as <- <-. reflexivity. }
    assert (Hidx : Snap.tomorrow_start_idx kept tomorrow display
                   = Z.of_nat (List.length kept))
      by (unfold Snap.tomorrow_start_idx; now rewrite Hhas).
    assert (Hspan : Snap.has_tomorrow tomorrow
                    && (Z.of_nat (List.length kept)
                        <? Z.of_nat (List.length display)) = true).
    { rewrite Hhas. apply Z.ltb_lt. rewrite Hdisp, length_app.
      destruct tomorrow; [congruence | cbn [List.length]; lia]. }
    assert (Hd : display <> []).
    { rewrite Hdisp. intros Hd. apply app_eq_nil in Hd as [_ Hd]. congruence. }
    unfold Snap.draw_chart in H. rewrite Hidx in H. clear Hdisp Hidx Hrec.
    destruct display as [|p0 d0]; [congruence|].
    destruct (compute_range (p0 :: d0)) as [r|]; cbn [Py.bind] in H; [|discriminate].
    rewrite Hspan in H.
    destruct (Snap.gridlines r) as [grid|]; cbn [Py.bind] in H; [|discriminate].
    match type of H with
    | Py.bind ?c _ = _ => destruct c as [bars|]; cbn [Py.bind] in H; [|discriminate]
    end.
    injection H as <-. eexists. cbn [app]. f_equal. rewrite app_assoc. reflexivity.
Qed.

Lemma filter_none {A : Type} (f : A -> bool) (l : list A) :
  (forall x, In x l -> f x = false) -> filter f l = [].
Proof.
  induction l as [|x t IH]; intros H; [reflexivity|].
  cbn [filter]. rewrite (H x) by now left. apply IH. intros y Hy. apply H. now right.
Qed.

Lemma filter_some {A : Type} (f : A -> bool) (l : list A) :
  (exists x, In x l /\ f x = true) -> filter f l <> [].
Proof.
  intros [x [Hin Hf]] Hnil.
  assert (Hx : In x (filter f l)) by (apply filter_In; now split).
  rewrite Hnil in Hx. destruct Hx.
Qed.

(** [draw_dashboard] of [dashboard-snap.py] draws the chart's tomorrow
    section exactly when some point of [agile_prices] has the date of
    tomorrow.  The chart's calls, part of the drawing, are those of the chart
    loop on what the date filters and the reconciler give; when a point is
    dated tomorrow the first of them is the background rectangle, which
    starts at the bar whose index is the number of today's points that are
    kept, and the last is the "Tmrw" label; when no point is dated tomorrow
    the chart has no such rectangle and no literal text. *)
Theorem snap_tomorrow_section
    (textbbox : metrics) (now : Datetime.datetime) (tomorrow : Datetime.date)
    (agile_prices : list price_point) (gas_price : Snap.gas) (ops : list draw_op) :
  Datetime.next_day (Datetime.dt_date now) = Py.Ok tomorrow ->
  agile_prices <> [] ->
  Snap.draw_dashboard textbbox now agile_prices gas_price = Py.Ok ops ->
  let today := Datetime.dt_date now in
  exists kept display chart before after,
    Snap.reconcile today (Snap.all_today today agile_prices)
      (Snap.tomorrow_prices tomorrow agile_prices) = Py.Ok (kept, display)
    /\ Snap.draw_chart now kept (Snap.tomorrow_prices tomorrow agile_prices) display
       = Py.Ok chart
    /\ ops = before ++ chart ++ after
    /\ ((forall p, In p agile_prices -> Snap.is_tomorrow tomorrow p = false) ->
        forall op, In op chart ->
          is_tomorrow_background op = false /\ is_literal_text op = false)
    /\ ((exists p, In p agile_prices /\ Snap.is_tomorrow tomorrow p = true) ->
        let bar_width := Snap.chart_width / Z.of_nat (List.length display) in
        let x := Snap.chart_left + Z.of_nat (List.length kept) * bar_width in
        exists middle,
          chart = DrawRectangle (x, chart_y) (Snap.chart_right, chart_y + chart_height)
                    (30, 40, 60)
                  :: middle
                  ++ [DrawText (x + 3, chart_y + 5) (Str "Tmrw") font_tiny
                        (150, 150, 160)]).
Proof.
  intros Hn Hne H. cbv zeta. unfold Snap.draw_dashboard in H.
  rewrite Hn in H. cbv beta iota zeta delta [Py.bind] in H.
  destruct agile_prices as [|a agile']; [congruence|].
  destruct (Snap.reconcile (Datetime.dt_date now)
              (Snap.all_today (Datetime.dt_date now) (a :: agile'))
              (Snap.tomorrow_prices tomorrow (a :: agile'))) as [[kept display]|] eqn:Hrec;
    [|discriminate].
  destruct (Snap.min_price _) as [lo|]; [|discriminate].
  destruct (Snap.max_price _) as [hi|]; [|discriminate].
  destruct (Snap.tomorrow_max _) as [tmax|]; [|discriminate].
  destruct (Snap.draw_chart now kept (Snap.tomorrow_prices tomorrow (a :: agile'))
              display) as [chart|] eqn:Hchart; [|discriminate].
  destruct (snap_chart_with_and_without_tomorrow _ _ _ _ _ _ _ Hrec Hchart)
    as [Hwithout Hwith].
  exists kept, display, chart.
  match type of H with
  | Py.Ok (?h ++ ?n ++ ?m ++ ?g ++ ?gt ++ chart ++ ?tm) = _ =>
      exists (h ++ n ++ m ++ g ++ gt), tm
  end.
  split; [reflexivity|]. split; [exact Hchart|]. split; [|split].
  - rewrite <- !app_assoc. congruence.
  - intros Hnone. apply Hwithout. unfold Snap.tomorrow_prices. now apply filter_none.
  - intros Hsome. apply Hwith. unfold Snap.tomorrow_prices. now apply filter_some.
Qed.

(** Two points today at 14:00 and 14:30, and two of tomorrow: both of today
    are kept, and the background starts at the third bar. *)
Lemma snap_tomorrow_section_witness :
  exists chart middle before after,
    Snap.draw_dashboard Sample.textbbox Sample.now
      (Sample.marker_today ++ Sample.marker_tomorrow) (Snap.mkgas None None)
    = Py.Ok (before ++ chart ++ after)
    /\ chart = DrawRectangle (166, 90) (315, 220) (30, 40, 60)
               :: middle
               ++ [DrawText (169, 95) (Str "Tmrw") font_tiny (150, 150, 160)].
Proof.
  pose (ops := match Snap.draw_dashboard Sample.textbbox Sample.now
                       (Sample.marker_today ++ Sample.marker_tomorrow)
                       (Snap.mkgas None None) with
               | Py.Ok l => l
               | Py.Raise _ => []
               end).
  assert (H : Snap.draw_dashboard Sample.textbbox Sample.now
                (Sample.marker_today ++ Sample.marker_tomorrow)
                (Snap.mkgas None None) = Py.Ok ops)
    by (vm_compute; reflexivity).
  assert (Hn : Datetime.next_day (Datetime.dt_date Sample.now) = Py.Ok Sample.tomorrow)
    by reflexivity.
  assert (Hne : Sample.marker_today ++ Sample.marker_tomorrow <> [])
    by discriminate.
  destruct (snap_tomorrow_section _ _ _ _ _ _ Hn Hne H)
    as [kept [display [chart [before [after [Hrec [_ [Hops [_ Hyes]]]]]]]]].
  assert (Hk : Snap.reconcile (Datetime.dt_date Sample.now)
                 (Snap.all_today (Datetime.dt_date Sample.now)
                    (Sample.marker_today ++ Sample.marker_tomorrow))
                 (Snap.tomorrow_prices Sample.tomorrow
                    (Sample.marker_today ++ Sample.marker_tomorrow))
               = Py.Ok (Sample.marker_today,
                        Sample.marker_today ++ Sample.marker_tomorrow))
    by (vm_compute; reflexivity).
  rewrite Hk in Hrec. injection Hrec as <- <-.
  destruct Hyes as [middle Heq].
  - exists (Sample.slot Sample.tomorrow Sample.utc (Sample.flat 15) 28).
    split; [right; right; now left | reflexivity].
  - exists chart, middle, before, after. rewrite <- Hops.
    split; [exact H | exact Heq].
Defined.

(* ================================================================== *)
(** * Files and file names *)
(* ================================================================== *)

Lemma named_eq (name : string) (entry : string * Os.content) :
  Os.named name entry = true <-> fst entry = name.
Proof. unfold Os.named. apply String.eqb_eq. Qed.

Lemma read_remove (fs : Os.files) (name other : string) :
  Os.read (Os.remove fs name) other
  = if String.eqb name other then None else Os.read fs other.
Proof.
  unfold Os.read, Os.remove. induction fs as [|[n c] fs IH]; cbn [filter find].
  - now destruct (String.eqb name other).
  - destruct (Os.named name (n, c)) eqn:Hn; cbn [negb].
    + apply named_eq in Hn. cbn [fst] in Hn. subst n. rewrite IH.
      destruct (String.eqb_spec name other) as [->|Ho]; [reflexivity|].
      destruct (Os.named other (name, c)) eqn:Hno; [|reflexivity].
      apply named_eq in Hno. cbn [fst] in Hno. congruence.
    + cbn [find]. destruct (Os.named other (n, c)) eqn:Hno; [|exact IH].
      apply named_eq in Hno. cbn [fst] in Hno. subst n.
      destruct (String.eqb_spec name other) as [->|_]; [|reflexivity].
      unfold Os.named in Hn. cbn [fst] in Hn. now rewrite String.eqb_refl in Hn.
Qed.

Lemma read_write (fs : Os.files) (name other : string) (c : Os.content) :
  Os.read (Os.write fs name c) other
  = if String.eqb name other then Some c else Os.read fs other.
Proof.
  unfold Os.write. unfold Os.read at 1. cbn [find]. unfold Os.named at 1. cbn [fst].
  destruct (String.eqb_spec name other) as [->|Hn]; [reflexivity|].
  fold (Os.read (Os.remove fs name) other). rewrite read_remove.
  destruct (String.eqb_spec name other); [congruence | reflexivity].
Qed.

Lemma read_in (fs : Os.files) (name : string) (c : Os.content) :
  Os.read fs name = Some c -> In name (map fst fs).
Proof.
  unfold Os.read. destruct (find (Os.named name) fs) as [[n c']|] eqn:Hf; [|discriminate].
  intros _. apply find_some in Hf as [Hin Hn]. apply named_eq in Hn. cbn in Hn. subst n.
  apply in_map_iff. exists (name, c'). split; [reflexivity | exact Hin].
Qed.

(** The clean-up loop, file by file. *)
Lemma read_clean_up_loop (today : Datetime.date) (names : list string) (fs : Os.files)
    (name : string) :
  Os.read (fold_left (Fetch.remove_if_old today) names fs) name
  = if existsb (String.eqb name) names
       && match Fetch.file_date name with
          | Some d => Strptime.date_ltb d today
          | None => false
          end
    then None else Os.read fs name.
Proof.
  revert fs. induction names as [|n names IH]; intros fs; cbn [fold_left existsb].
  - reflexivity.
  - rewrite IH. unfold Fetch.remove_if_old.
    destruct (String.eqb_spec name n) as [<-|Hn]; cbn [orb andb].
    + destruct (Fetch.file_date name) as [d|]; [|now rewrite andb_false_r].
      destruct (Strptime.date_ltb d today); [|now rewrite andb_false_r].
      rewrite read_remove, String.eqb_refl. now destruct (existsb _ names).
    + destruct (existsb (String.eqb name) names
                && match Fetch.file_date name with
                   | Some d => Strptime.date_ltb d today
                   | None => false
                   end); [reflexivity|].
      destruct (Fetch.file_date n) as [d|]; [|reflexivity].
      destruct (Strptime.date_ltb d today); [|reflexivity].
      rewrite read_remove. destruct (String.eqb_spec n name); [congruence | reflexivity].
Qed.

(** After the clean-up a file is gone exactly when its name matches
    [price-data-*.json] and reads as a date before today. *)
Lemma read_clean_up (today : Datetime.date) (fs : Os.files) (name : string) :
  Os.read (fold_left (Fetch.remove_if_old today) (Os.glob "price-data-" ".json" fs) fs)
    name
  = if Text.fnmatch_star "price-data-" ".json" name
       && match Fetch.file_date name with
          | Some d => Strptime.date_ltb d today
          | None => false
          end
    then None else Os.read fs name.
Proof.
  rewrite read_clean_up_loop.
  destruct (existsb (String.eqb name) (Os.glob "price-data-" ".json" fs)) eqn:Hex.
  - apply existsb_exists in Hex as [n [Hin Hn]]. apply String.eqb_eq in Hn. subst n.
    unfold Os.glob in Hin. apply filter_In in Hin as [_ ->]. reflexivity.
  - cbn [andb].
    destruct (Text.fnmatch_star "price-data-" ".json" name) eqn:Hm; [|reflexivity].
    cbn [andb].
    destruct (match Fetch.file_date name with
              | Some d => Strptime.date_ltb d today
              | None => false
              end); [|reflexivity].
    destruct (Os.read fs name) as [c|] eqn:Hr; [|reflexivity].
    exfalso. apply read_in in Hr.
    assert (Hg : In name (Os.glob "price-data-" ".json" fs))
      by (unfold Os.glob; apply filter_In; split; assumption).
    rewrite <- Bool.not_true_iff_false in Hex. apply Hex.
    apply existsb_exists. exists name. split; [exact Hg | apply String.eqb_refl].
Qed.

Lemma prefix_lacks (c : ascii) (old s : string) :
  lacks c s = true -> String.prefix (String c old) s = false.
Proof.
  destruct s as [|x s]; [reflexivity|]. cbn [lacks String.prefix].
  intros H. apply andb_true_iff in H as [H _]. apply negb_true_iff in H.
  destruct (ascii_dec c x) as [->|_]; [|reflexivity].
  now rewrite Ascii.eqb_refl in H.
Qed.

(** A text without the first character of [old] has no occurrence of it. *)
Lemma replace_lacks_app (c : ascii) (old new a b : string) :
  lacks c a = true ->
  Text.replace_from (String c old) new 0 (a ++ b)
  = (a ++ Text.replace_from (String c old) new 0 b)%string.
Proof.
  induction a as [|x a IH]; intros H; [reflexivity|].
  cbn [lacks] in H. apply andb_true_iff in H as [Hx Ha].
  cbn [append Text.replace_from]. fold (append a b).
  assert (Hp : String.prefix (String c old) (String x (a ++ b)) = false).
  { cbn [String.prefix]. apply negb_true_iff in Hx.
    destruct (ascii_dec c x) as [->|_]; [|reflexivity].
    now rewrite Ascii.eqb_refl in Hx. }
  rewrite Hp. now rewrite IH.
Qed.

Lemma replace_lacks (c : ascii) (old new a : string) :
  lacks c a = true -> Text.replace (String c old) new a = a.
Proof.
  intros H. unfold Text.replace. rewrite <- (append_nil_r a) at 1.
  rewrite replace_lacks_app by assumption. cbn. apply append_nil_r.
Qed.

Lemma lacks_date_isoformat (c : ascii) (d : Datetime.date) :
  separator c -> c <> "-"%char -> lacks c (Datetime.date_isoformat d) = true.
Proof.
  intros Hs Hc. unfold Datetime.date_isoformat.
  assert (Hd : Ascii.eqb c "-" = false) by now apply Ascii.eqb_neq.
  rewrite !lacks_append, !lacks_fixed_digits by assumption.
  cbn [lacks]. now rewrite Hd.
Qed.

Lemma lacks_p_date_isoformat (d : Datetime.date) (rest : string) :
  lacks "p" rest = true ->
  lacks "p" (Datetime.date_isoformat d ++ rest) = true.
Proof.
  intros Hr. rewrite lacks_append, Hr, andb_true_r.
  unfold Datetime.date_isoformat.
  assert (Hfix : forall n z, lacks "p" (Datetime.fixed_digits n z) = true).
  { induction n as [|n IH]; intros z; cbn [Datetime.fixed_digits]; [reflexivity|].
    rewrite lacks_append, IH. cbn [lacks]. unfold Datetime.digit_char.
    destruct (digit_cases z) as [H|H]; repeat (destruct H as [H|H]);
      rewrite H; reflexivity. }
  rewrite !lacks_append, !Hfix. reflexivity.
Qed.

Lemma replace_from_skip (old new p s : string) :
  Text.replace_from old new (String.length p) (p ++ s) = Text.replace_from old new 0 s.
Proof.
  induction p as [|c p IH]; [reflexivity|]. cbn [String.length append Text.replace_from].
  exact IH.
Qed.

Lemma prefix_append (p s : string) : String.prefix p (p ++ s) = true.
Proof.
  induction p as [|c p IH]; [destruct s; reflexivity|]. cbn [append String.prefix].
  destruct (ascii_dec c c) as [_|Hne]; [exact IH | congruence].
Qed.

(** An occurrence at the head is replaced, and the search goes on after
    it. *)
Lemma replace_head (c : ascii) (old new s : string) :
  Text.replace (String c old) new (String c old ++ s)
  = (new ++ Text.replace (String c old) new s)%string.
Proof.
  unfold Text.replace. cbn [append]. cbn [Text.replace_from].
  change (String c (old ++ s)) with (String c old ++ s)%string.
  rewrite prefix_append. cbn [String.length Nat.sub]. rewrite Nat.sub_0_r.
  now rewrite replace_from_skip.
Qed.

Lemma strip_cache_name (s : string) :
  lacks "p" s = true -> lacks "." s = true ->
  Text.replace ".json" "" (Text.replace "price-data-" "" ("price-data-" ++ s ++ ".json"))
  = s.
Proof.
  intros Hp Hdot.
  rewrite (replace_head "p" "rice-data-" "" (s ++ ".json")).
  rewrite (replace_lacks "p" "rice-data-" "" (s ++ ".json"))
    by (rewrite lacks_append, Hp; reflexivity).
  change ("" ++ (s ++ ".json"))%string with (s ++ ".json")%string.
  unfold Text.replace. rewrite (replace_lacks_app "." "json" "" s ".json" Hdot).
  change (Text.replace_from ".json" "" 0 ".json") with ""%string.
  apply append_nil_r.
Qed.

(** The clean-up loop reads in a cache file name the date it was made
    from. *)
Lemma file_date_text (d : Datetime.date) :
  Text.replace ".json" "" (Text.replace "price-data-" "" (Fetch.cache_name d))
  = Datetime.date_isoformat d.
Proof.
  unfold Fetch.cache_name. apply strip_cache_name.
  - rewrite <- (append_nil_r (Datetime.date_isoformat d)).
    now apply lacks_p_date_isoformat.
  - apply lacks_date_isoformat; [right; right; right; now left | discriminate].
Qed.

Lemma month_text (m : Z) (rest : string) :
  1 <= m <= 12 ->
  exists more,
    Strptime.month_alternatives (Datetime.fixed_digits 2 m ++ rest) = (m, rest) :: more.
Proof.
  intros H.
  assert (Hc : m = 1 \/ m = 2 \/ m = 3 \/ m = 4 \/ m = 5 \/ m = 6 \/ m = 7 \/ m = 8
               \/ m = 9 \/ m = 10 \/ m = 11 \/ m = 12) by lia.
  repeat (destruct Hc as [->|Hc]; [eexists; reflexivity|]). subst. eexists; reflexivity.
Qed.

Lemma day_text (d : Z) (rest : string) :
  1 <= d <= 31 ->
  exists more,
    Strptime.day_alternatives (Datetime.fixed_digits 2 d ++ rest) = (d, rest) :: more.
Proof.
  intros H.
  assert (Hc : d = 1 \/ d = 2 \/ d = 3 \/ d = 4 \/ d = 5 \/ d = 6 \/ d = 7 \/ d = 8
               \/ d = 9 \/ d = 10 \/ d = 11 \/ d = 12 \/ d = 13 \/ d = 14 \/ d = 15
               \/ d = 16 \/ d = 17 \/ d = 18 \/ d = 19 \/ d = 20 \/ d = 21 \/ d = 22
               \/ d = 23 \/ d = 24 \/ d = 25 \/ d = 26 \/ d = 27 \/ d = 28 \/ d = 29
               \/ d = 30 \/ d = 31) by lia.
  repeat (destruct Hc as [->|Hc]; [eexists; reflexivity|]). subst. eexists; reflexivity.
Qed.

(** [strptime] reads back the date that [strftime] wrote. *)
Lemma strptime_date_isoformat (d : Datetime.date) :
  Datetime.valid_date d = true -> Strptime.ymd (Datetime.date_isoformat d) = Some d.
Proof.
  intros Hv. pose proof Hv as Hv'. unfold Datetime.valid_date in Hv'.
  repeat match goal with
         | H : _ && _ = true |- _ => apply andb_true_iff in H as [? ?]
         end.
  repeat match goal with
         | H : (_ <=? _) = true |- _ => apply Z.leb_le in H
         end.
  pose proof (days_in_month_bound (Datetime.year d) (Datetime.month d)).
  unfold Strptime.ymd, Strptime.match_ymd, Datetime.date_isoformat.
  rewrite parse_fixed by (cbn; lia). cbn [append Datetime.expect].
  rewrite Ascii.eqb_refl.
  destruct (month_text (Datetime.month d)
              (String "-" (Datetime.fixed_digits 2 (Datetime.day d))) ltac:(lia))
    as [more ->].
  cbn [Strptime.first_success append Datetime.expect]. rewrite Ascii.eqb_refl.
  rewrite <- (append_nil_r (Datetime.fixed_digits 2 (Datetime.day d))).
  destruct (day_text (Datetime.day d) "" ltac:(lia)) as [more' ->].
  cbn [Strptime.first_success].
  destruct d as [y m dd]. cbn [Datetime.year Datetime.month Datetime.day] in *.
  now rewrite Hv.
Qed.

Lemma file_date_cache_name (d : Datetime.date) :
  Datetime.valid_date d = true -> Fetch.file_date (Fetch.cache_name d) = Some d.
Proof.
  intros Hv. unfold Fetch.file_date. rewrite file_date_text.
  now apply strptime_date_isoformat.
Qed.

Lemma cache_name_matches (d : Datetime.date) :
  Text.fnmatch_star "price-data-" ".json" (Fetch.cache_name d) = true.
Proof.
  unfold Fetch.cache_name, Text.fnmatch_star.
  generalize (Datetime.date_isoformat d). intros s.
  cbn [append Text.strip_prefix Ascii.eqb Bool.eqb].
  induction s as [|c s IH]; [reflexivity|].
  cbn [append Text.endswith]. cbn [append] in IH. rewrite IH. apply orb_true_r.
Qed.

Lemma cache_name_inj (a b : Datetime.date) :
  Datetime.valid_date a = true -> Datetime.valid_date b = true ->
  Fetch.cache_name a = Fetch.cache_name b -> a = b.
Proof.
  intros Ha Hb H. apply file_date_cache_name in Ha, Hb. rewrite H in Ha. congruence.
Qed.

(** ** Dates in order *)

Lemma date_ltb_irrefl (d : Datetime.date) : Strptime.date_ltb d d = false.
Proof.
  unfold Strptime.date_ltb. rewrite !Z.ltb_irrefl, !Z.eqb_refl. reflexivity.
Qed.

(** The day after a date is a date, and comes later. *)
Lemma next_day_later (d d' : Datetime.date) :
  Datetime.valid_date d = true -> Datetime.next_day d = Py.Ok d' ->
  Datetime.valid_date d' = true
  /\ Strptime.date_ltb d d' = true /\ Strptime.date_ltb d' d = false.
Proof.
  intros Hv H. unfold Datetime.valid_date in Hv.
  repeat match goal with
         | H : _ && _ = true |- _ => apply andb_true_iff in H as [? ?]
         end.
  repeat match goal with
         | H : (_ <=? _) = true |- _ => apply Z.leb_le in H
         end.
  unfold Datetime.next_day in H.
  assert (Hdim : forall y m, 28 <= Datetime.days_in_month y m).
  { intros y m. unfold Datetime.days_in_month.
    repeat match goal with |- context [if ?b then _ else _] => destruct b end; lia. }
  destruct (Z.ltb_spec (Datetime.day d)
              (Datetime.days_in_month (Datetime.year d) (Datetime.month d))).
  - injection H as <-. unfold Datetime.valid_date, Strptime.date_ltb.
    cbn [Datetime.year Datetime.month Datetime.day].
    rewrite !Z.eqb_refl, !Z.ltb_irrefl. cbn [orb andb].
    repeat split.
    + repeat (apply andb_true_iff; split); apply Z.leb_le; lia.
    + apply Z.ltb_lt. lia.
    + apply Z.ltb_ge. lia.
  - destruct (Z.ltb_spec (Datetime.month d) 12).
    + injection H as <-. unfold Datetime.valid_date, Strptime.date_ltb.
      cbn [Datetime.year Datetime.month Datetime.day].
      rewrite !Z.eqb_refl, !Z.ltb_irrefl. cbn [orb andb].
      pose proof (Hdim (Datetime.year d) (Datetime.month d + 1)).
      repeat split.
      * repeat (apply andb_true_iff; split); apply Z.leb_le; lia.
      * apply orb_true_iff. left. apply Z.ltb_lt. lia.
      * apply orb_false_iff. split; [apply Z.ltb_ge; lia|].
        apply andb_false_iff. left. apply Z.eqb_neq. lia.
    + destruct (Z.ltb_spec (Datetime.year d) 9999); [|discriminate].
      injection H as <-. unfold Datetime.valid_date, Strptime.date_ltb.
      cbn [Datetime.year Datetime.month Datetime.day].
      pose proof (Hdim (Datetime.year d + 1) 1).
      repeat split.
      * repeat (apply andb_true_iff; split); apply Z.leb_le; lia.
      * apply orb_true_iff. left. apply Z.ltb_lt. lia.
      * apply orb_false_iff. split; [apply Z.ltb_ge; lia|].
        apply andb_false_iff. left. apply Z.eqb_neq. lia.
Qed.

(* ================================================================== *)
(** * The loop over the results, and the sort *)
(* ================================================================== *)

Lemma collect_readable (e : IO.env) (keep : Datetime.date -> bool)
    (results : list Requests.rate) (prices : list price_point) :
  (forall item, In item results -> Fetch.local_point e item <> None) ->
  Fetch.collect e keep results prices
  = (prices ++ filter (fun p => keep (Datetime.dt_date (timestamp p)))
                 (local_points e results), true).
Proof.
  revert prices. induction results as [|item rest IH]; intros prices Hr;
    cbn [Fetch.collect local_points flat_map filter].
  - now rewrite app_nil_r.
  - destruct (Fetch.local_point e item) as [p|] eqn:Hp;
      [|destruct (Hr item (or_introl eq_refl) Hp)].
    rewrite IH by (intros; apply Hr; now right).
    fold (local_points e rest). cbn [app filter].
    destruct (keep (Datetime.dt_date (timestamp p))); [|reflexivity].
    now rewrite <- app_assoc.
Qed.

(** What the loop has appended when it stops, finished or not, comes from
    the items of the response. *)
Lemma collect_from_results (e : IO.env) (keep : Datetime.date -> bool)
    (results : list Requests.rate) (prices found : list price_point) (finished : bool) :
  Fetch.collect e keep results prices = (found, finished) ->
  exists added,
    found = prices ++ added
    /\ Forall (fun p => keep (Datetime.dt_date (timestamp p)) = true
                        /\ exists item, In item results
                                        /\ Fetch.local_point e item = Some p) added.
Proof.
  revert prices. induction results as [|item rest IH]; intros prices H;
    cbn [Fetch.collect] in H.
  - injection H as <- _. exists []. now rewrite app_nil_r.
  - destruct (Fetch.local_point e item) as [p|] eqn:Hp.
    + apply IH in H as [added [-> Hall]].
      assert (Hall' : Forall (fun p => keep (Datetime.dt_date (timestamp p)) = true
                        /\ exists item0, In item0 (item :: rest)
                                         /\ Fetch.local_point e item0 = Some p) added).
      { eapply Forall_impl; [|exact Hall]. intros q [Hq [i [Hi Hl]]].
        split; [exact Hq|]. exists i. split; [now right | exact Hl]. }
      destruct (keep (Datetime.dt_date (timestamp p))) eqn:Hk.
      * exists (p :: added). rewrite <- app_assoc. split; [reflexivity|].
        constructor; [|exact Hall']. split; [exact Hk|]. exists item.
        split; [now left | exact Hp].
      * exists added. split; [reflexivity | exact Hall'].
    + injection H as <- _. exists []. now rewrite app_nil_r.
Qed.

Lemma of_micros_offset (us off : Z) (t : Datetime.datetime) :
  Zone.of_micros us off = Some t -> Datetime.utcoffset t = Some off.
Proof.
  unfold Zone.of_micros.
  destruct ((1 <=? us / 86400000000) && (us / 86400000000 <=? Zone.MAXORDINAL));
    [|discriminate].
  generalize (Zone.ord2ymd (us / 86400000000)). intros d H.
  injection H as <-. reflexivity.
Qed.

Lemma astimezone_aware (f : Datetime.datetime -> Z) (d t : Datetime.datetime) :
  Zone.astimezone f d = Some t -> Datetime.utcoffset t = Some (f d).
Proof.
  unfold Zone.astimezone.
  destruct ((-86400000000 <? f d) && (f d <? 86400000000)); [|discriminate].
  destruct (Zone.of_micros _ 0); [|discriminate].
  apply of_micros_offset.
Qed.

Lemma local_point_fields (e : IO.env) (item : Requests.rate) (p : price_point) :
  Fetch.local_point e item = Some p ->
  hour p = Datetime.hour (timestamp p) /\ minute p = Datetime.minute (timestamp p)
  /\ price p = Requests.value_inc_vat item
  /\ date p = Some (Datetime.dt_date (timestamp p))
  /\ Datetime.utcoffset (timestamp p) <> None.
Proof.
  unfold Fetch.local_point.
  destruct (Datetime.fromisoformat _) as [u|]; [|discriminate].
  destruct (Zone.astimezone (IO.local_offset e) u) as [l|] eqn:Hl; [|discriminate].
  intros H. injection H as <-. cbn [hour minute price date timestamp].
  repeat split. apply astimezone_aware in Hl. congruence.
Qed.

Lemma date_eqb_eq (a b : Datetime.date) : Datetime.date_eqb a b = true <-> a = b.
Proof.
  unfold Datetime.date_eqb. destruct a as [y m d], b as [y' m' d'].
  cbn [Datetime.year Datetime.month Datetime.day].
  rewrite !andb_true_iff, !Z.eqb_eq. split.
  - intros [[-> ->] ->]. reflexivity.
  - intros H. injection H as -> -> ->. auto.
Qed.

Lemma insert_permutation (p : price_point) (l : list price_point) :
  Permutation (Fetch.insert p l) (p :: l).
Proof.
  induction l as [|q l IH]; cbn [Fetch.insert]; [reflexivity|].
  destruct (_ <? _); [reflexivity|].
  rewrite IH. apply perm_swap.
Qed.

Lemma sort_from_permutation (l acc : list price_point) :
  Permutation (fold_left (fun sorted p => Fetch.insert p sorted) l acc) (acc ++ l).
Proof.
  revert acc. induction l as [|p l IH]; intros acc; cbn [fold_left].
  - now rewrite app_nil_r.
  - rewrite IH, insert_permutation. apply Permutation_middle.
Qed.

Lemma sort_permutation (l : list price_point) : Permutation (Fetch.sort l) l.
Proof. apply (sort_from_permutation l []). Qed.

Lemma insert_chronological (p : price_point) (l : list price_point) :
  chronological l -> chronological (Fetch.insert p l).
Proof.
  unfold chronological. induction 1 as [|q l Hl IH Hq]; cbn [Fetch.insert].
  - constructor; constructor.
  - destruct (Z.ltb_spec (Fetch.instant (timestamp p)) (Fetch.instant (timestamp q))).
    + constructor; [now constructor|]. constructor; [lia|].
      eapply Forall_impl; [|exact Hq]. cbn. intros; lia.
    + constructor; [exact IH|].
      apply (Permutation_Forall (x := p :: l));
        [symmetry; apply insert_permutation|].
      constructor; [lia | exact Hq].
Qed.

Lemma sort_chronological (l : list price_point) : chronological (Fetch.sort l).
Proof.
  unfold Fetch.sort.
  assert (H : forall acc, chronological acc ->
            chronological (fold_left (fun sorted p => Fetch.insert p sorted) l acc)).
  { induction l as [|p l IH]; intros acc Hacc; cbn [fold_left]; [exact Hacc|].
    apply IH. now apply insert_chronological. }
  apply H. constructor.
Qed.

Lemma sort_nil_iff (l : list price_point) : Fetch.sort l = [] <-> l = [].
Proof.
  split.
  - intros H. apply Permutation_nil. rewrite <- H. apply sort_permutation.
  - intros ->. reflexivity.
Qed.

(** Points that carry a date can be written to the cache. *)
Lemma save_cache_total (prices : list price_point) :
  Forall (fun p => date p <> None) prices ->
  exists cache_data, Dashboard.save_cache prices = Py.Ok cache_data.
Proof.
  intros H. unfold Dashboard.save_cache. apply mapM_total. intros p Hp.
  rewrite Forall_forall in H. specialize (H p Hp). unfold Dashboard.to_cache_item.
  destruct (date p); [eauto | congruence].
Qed.

Lemma local_points_dated (e : IO.env) (results : list Requests.rate) (p : price_point) :
  In p (local_points e results) ->
  exists item, In item results /\ Fetch.local_point e item = Some p.
Proof.
  unfold local_points. intros H. apply in_flat_map in H as [item [Hi Hp]].
  exists item. split; [exact Hi|].
  destruct (Fetch.local_point e item) as [q|]; [|destruct Hp].
  destruct Hp as [->|[]]. reflexivity.
Qed.

Lemma sorted_points_have_dates (e : IO.env) (d : Datetime.date)
    (results : list Requests.rate) :
  Forall (fun p => date p <> None)
    (Fetch.sort (filter (dated d) (local_points e results))).
Proof.
  apply (Permutation_Forall (x := filter (dated d) (local_points e results)));
    [symmetry; apply sort_permutation|].
  apply Forall_forall. intros p Hp. apply filter_In in Hp as [Hp _].
  apply local_points_dated in Hp as [item [_ Hp]].
  apply local_point_fields in Hp as [_ [_ [_ [Hd _]]]]. congruence.
Qed.

(* ================================================================== *)
(** * The sample machine *)
(* ================================================================== *)

Lemma machine_readable : readable Scenario.machine.
Proof.
  intros rq results item H Hin. cbn [IO.api Scenario.machine] in H.
  unfold Scenario.api in H.
  repeat match type of H with
         | context [if ?b then _ else _] => destruct b
         end;
    cbn in H; injection H as <-;
    repeat (destruct Hin as [<-|Hin]; [vm_compute; discriminate|]); destruct Hin.
Qed.

Lemma today_rates_readable (e : IO.env) :
  IO.local_offset e = Scenario.utc_offset ->
  forall item, In item Scenario.today_rates -> Fetch.local_point e item <> None.
Proof.
  intros He item Hin. unfold Fetch.local_point. rewrite He.
  repeat (destruct Hin as [<-|Hin]; [vm_compute; discriminate|]); destruct Hin.
Qed.

(* ================================================================== *)
(** * [fetch_agile_prices] of [dashboard.py] *)
(* ================================================================== *)

Ltac io_unfold :=
  cbv [DashboardFetch.fetch_agile_prices DashboardFetch.fetch_today
       DashboardFetch.fetch_tomorrow DashboardFetch.load_cached DashboardFetch.save
       DashboardFetch.fetch_gas_price
       SnapFetch.fetch_agile_prices SnapFetch.fetch SnapFetch.load
       SnapFetch.fetch_gas_price
       Fetch.clean_up
       IO.bind IO.ret IO.raise IO.of_option IO.of_result IO.get IO.get_files
       IO.set_files IO.try_except IO.lift];
  cbn [IO.files IO.sent fst snd].

Ltac io_unfold_in H :=
  cbv [DashboardFetch.fetch_agile_prices DashboardFetch.fetch_today
       DashboardFetch.fetch_tomorrow DashboardFetch.load_cached DashboardFetch.save
       DashboardFetch.fetch_gas_price
       SnapFetch.fetch_agile_prices SnapFetch.fetch SnapFetch.load
       SnapFetch.fetch_gas_price
       Fetch.clean_up
       IO.bind IO.ret IO.raise IO.of_option IO.of_result IO.get IO.get_files
       IO.set_files IO.try_except IO.lift] in H;
  cbn [IO.files IO.sent fst snd] in H.

(** One more case of the innermost [match] of the goal. *)
Ltac io_case :=
  match goal with
  | |- context [match ?x with _ => _ end] =>
      lazymatch x with
      | context [match _ with _ => _ end] => fail
      | _ => destruct x eqn:?
      end
  end.

Lemma is_old_cache_name (today d : Datetime.date) :
  Datetime.valid_date d = true ->
  is_old_cache today (Fetch.cache_name d) = Strptime.date_ltb d today.
Proof.
  intros Hv. unfold is_old_cache.
  now rewrite cache_name_matches, file_date_cache_name.
Qed.

(** The files after [fetch_agile_prices]: those left by the clean-up, and
    possibly new cache files for today and tomorrow. *)
Lemma fetch_files_shape (e : IO.env) (w : IO.world) (tomorrow : Datetime.date)
    (name : string) :
  Datetime.next_day (IO.today e) = Py.Ok tomorrow ->
  let after := IO.files (snd (DashboardFetch.fetch_agile_prices e w)) in
  Os.read after name = Os.read (cleaned (IO.today e) (IO.files w)) name
  \/ ((name = Fetch.cache_name (IO.today e) \/ name = Fetch.cache_name tomorrow)
      /\ exists c, Os.read after name = Some c).
Proof.
  intros Hn after. subst after. io_unfold. rewrite Hn.
  fold (cleaned (IO.today e) (IO.files w)).
  repeat io_case; cbn [IO.files IO.sent fst snd]; rewrite ?read_write;
    repeat match goal with
           | |- context [String.eqb ?a name] => destruct (String.eqb_spec a name)
           end;
    first [ left; reflexivity
          | right; split; [first [left; congruence | right; congruence]
                          | eexists; reflexivity] ].
Qed.

(** What [fetch_agile_prices] does to the files of the directory, whatever
    the caches hold and whatever the API answers: the clean-up removes the
    files named [price-data-*.json] whose name reads as a date before today,
    the cache files of past days among them; today's and tomorrow's cache
    files are never removed; every other file is left as it is. *)
Theorem fetch_removes_only_old_caches
    (e : IO.env) (w : IO.world) (tomorrow : Datetime.date) :
  Datetime.valid_date (IO.today e) = true ->
  Datetime.next_day (IO.today e) = Py.Ok tomorrow ->
  let after := IO.files (snd (DashboardFetch.fetch_agile_prices e w)) in
  (forall name,
     name <> Fetch.cache_name (IO.today e) -> name <> Fetch.cache_name tomorrow ->
     Os.read after name
     = if is_old_cache (IO.today e) name then None else Os.read (IO.files w) name)
  /\ (forall d,
        Datetime.valid_date d = true -> 1000 <= Datetime.year d ->
        Strptime.date_ltb d (IO.today e) = true ->
        Os.read after (Fetch.cache_name d) = None)
  /\ (forall name,
        name = Fetch.cache_name (IO.today e) \/ name = Fetch.cache_name tomorrow ->
        Os.path_exists (IO.files w) name = true -> Os.path_exists after name = true).
Proof.
  intros Hv Hn after.
  destruct (next_day_later _ _ Hv Hn) as [Hv' [Hlt Hge]].
  assert (Hframe : forall name,
     name <> Fetch.cache_name (IO.today e) -> name <> Fetch.cache_name tomorrow ->
     Os.read after name
     = if is_old_cache (IO.today e) name then None else Os.read (IO.files w) name).
  { intros name H1 H2. unfold is_old_cache. rewrite <- read_clean_up.
    fold (cleaned (IO.today e) (IO.files w)).
    destruct (fetch_files_shape e w tomorrow name Hn) as [H|[[H|H] _]];
      [exact H | congruence | congruence]. }
  split; [exact Hframe|]. split.
  - intros d Hd _ Hold.
    rewrite Hframe.
    + now rewrite is_old_cache_name, Hold.
    + intros Heq. apply cache_name_inj in Heq; auto. subst d.
      now rewrite date_ltb_irrefl in Hold.
    + intros Heq. apply cache_name_inj in Heq; auto. subst d. congruence.
  - intros name Hname Hex.
    assert (Hkeep : is_old_cache (IO.today e) name = false).
    { destruct Hname as [->| ->]; rewrite is_old_cache_name by assumption;
        [apply date_ltb_irrefl | exact Hge]. }
    unfold Os.path_exists in *.
    destruct (fetch_files_shape e w tomorrow name Hn) as [H|[_ [c H]]].
    + fold after in H. rewrite H. unfold cleaned. rewrite read_clean_up.
      fold (is_old_cache (IO.today e) name). now rewrite Hkeep.
    + fold after in H. now rewrite H.
Qed.

Lemma fetch_removes_only_old_caches_witness :
  Os.read (IO.files (snd (DashboardFetch.fetch_agile_prices Scenario.machine
                            Scenario.start))) "notes.txt" = Some Os.Other
  /\ Os.read (IO.files (snd (DashboardFetch.fetch_agile_prices Scenario.machine
                               Scenario.start))) "price-data-2024-01-14.json" = None
  /\ Os.path_exists (IO.files (snd (DashboardFetch.fetch_agile_prices Scenario.machine
                                      Scenario.cached)))
       "price-data-2024-01-15.json" = true.
Proof.
  destruct (fetch_removes_only_old_caches Scenario.machine Scenario.start Sample.tomorrow
              eq_refl eq_refl) as [Hframe [Hold _]].
  destruct (fetch_removes_only_old_caches Scenario.machine Scenario.cached Sample.tomorrow
              eq_refl eq_refl) as [_ [_ Hkeep]].
  split; [|split].
  - rewrite (Hframe "notes.txt"%string) by (intros H; vm_compute in H; discriminate).
    reflexivity.
  - apply (Hold (Datetime.mkdate 2024 1 14)); [reflexivity | cbn; lia | reflexivity].
  - apply Hkeep; [left; reflexivity | reflexivity].
Defined.

Lemma read_cleaned_cache (today d : Datetime.date) (fs : Os.files) :
  Datetime.valid_date d = true -> Strptime.date_ltb d today = false ->
  Os.read (cleaned today fs) (Fetch.cache_name d) = Os.read fs (Fetch.cache_name d).
Proof.
  intros Hv Hd. unfold cleaned. rewrite read_clean_up.
  fold (is_old_cache today (Fetch.cache_name d)).
  now rewrite is_old_cache_name, Hd.
Qed.

(** How a call runs when both cache files hold prices. *)
Lemma fetch_from_cache
    (e : IO.env) (w : IO.world) (tomorrow : Datetime.date)
    (today_items tomorrow_items : list cache_item)
    (today_prices tomorrow_prices : list price_point) :
  Datetime.valid_date (IO.today e) = true ->
  Datetime.next_day (IO.today e) = Py.Ok tomorrow ->
  Os.read (IO.files w) (Fetch.cache_name (IO.today e)) = Some (Os.Prices today_items) ->
  Os.read (IO.files w) (Fetch.cache_name tomorrow) = Some (Os.Prices tomorrow_items) ->
  Dashboard.load_cache today_items = Py.Ok today_prices ->
  Dashboard.load_cache tomorrow_items = Py.Ok tomorrow_prices ->
  today_prices <> [] -> tomorrow_prices <> [] ->
  DashboardFetch.fetch_agile_prices e w
  = ((today_prices, tomorrow_prices),
     IO.mkworld (cleaned (IO.today e) (IO.files w)) (IO.sent w)).
Proof.
  intros Hv Hn Ht Htm Hlt Hltm Hnt Hntm.
  destruct (next_day_later _ _ Hv Hn) as [Hv' [_ Hge]].
  rewrite <- (read_cleaned_cache (IO.today e)) in Ht, Htm
    by (assumption || apply date_ltb_irrefl).
  io_unfold. rewrite Hn. fold (cleaned (IO.today e) (IO.files w)).
  rewrite Ht, Hlt. cbn [IO.files IO.sent fst snd]. rewrite Htm, Hltm.
  destruct today_prices; [congruence|]. destruct tomorrow_prices; [congruence|].
  reflexivity.
Qed.

(** With both days in the cache, [fetch_agile_prices] returns what the two
    files hold and sends no request: the API is not consulted, and the only
    change to the directory is the clean-up. *)
Theorem fetch_both_cached
    (e : IO.env) (w : IO.world) (tomorrow : Datetime.date)
    (today_items tomorrow_items : list cache_item)
    (today_prices tomorrow_prices : list price_point) :
  Datetime.valid_date (IO.today e) = true ->
  Datetime.next_day (IO.today e) = Py.Ok tomorrow ->
  Os.read (IO.files w) (Fetch.cache_name (IO.today e)) = Some (Os.Prices today_items) ->
  Os.read (IO.files w) (Fetch.cache_name tomorrow) = Some (Os.Prices tomorrow_items) ->
  Dashboard.load_cache today_items = Py.Ok today_prices ->
  Dashboard.load_cache tomorrow_items = Py.Ok tomorrow_prices ->
  today_prices <> [] -> tomorrow_prices <> [] ->
  fst (DashboardFetch.fetch_agile_prices e w) = (today_prices, tomorrow_prices)
  /\ IO.sent (snd (DashboardFetch.fetch_agile_prices e w)) = IO.sent w
  /\ forall name,
       Os.read (IO.files (snd (DashboardFetch.fetch_agile_prices e w))) name
       = if is_old_cache (IO.today e) name then None else Os.read (IO.files w) name.
Proof.
  intros Hv Hn Ht Htm Hlt Hltm Hnt Hntm.
  rewrite (fetch_from_cache e w tomorrow today_items tomorrow_items
             today_prices tomorrow_prices) by assumption.
  cbn [fst snd IO.files IO.sent]. split; [reflexivity|]. split; [reflexivity|].
  intros name. unfold cleaned, is_old_cache. apply read_clean_up.
Qed.

(** Off line, with both cache files in place: the prices come back and no
    request is added to the two of the first call. *)
Lemma fetch_both_cached_witness :
  fst (DashboardFetch.fetch_agile_prices Scenario.machine_offline Scenario.cached)
  = (Scenario.today_points, Scenario.tomorrow_points)
  /\ IO.sent (snd (DashboardFetch.fetch_agile_prices Scenario.machine_offline
                     Scenario.cached))
     = IO.sent Scenario.cached.
Proof.
  destruct (fetch_both_cached Scenario.machine_offline Scenario.cached Sample.tomorrow
              (Scenario.items_of Scenario.today_points)
              (Scenario.items_of Scenario.tomorrow_points)
              Scenario.today_points Scenario.tomorrow_points)
    as [Hresult [Hsent _]].
  - reflexivity.
  - reflexivity.
  - vm_compute. reflexivity.
  - vm_compute. reflexivity.
  - vm_compute. reflexivity.
  - vm_compute. reflexivity.
  - vm_compute. discriminate.
  - vm_compute. discriminate.
  - split; [exact Hresult | exact Hsent].
Defined.

(** When today's prices are not cached and the request for them fails (no
    connection, an error status, a body that is not the expected JSON), the
    function returns two empty lists, even if tomorrow's prices were in the
    cache and had been loaded; no cache file is written. *)
Theorem fetch_today_failure_drops_tomorrow
    (e : IO.env) (w : IO.world) (tomorrow : Datetime.date)
    (tomorrow_items : list cache_item) (tomorrow_prices : list price_point) :
  Datetime.valid_date (IO.today e) = true ->
  Datetime.next_day (IO.today e) = Py.Ok tomorrow ->
  Os.read (IO.files w) (Fetch.cache_name (IO.today e)) = None ->
  Os.read (IO.files w) (Fetch.cache_name tomorrow) = Some (Os.Prices tomorrow_items) ->
  Dashboard.load_cache tomorrow_items = Py.Ok tomorrow_prices ->
  Requests.checked_results (IO.api e (day_request (IO.today e) tomorrow)) = None ->
  DashboardFetch.fetch_agile_prices e w
  = (([], []),
     IO.mkworld (cleaned (IO.today e) (IO.files w))
       (IO.sent w ++ [day_request (IO.today e) tomorrow])).
Proof.
  intros Hv Hn Ht Htm Hltm Hapi.
  destruct (next_day_later _ _ Hv Hn) as [Hv' [_ Hge]].
  rewrite <- (read_cleaned_cache (IO.today e)) in Ht, Htm
    by (assumption || apply date_ltb_irrefl).
  unfold day_request in Hapi.
  io_unfold. rewrite Hn. fold (cleaned (IO.today e) (IO.files w)).
  rewrite Ht. cbn [IO.files IO.sent fst snd]. rewrite Htm, Hltm.
  destruct tomorrow_prices; cbn [IO.files IO.sent fst snd]; rewrite Hapi; reflexivity.
Qed.

(** Off line, with tomorrow's cache file only: nothing is returned. *)
Lemma fetch_today_failure_drops_tomorrow_witness :
  Dashboard.load_cache (Scenario.items_of Scenario.tomorrow_points)
  = Py.Ok Scenario.tomorrow_points
  /\ fst (DashboardFetch.fetch_agile_prices Scenario.machine_offline
            Scenario.tomorrow_only) = ([], []).
Proof.
  assert (Hload : Dashboard.load_cache (Scenario.items_of Scenario.tomorrow_points)
                  = Py.Ok Scenario.tomorrow_points) by (vm_compute; reflexivity).
  split; [exact Hload|].
  rewrite (fetch_today_failure_drops_tomorrow Scenario.machine_offline
             Scenario.tomorrow_only Sample.tomorrow
             (Scenario.items_of Scenario.tomorrow_points) Scenario.tomorrow_points).
  - reflexivity.
  - reflexivity.
  - reflexivity.
  - reflexivity.
  - vm_compute. reflexivity.
  - exact Hload.
  - reflexivity.
Defined.

Lemma collect_finished (e : IO.env) (keep : Datetime.date -> bool)
    (results : list Requests.rate) (prices found : list price_point) :
  Fetch.collect e keep results prices = (found, true) ->
  forall item, In item results -> Fetch.local_point e item <> None.
Proof.
  revert prices. induction results as [|item rest IH]; intros prices H i Hi;
    [destruct Hi|].
  cbn [Fetch.collect] in H. destruct (Fetch.local_point e item) as [p|] eqn:Hp;
    [|discriminate].
  destruct Hi as [<-|Hi]; [congruence|]. eapply IH; eauto.
Qed.

(** The list that the loop and the sort of lines 161-173 (and 199-211)
    build from a response, when every item can be read: the points of the
    response that fall on the day asked for, in local time, each one once, in
    chronological order whatever the order of the response, each with the
    hour, the minute and the date of its local timestamp. *)
Theorem fetched_prices_chronological
    (e : IO.env) (d : Datetime.date) (results : list Requests.rate)
    (found : list price_point) :
  Fetch.collect e (Datetime.date_eqb d) results [] = (found, true) ->
  chronological (Fetch.sort found)
  /\ Permutation (Fetch.sort found) (filter (dated d) (local_points e results))
  /\ Forall (fun p =>
               date p = Some d
               /\ Datetime.dt_date (timestamp p) = d
               /\ hour p = Datetime.hour (timestamp p)
               /\ minute p = Datetime.minute (timestamp p)
               /\ aware p
               /\ exists item, In item results
                               /\ Fetch.local_point e item = Some p
                               /\ price p = Requests.value_inc_vat item)
       (Fetch.sort found).
Proof.
  intros H. pose proof (collect_finished _ _ _ _ _ H) as Hr.
  rewrite (collect_readable _ _ _ _ Hr) in H. cbn [app] in H. injection H as <-.
  fold (dated d). split; [apply sort_chronological|].
  split; [apply sort_permutation|].
  apply (Permutation_Forall (x := filter (dated d) (local_points e results)));
    [symmetry; apply sort_permutation|].
  apply Forall_forall. intros p Hp. apply filter_In in Hp as [Hp Hd].
  apply local_points_dated in Hp as [item [Hi Hp]].
  destruct (local_point_fields _ _ _ Hp) as [Hh [Hm [Hv [Hdate Haw]]]].
  apply date_eqb_eq in Hd.
  split; [congruence|]. split; [congruence|]. split; [exact Hh|].
  split; [exact Hm|]. split; [exact Haw|]. exists item. auto.
Qed.

(** The answer lists the newest rate first; the list returned starts at
    midnight. *)
Lemma fetched_prices_chronological_witness :
  chronological Scenario.today_points
  /\ map (fun p => (hour p, minute p)) Scenario.today_points = [(0, 0); (0, 30); (1, 0)].
Proof.
  pose (found := fst (Fetch.collect Scenario.machine (Datetime.date_eqb Sample.today)
                        Scenario.today_rates [])).
  assert (H : Fetch.collect Scenario.machine (Datetime.date_eqb Sample.today)
                Scenario.today_rates [] = (found, true)) by (vm_compute; reflexivity).
  destruct (fetched_prices_chronological Scenario.machine Sample.today
              Scenario.today_rates found H) as [Hchrono _].
  assert (Heq : Scenario.today_points = Fetch.sort found) by (vm_compute; reflexivity).
  rewrite Heq. split; [exact Hchrono | vm_compute; reflexivity].
Defined.

(** With no cache, today's prices are fetched, sorted and written to
    today's cache file, whether or not the list is empty; when the request
    for tomorrow fails or brings no point of tomorrow, the function still
    returns today's prices, with an empty list for tomorrow, and writes no
    cache file for tomorrow.  Two requests are sent, today's first. *)
Theorem fetch_before_tomorrow_is_published
    (e : IO.env) (w : IO.world) (tomorrow day_after : Datetime.date)
    (results : list Requests.rate) :
  Datetime.valid_date (IO.today e) = true ->
  Datetime.next_day (IO.today e) = Py.Ok tomorrow ->
  Datetime.next_day tomorrow = Py.Ok day_after ->
  Os.read (IO.files w) (Fetch.cache_name (IO.today e)) = None ->
  Os.read (IO.files w) (Fetch.cache_name tomorrow) = None ->
  Requests.checked_results (IO.api e (day_request (IO.today e) tomorrow)) = Some results ->
  (forall item, In item results -> Fetch.local_point e item <> None) ->
  (forall results', 
     Requests.checked_results (IO.api e (day_request tomorrow day_after)) = Some results' ->
     (forall item, In item results' -> Fetch.local_point e item <> None)
     /\ filter (dated tomorrow) (local_points e results') = []) ->
  let today_prices := Fetch.sort (filter (dated (IO.today e)) (local_points e results)) in
  exists cache_data,
    Dashboard.save_cache today_prices = Py.Ok cache_data
    /\ DashboardFetch.fetch_agile_prices e w
       = ((today_prices, []),
          IO.mkworld
            (Os.write (cleaned (IO.today e) (IO.files w))
               (Fetch.cache_name (IO.today e)) (Os.Prices cache_data))
            (IO.sent w ++ [day_request (IO.today e) tomorrow;
                           day_request tomorrow day_after])).
Proof.
  intros Hv Hn Hn' Ht Htm Hapi Hread Hapi' today_prices.
  destruct (next_day_later _ _ Hv Hn) as [Hv' [Hlt Hge]].
  assert (Hne : Fetch.cache_name (IO.today e) <> Fetch.cache_name tomorrow).
  { intros Heq. apply cache_name_inj in Heq; auto. rewrite <- Heq in Hlt.
    now rewrite date_ltb_irrefl in Hlt. }
  rewrite <- (read_cleaned_cache (IO.today e)) in Ht, Htm
    by (assumption || apply date_ltb_irrefl).
  destruct (save_cache_total today_prices) as [cache_data Hsave];
    [apply sorted_points_have_dates|].
  exists cache_data. split; [exact Hsave|].
  unfold day_request in *.
  io_unfold. rewrite Hn. fold (cleaned (IO.today e) (IO.files w)).
  rewrite Ht. cbn [IO.files IO.sent fst snd]. rewrite Htm.
  cbn [IO.files IO.sent fst snd]. rewrite Hapi.
  rewrite (collect_readable _ _ _ _ Hread). cbn [app].
  fold (dated (IO.today e)). fold today_prices. rewrite Hsave.
  cbn [IO.files IO.sent fst snd]. rewrite Hn'.
  assert (Hsent : forall (a : list Requests.request) x y, (a ++ [x]) ++ [y] = a ++ [x; y])
    by (intros; now rewrite <- app_assoc).
  destruct (Requests.checked_results
              (IO.api e (Requests.mkrequest Fetch.agile_url (Fetch.midnight tomorrow)
                           (Fetch.midnight day_after)))) as [results'|] eqn:Hr'.
  - destruct (Hapi' results' eq_refl) as [Hread' Hnone].
    rewrite (collect_readable _ _ _ _ Hread'). cbn [app].
    fold (dated tomorrow). rewrite Hnone. cbn [Fetch.sort fold_left].
    cbn [IO.files IO.sent fst snd]. now rewrite Hsent.
  - cbn [IO.files IO.sent fst snd]. now rewrite Hsent.
Qed.

(** Early in the day: three points for today, none for tomorrow, and one
    cache file written. *)
Lemma fetch_before_tomorrow_is_published_witness :
  exists today_prices,
    fst (DashboardFetch.fetch_agile_prices Scenario.machine_early Scenario.start)
    = (today_prices, [])
    /\ List.length today_prices = 3%nat
    /\ Os.path_exists
         (IO.files (snd (DashboardFetch.fetch_agile_prices Scenario.machine_early
                           Scenario.start)))
         (Fetch.cache_name Sample.tomorrow) = false.
Proof.
  destruct (fetch_before_tomorrow_is_published Scenario.machine_early Scenario.start
              Sample.tomorrow (Datetime.mkdate 2024 1 17) Scenario.today_rates)
    as [cache_data [_ Hrun]].
  - reflexivity.
  - reflexivity.
  - reflexivity.
  - reflexivity.
  - reflexivity.
  - reflexivity.
  - now apply today_rates_readable.
  - intros results' H. vm_compute in H. injection H as <-.
    split; [intros item [] | reflexivity].
  - eexists. rewrite Hrun. cbn [fst snd IO.files]. split; [reflexivity|].
    split; [reflexivity|]. unfold Os.path_exists. rewrite read_write.
    reflexivity.
Defined.

(* ================================================================== *)
(** * [astimezone] returns datetimes *)
(* ================================================================== *)

Lemma all_below_spec (n : nat) (f : Z -> bool) (z : Z) :
  all_below n f = true -> 0 <= z < Z.of_nat n -> f z = true.
Proof.
  induction n as [|k IH]; cbn [all_below]; intros H Hz; [lia|].
  apply andb_true_iff in H as [Hk Hrest].
  destruct (Z.eq_dec z (Z.of_nat k)) as [->|Hne]; [exact Hk|].
  apply IH; [exact Hrest | lia].
Qed.

Lemma month_day_exists (n : Z) (leapyear : bool) :
  0 <= n <= 364 -> month_day_ok leapyear (month_day n leapyear) = true.
Proof.
  intros H.
  assert (Hall : all_below 365 (fun z => month_day_ok true (month_day z true)
                                         && month_day_ok false (month_day z false))
                 = true) by (vm_compute; reflexivity).
  pose proof (all_below_spec 365 _ n Hall ltac:(lia)) as Hn. cbn beta in Hn.
  apply andb_true_iff in Hn as [Ht Hf]. destruct leapyear; assumption.
Qed.

Lemma is_leap_of_parts (n400 n100 n4 n1 : Z) :
  0 <= n100 <= 3 -> 0 <= n4 <= 24 -> 0 <= n1 <= 3 ->
  Datetime.is_leap (n400 * 400 + 1 + n100 * 100 + n4 * 4 + n1)
  = (n1 =? 3) && (negb (n4 =? 24) || (n100 =? 3)).
Proof.
  intros H100 H4 H1. unfold Datetime.is_leap.
  set (y := n400 * 400 + 1 + n100 * 100 + n4 * 4 + n1).
  assert (Hm4 : y mod 4 = (n1 + 1) mod 4).
  { unfold y. replace (n400 * 400 + 1 + n100 * 100 + n4 * 4 + n1)
      with (n1 + 1 + (n400 * 100 + n100 * 25 + n4) * 4) by lia.
    apply Z.mod_add. lia. }
  assert (Hm100 : y mod 100 = (n4 * 4 + n1 + 1) mod 100).
  { unfold y. replace (n400 * 400 + 1 + n100 * 100 + n4 * 4 + n1)
      with (n4 * 4 + n1 + 1 + (n400 * 4 + n100) * 100) by lia.
    apply Z.mod_add. lia. }
  assert (Hm400 : y mod 400 = (n100 * 100 + n4 * 4 + n1 + 1) mod 400).
  { unfold y. replace (n400 * 400 + 1 + n100 * 100 + n4 * 4 + n1)
      with (n100 * 100 + n4 * 4 + n1 + 1 + n400 * 400) by lia.
    apply Z.mod_add. lia. }
  rewrite Hm4, Hm100, Hm400. clear Hm4 Hm100 Hm400 y.
  destruct (Z.eqb_spec n1 3) as [->|Hn1].
  - cbn [andb]. change ((3 + 1) mod 4 =? 0) with true. cbn [andb].
    destruct (Z.eqb_spec n4 24) as [->|Hn4].
    + change ((24 * 4 + 3 + 1) mod 100 =? 0) with true. cbn [negb orb].
      destruct (Z.eqb_spec n100 3) as [->|Hn100]; [reflexivity|].
      apply Z.eqb_neq. assert (Hc : n100 = 0 \/ n100 = 1 \/ n100 = 2) by lia.
      destruct Hc as [->|[->| ->]]; discriminate.
    + cbn [negb orb].
      rewrite (Z.mod_small (n4 * 4 + 3 + 1) 100) by lia.
      destruct (Z.eqb_spec (n4 * 4 + 3 + 1) 0); [lia | reflexivity].
  - cbn [andb]. rewrite (Z.mod_small (n1 + 1) 4) by lia.
    destruct (Z.eqb_spec (n1 + 1) 0); [lia | reflexivity].
Qed.

Lemma ord2ymd_parts (ordinal : Z) :
  let n := ordinal - 1 in
  let n400 := n / 146097 in
  let n100 := n mod 146097 / 36524 in
  let n4 := n mod 146097 mod 36524 / 1461 in
  let n1 := n mod 146097 mod 36524 mod 1461 / 365 in
  let r := n mod 146097 mod 36524 mod 1461 mod 365 in
  let year := n400 * 400 + 1 + n100 * 100 + n4 * 4 + n1 in
  Zone.ord2ymd ordinal
  = if (n1 =? 4) || (n100 =? 4) then Datetime.mkdate (year - 1) 12 31
    else
      let md := month_day r ((n1 =? 3) && (negb (n4 =? 24) || (n100 =? 3))) in
      Datetime.mkdate year (fst md) (snd md).
Proof.
  cbv zeta. unfold Zone.ord2ymd, month_day. cbv zeta.
  destruct (_ || _); [reflexivity|].
  destruct (_ <? _); reflexivity.
Qed.

(** [_ord2ymd] gives a date of the calendar for every ordinal from 1 to
    [MAXORDINAL]. *)
Lemma ord2ymd_valid (ordinal : Z) :
  1 <= ordinal <= Zone.MAXORDINAL -> Datetime.valid_date (Zone.ord2ymd ordinal) = true.
Proof.
  intros H. unfold Zone.MAXORDINAL in H. rewrite ord2ymd_parts. cbv zeta.
  set (n := ordinal - 1). assert (Hn : 0 <= n <= 3652058) by (unfold n; lia).
  clearbody n. clear H ordinal.
  pose proof (Z.div_mod n 146097 ltac:(lia)) as E400.
  pose proof (Z.mod_pos_bound n 146097 ltac:(lia)) as B400.
  set (n400 := n / 146097) in *. set (r400 := n mod 146097) in *.
  pose proof (Z.div_mod r400 36524 ltac:(lia)) as E100.
  pose proof (Z.mod_pos_bound r400 36524 ltac:(lia)) as B100.
  set (n100 := r400 / 36524) in *. set (r100 := r400 mod 36524) in *.
  pose proof (Z.div_mod r100 1461 ltac:(lia)) as E4.
  pose proof (Z.mod_pos_bound r100 1461 ltac:(lia)) as B4.
  set (n4 := r100 / 1461) in *. set (r4 := r100 mod 1461) in *.
  pose proof (Z.div_mod r4 365 ltac:(lia)) as E1.
  pose proof (Z.mod_pos_bound r4 365 ltac:(lia)) as B1.
  set (n1 := r4 / 365) in *. set (r := r4 mod 365) in *.
  clearbody n400 r400 n100 r100 n4 r4 n1 r.
  assert (H400 : 0 <= n400 <= 24) by lia.
  assert (H100 : 0 <= n100 <= 4) by lia.
  assert (H4 : 0 <= n4 <= 24) by lia.
  assert (H1 : 0 <= n1 <= 4) by lia.
  unfold Datetime.valid_date.
  destruct (Z.eqb_spec n1 4) as [Hs1|Hs1]; cbn [orb].
  - cbn [Datetime.year Datetime.month Datetime.day].
    change (Datetime.days_in_month _ 12) with 31.
    repeat (apply andb_true_iff; split); apply Z.leb_le; lia.
  - destruct (Z.eqb_spec n100 4) as [Hs100|Hs100].
    + cbn [Datetime.year Datetime.month Datetime.day].
      change (Datetime.days_in_month _ 12) with 31.
      repeat (apply andb_true_iff; split); apply Z.leb_le; lia.
    + pose proof (month_day_exists r ((n1 =? 3) && (negb (n4 =? 24) || (n100 =? 3)))
                    ltac:(lia)) as Hmd.
      rewrite <- (is_leap_of_parts n400 n100 n4 n1) in Hmd |- * by lia.
      set (y := n400 * 400 + 1 + n100 * 100 + n4 * 4 + n1) in *.
      assert (Hy : 1 <= y <= 9999) by (unfold y; lia).
      destruct (month_day r (Datetime.is_leap y)) as [m d].
      cbn [fst snd Datetime.year Datetime.month Datetime.day].
      unfold month_day_ok in Hmd. unfold Datetime.days_in_month.
      apply andb_true_iff in Hmd as [Hmd Hd]. apply andb_true_iff in Hmd as [Hmd Hd1].
      apply andb_true_iff in Hmd as [Hm1 Hm12].
      rewrite Hm1, Hm12, Hd1, Hd.
      replace (1 <=? y) with true by (symmetry; apply Z.leb_le; lia).
      replace (y <=? 9999) with true by (symmetry; apply Z.leb_le; lia).
      reflexivity.
Qed.

Lemma of_micros_valid (us off : Z) (t : Datetime.datetime) :
  Datetime.valid_offset (Some off) = true ->
  Zone.of_micros us off = Some t -> Datetime.valid_datetime t = true.
Proof.
  intros Hoff. unfold Zone.of_micros.
  destruct ((1 <=? us / 86400000000) && (us / 86400000000 <=? Zone.MAXORDINAL)) eqn:Hd;
    [|discriminate].
  apply andb_true_iff in Hd as [Hlo Hhi]. apply Z.leb_le in Hlo, Hhi.
  pose proof (ord2ymd_valid (us / 86400000000) (conj Hlo Hhi)) as Hv.
  revert Hv. generalize (Zone.ord2ymd (us / 86400000000)). intros d Hv H.
  injection H as <-. unfold Datetime.valid_datetime.
  cbn [Datetime.dt_date Datetime.hour Datetime.minute Datetime.second
       Datetime.microsecond Datetime.utcoffset].
  rewrite Hv, Hoff.
  pose proof (Z.mod_pos_bound (us / 3600000000) 24 ltac:(lia)).
  pose proof (Z.mod_pos_bound (us / 60000000) 60 ltac:(lia)).
  pose proof (Z.mod_pos_bound (us / 1000000) 60 ltac:(lia)).
  pose proof (Z.mod_pos_bound us 1000000 ltac:(lia)).
  repeat (apply andb_true_iff; split); try reflexivity; apply Z.leb_le; lia.
Qed.

Lemma astimezone_valid (f : Datetime.datetime -> Z) (d t : Datetime.datetime) :
  Zone.astimezone f d = Some t -> Datetime.valid_datetime t = true.
Proof.
  unfold Zone.astimezone.
  destruct ((-86400000000 <? f d) && (f d <? 86400000000)) eqn:Hoff; [|discriminate].
  destruct (Zone.of_micros _ 0); [|discriminate].
  apply of_micros_valid. exact Hoff.
Qed.

(** A point made from an item of the API can be written to the cache and
    read back. *)
Lemma local_point_cacheable (e : IO.env) (item : Requests.rate) (p : price_point) :
  Fetch.local_point e item = Some p -> cacheable p.
Proof.
  unfold Fetch.local_point.
  destruct (Datetime.fromisoformat _) as [u|]; [|discriminate].
  destruct (Zone.astimezone (IO.local_offset e) u) as [l|] eqn:Hl; [|discriminate].
  intros H. injection H as <-. split; [|reflexivity].
  cbn [timestamp]. eapply astimezone_valid; eauto.
Qed.

Lemma local_points_cacheable (e : IO.env) (results : list Requests.rate) :
  Forall cacheable (local_points e results).
Proof.
  apply Forall_forall. intros p Hp. apply local_points_dated in Hp as [item [_ Hp]].
  eapply local_point_cacheable; eauto.
Qed.

Lemma sort_cacheable (l : list price_point) :
  Forall cacheable l -> Forall cacheable (Fetch.sort l).
Proof.
  apply Permutation_Forall. symmetry. apply sort_permutation.
Qed.

Lemma collect_cacheable (e : IO.env) (keep : Datetime.date -> bool)
    (results : list Requests.rate) (found : list price_point) (finished : bool) :
  Fetch.collect e keep results [] = (found, finished) -> Forall cacheable found.
Proof.
  intros H. apply collect_from_results in H as [added [-> Hall]]. cbn [app].
  eapply Forall_impl; [|exact Hall]. cbn. intros p [_ [item [_ Hp]]].
  eapply local_point_cacheable; eauto.
Qed.

Lemma fromisoformat_valid (s : string) (t : Datetime.datetime) :
  Datetime.fromisoformat s = Py.Ok t -> Datetime.valid_datetime t = true.
Proof.
  unfold Datetime.fromisoformat.
  destruct (Datetime.parse_isoformat_date s) as [[[[y m] d] rest]|]; [|discriminate].
  match goal with
  | |- match ?c with _ => _ end = _ -> _ => destruct c as [[[[[hh mm] ss] us] tz]|]
  end; [|discriminate].
  destruct (Datetime.valid_datetime _) eqn:Hv; [|discriminate].
  intros H. injection H as <-. exact Hv.
Qed.

Lemma load_cache_cacheable (items : list cache_item) (prices : list price_point) :
  Dashboard.load_cache items = Py.Ok prices -> Forall cacheable prices.
Proof.
  intros H. apply Forall_forall. intros p Hp.
  destruct (mapM_ok_in _ _ _ H p Hp) as [item [_ Hitem]].
  unfold Dashboard.from_cache_item in Hitem.
  destruct (Datetime.fromisoformat (c_timestamp item)) as [ts|] eqn:Hts;
    cbn [Py.bind] in Hitem; [|discriminate].
  injection Hitem as <-. split; [|reflexivity].
  cbn [timestamp]. eapply fromisoformat_valid; eauto.
Qed.

Lemma save_collected (e : IO.env) (keep : Datetime.date -> bool)
    (results : list Requests.rate) (found : list price_point) (finished : bool) :
  Fetch.collect e keep results [] = (found, finished) ->
  exists cache_data, Dashboard.save_cache (Fetch.sort found) = Py.Ok cache_data.
Proof.
  intros H. apply collect_from_results in H as [added [-> Hall]]. cbn [app].
  apply save_cache_total.
  apply (Permutation_Forall (x := added)); [symmetry; apply sort_permutation|].
  eapply Forall_impl; [|exact Hall]. cbn. intros p [_ [item [_ Hp]]].
  apply local_point_fields in Hp as [_ [_ [_ [Hd _]]]]. congruence.
Qed.

(** One more case of the innermost [match] of the hypothesis. *)
Ltac io_case_in H :=
  match type of H with
  | context [match ?x with _ => _ end] =>
      lazymatch x with
      | context [match _ with _ => _ end] => fail
      | _ => destruct x eqn:?
      end
  end.

(** After a call in which every item could be read, a non-empty list that
    was returned is in its cache file: it was loaded from it, or written to
    it. *)
Lemma fetch_result_cached (e : IO.env) (w w1 : IO.world) (tomorrow : Datetime.date)
    (t tm : list price_point) :
  Datetime.valid_date (IO.today e) = true ->
  Datetime.next_day (IO.today e) = Py.Ok tomorrow ->
  readable e ->
  DashboardFetch.fetch_agile_prices e w = ((t, tm), w1) ->
  (t <> [] ->
   exists items,
     Os.read (IO.files w1) (Fetch.cache_name (IO.today e)) = Some (Os.Prices items)
     /\ (Dashboard.load_cache items = Py.Ok t \/ Dashboard.save_cache t = Py.Ok items))
  /\ (tm <> [] ->
      exists items,
        Os.read (IO.files w1) (Fetch.cache_name tomorrow) = Some (Os.Prices items)
        /\ (Dashboard.load_cache items = Py.Ok tm \/ Dashboard.save_cache tm = Py.Ok items)).
Proof.
  intros Hv Hn Hr H.
  destruct (next_day_later _ _ Hv Hn) as [Hv' [Hlt Hge]].
  assert (Hne : String.eqb (Fetch.cache_name tomorrow) (Fetch.cache_name (IO.today e))
                = false).
  { apply String.eqb_neq. intros Heq. apply cache_name_inj in Heq; auto.
    rewrite Heq in Hlt. now rewrite date_ltb_irrefl in Hlt. }
  assert (Hne' : String.eqb (Fetch.cache_name (IO.today e)) (Fetch.cache_name tomorrow)
                 = false) by (now rewrite String.eqb_sym).
  io_unfold_in H. rewrite Hn in H. fold (cleaned (IO.today e) (IO.files w)) in H.
  repeat io_case_in H; cbn [IO.files IO.sent fst snd] in *;
    injection H as <- <- <-; cbn [IO.files IO.sent fst snd];
    rewrite ?read_write, ?Hne, ?Hne', ?String.eqb_refl;
    (split; intros Hnil; try congruence);
    first
      [ eexists; split; [reflexivity | right; eassumption]
      | eexists; split; [eassumption | left; eassumption]
      | exfalso;
        match goal with
        | Hc : Fetch.collect e ?k ?l [] = (_, false),
          Ho : Requests.checked_results (IO.api e ?rq) = Some ?l |- _ =>
            rewrite (collect_readable e k l [] (fun item Hi => Hr rq l item Ho Hi)) in Hc;
            discriminate
        end
      | exfalso;
        match goal with
        | Hc : Fetch.collect e ?k ?l [] = (?f, _),
          Hs : Dashboard.save_cache _ = Py.Raise _ |- _ =>
            destruct (save_collected _ _ _ _ _ Hc) as [cd Hcd]; congruence
        end ].
Qed.

(** Whatever [fetch_agile_prices] returns can be cached and read back. *)
Lemma fetch_returns_cacheable (e : IO.env) (w w1 : IO.world)
    (t tm : list price_point) :
  DashboardFetch.fetch_agile_prices e w = ((t, tm), w1) ->
  Forall cacheable t /\ Forall cacheable tm.
Proof.
  intros H. io_unfold_in H.
  repeat io_case_in H; cbn [IO.files IO.sent fst snd] in *;
    injection H as <- <- <-;
    (split;
     first
       [ apply Forall_nil
       | eapply load_cache_cacheable; eassumption
       | eapply collect_cacheable; eassumption
       | apply sort_cacheable; eapply collect_cacheable; eassumption
       | match goal with
         | Hs : Fetch.sort ?l = ?x |- Forall cacheable ?x =>
             rewrite <- Hs; apply sort_cacheable; eapply collect_cacheable; eassumption
         end ]).
Qed.

Lemma save_then_load (prices : list price_point) (items : list cache_item) :
  Forall cacheable prices -> Dashboard.save_cache prices = Py.Ok items ->
  Dashboard.load_cache items = Py.Ok prices.
Proof.
  intros Hc Hs.
  destruct (mapM_round_trip Dashboard.to_cache_item Dashboard.from_cache_item prices)
    as [ys [Hys Hback]].
  - eapply Forall_impl; [|exact Hc]. intros p Hp. now apply dashboard_item_round_trip.
  - unfold Dashboard.save_cache in Hs. unfold Dashboard.load_cache. congruence.
Qed.

(** Once a call has returned prices for both days, every later call of the
    same day returns the same two lists from the cache files, whatever the
    API would answer by then: it sends no request and changes no file. *)
Theorem second_fetch_is_served_from_cache
    (e e' : IO.env) (w w1 : IO.world) (tomorrow : Datetime.date)
    (today_prices tomorrow_prices : list price_point) :
  Datetime.valid_date (IO.today e) = true ->
  Datetime.next_day (IO.today e) = Py.Ok tomorrow ->
  readable e ->
  DashboardFetch.fetch_agile_prices e w = ((today_prices, tomorrow_prices), w1) ->
  today_prices <> [] -> tomorrow_prices <> [] ->
  IO.today e' = IO.today e ->
  fst (DashboardFetch.fetch_agile_prices e' w1) = (today_prices, tomorrow_prices)
  /\ IO.sent (snd (DashboardFetch.fetch_agile_prices e' w1)) = IO.sent w1
  /\ forall name,
       Os.read (IO.files (snd (DashboardFetch.fetch_agile_prices e' w1))) name
       = Os.read (IO.files w1) name.
Proof.
  intros Hv Hn Hr H Hnt Hntm Hsame.
  destruct (fetch_returns_cacheable _ _ _ _ _ H) as [Hct Hctm].
  destruct (next_day_later _ _ Hv Hn) as [Hv' [Hlt Hge]].
  destruct (fetch_result_cached _ _ _ _ _ _ Hv Hn Hr H) as [Ht Htm].
  destruct (Ht Hnt) as [items [Hread Hitems]].
  destruct (Htm Hntm) as [items' [Hread' Hitems']].
  assert (Hload : Dashboard.load_cache items = Py.Ok today_prices)
    by (destruct Hitems; [assumption | now apply save_then_load]).
  assert (Hload' : Dashboard.load_cache items' = Py.Ok tomorrow_prices)
    by (destruct Hitems'; [assumption | now apply save_then_load]).
  rewrite <- Hsame in Hv, Hn, Hread.
  rewrite (fetch_from_cache e' w1 tomorrow items items' today_prices tomorrow_prices)
    by assumption.
  cbn [fst snd IO.files IO.sent]. split; [reflexivity|]. split; [reflexivity|].
  intros name. unfold cleaned. rewrite read_clean_up.
  fold (is_old_cache (IO.today e') name).
  destruct (is_old_cache (IO.today e') name) eqn:Hold; [|reflexivity].
  rewrite Hsame in Hold, Hn.
  assert (Hw1 : w1 = snd (DashboardFetch.fetch_agile_prices e w)) by now rewrite H.
  destruct (fetch_files_shape e w tomorrow name Hn) as [Hs|[[Hs|Hs] _]].
  - rewrite Hw1, Hs. unfold cleaned. rewrite read_clean_up.
    fold (is_old_cache (IO.today e) name). now rewrite Hold.
  - subst name. rewrite is_old_cache_name, date_ltb_irrefl in Hold by (now rewrite <- Hsame).
    discriminate.
  - subst name. rewrite is_old_cache_name in Hold by assumption. congruence.
Qed.

(** The first call fetches both days; a second call, off line, returns the
    same lists. *)
Lemma second_fetch_is_served_from_cache_witness :
  fst (DashboardFetch.fetch_agile_prices Scenario.machine_offline Scenario.cached)
  = (Scenario.today_points, Scenario.tomorrow_points)
  /\ List.length Scenario.today_points = 3%nat
  /\ List.length Scenario.tomorrow_points = 2%nat.
Proof.
  destruct (second_fetch_is_served_from_cache Scenario.machine Scenario.machine_offline
              Scenario.start Scenario.cached Sample.tomorrow
              Scenario.today_points Scenario.tomorrow_points)
    as [Hresult _].
  - reflexivity.
  - reflexivity.
  - exact machine_readable.
  - vm_compute. reflexivity.
  - vm_compute. discriminate.
  - vm_compute. discriminate.
  - reflexivity.
  - split; [exact Hresult|]. split; reflexivity.
Defined.

(* ================================================================== *)
(** * [fetch_gas_price] *)
(* ================================================================== *)

Lemma find_app {A : Type} (f : A -> bool) (l1 l2 : list A) :
  find f (l1 ++ l2) = match find f l1 with
                      | Some x => Some x
                      | None => find f l2
                      end.
Proof.
  induction l1 as [|a l1 IH]; cbn [app find]; [reflexivity|].
  destruct (f a); [reflexivity | exact IH].
Qed.

Lemma date_eqb_sym (a b : Datetime.date) :
  Datetime.date_eqb a b = Datetime.date_eqb b a.
Proof.
  unfold Datetime.date_eqb.
  now rewrite (Z.eqb_sym (Datetime.year a)), (Z.eqb_sym (Datetime.month a)),
    (Z.eqb_sym (Datetime.day a)).
Qed.

Lemma next_day_ne (d d' : Datetime.date) : Datetime.next_day d = Py.Ok d' -> d <> d'.
Proof.
  unfold Datetime.next_day. destruct d as [y m dd].
  cbn [Datetime.year Datetime.month Datetime.day].
  destruct (_ <? _); [intros H; injection H as <-; intros Heq; injection Heq; lia|].
  destruct (_ <? _); [intros H; injection H as <-; intros Heq; injection Heq; lia|].
  destruct (_ <? _); [intros H; injection H as <-; intros Heq; injection Heq; lia|].
  discriminate.
Qed.

Lemma scan_gas_readable (e : IO.env) (today tomorrow : Datetime.date)
    (results : list Requests.rate) (a b : option float) :
  today <> tomorrow ->
  (forall item, In item results -> Fetch.local_point e item <> None) ->
  DashboardFetch.scan_gas e today tomorrow results a b
  = Some (match last_price today (local_points e results) with
          | Some v => Some v
          | None => a
          end,
          match last_price tomorrow (local_points e results) with
          | Some v => Some v
          | None => b
          end).
Proof.
  intros Hne. revert a b. induction results as [|item rest IH]; intros a b Hr.
  - reflexivity.
  - cbn [DashboardFetch.scan_gas local_points flat_map].
    destruct (Fetch.local_point e item) as [p|] eqn:Hp;
      [|destruct (Hr item (or_introl eq_refl) Hp)].
    fold (local_points e rest).
    assert (Hrest : forall i, In i rest -> Fetch.local_point e i <> None)
      by (intros; apply Hr; now right).
    unfold last_price. cbn [app rev]. rewrite !find_app. cbn [find].
    fold (last_price today (local_points e rest)).
    fold (last_price tomorrow (local_points e rest)).
    unfold dated at 2 4.
    rewrite (date_eqb_sym today), (date_eqb_sym tomorrow).
    destruct (Datetime.date_eqb (Datetime.dt_date (timestamp p)) today) eqn:Ht.
    + apply date_eqb_eq in Ht.
      assert (Hnt : Datetime.date_eqb (Datetime.dt_date (timestamp p)) tomorrow = false).
      { apply Bool.not_true_iff_false. rewrite date_eqb_eq. congruence. }
      rewrite Hnt, IH by assumption. unfold last_price.
      destruct (find (dated today) (rev (local_points e rest)));
        destruct (find (dated tomorrow) (rev (local_points e rest))); reflexivity.
    + destruct (Datetime.date_eqb (Datetime.dt_date (timestamp p)) tomorrow) eqn:Htm;
        rewrite IH by assumption; unfold last_price;
        destruct (find (dated today) (rev (local_points e rest)));
        destruct (find (dated tomorrow) (rev (local_points e rest))); reflexivity.
Qed.

(** [fetch_gas_price] of [dashboard.py] sends one request for both days.
    When it fails the function returns [(None, None)].  When every item of
    the answer can be read, the price of each day is that of the last item
    of the answer that falls on that day in local time, and [None] when no
    item does. *)
Theorem dashboard_gas_last_item_wins
    (e : IO.env) (w : IO.world) (tomorrow : Datetime.date) :
  Datetime.next_day (IO.today e) = Py.Ok tomorrow ->
  let rq := gas_request (Fetch.midnight (IO.today e)) (Fetch.end_of_day tomorrow) in
  let after := IO.mkworld (IO.files w) (IO.sent w ++ [rq]) in
  (Requests.checked_results (IO.api e rq) = None ->
   DashboardFetch.fetch_gas_price e w = ((None, None), after))
  /\ (forall results,
        Requests.checked_results (IO.api e rq) = Some results ->
        (forall item, In item results -> Fetch.local_point e item <> None) ->
        DashboardFetch.fetch_gas_price e w
        = ((last_price (IO.today e) (local_points e results),
            last_price tomorrow (local_points e results)), after)).
Proof.
  intros Hn rq after. pose proof (next_day_ne _ _ Hn) as Hne.
  subst rq after. unfold gas_request. split.
  - intros Hapi. io_unfold. rewrite Hn. cbn [IO.files IO.sent fst snd].
    now rewrite Hapi.
  - intros results Hapi Hr. io_unfold. rewrite Hn. cbn [IO.files IO.sent fst snd].
    rewrite Hapi. rewrite (scan_gas_readable _ _ _ _ _ _ Hne Hr).
    destruct (last_price (IO.today e) (local_points e results));
      destruct (last_price tomorrow (local_points e results)); reflexivity.
Qed.

(** One request; the item of each day gives its price. *)
Lemma dashboard_gas_last_item_wins_witness :
  fst (DashboardFetch.fetch_gas_price Scenario.machine Scenario.start)
  = (Some 6.25%float, Some 6.5%float).
Proof.
  destruct (dashboard_gas_last_item_wins Scenario.machine Scenario.start Sample.tomorrow
              eq_refl) as [_ Hok].
  rewrite (Hok Scenario.gas_rates).
  - vm_compute. reflexivity.
  - reflexivity.
  - intros item Hin.
    repeat (destruct Hin as [<-|Hin]; [vm_compute; discriminate|]); destruct Hin.
Defined.

(** [fetch_gas_price] of [dashboard-snap.py] sends one request per day and
    takes the first item of each answer.  The first request is checked: when
    it fails, both prices are [None].  The second one is not: a status other
    than 200 leaves tomorrow's price [None] and keeps today's, but an
    exception on the second request loses today's price as well. *)
Theorem snap_gas_second_request
    (e : IO.env) (w : IO.world) (tomorrow : Datetime.date)
    (results : list Requests.rate) :
  Datetime.next_day (IO.today e) = Py.Ok tomorrow ->
  let rq1 := gas_request (Fetch.midnight (IO.today e)) (Fetch.end_of_day (IO.today e)) in
  let rq2 := gas_request (Fetch.midnight tomorrow) (Fetch.end_of_day tomorrow) in
  let after := IO.mkworld (IO.files w) (IO.sent w ++ [rq1; rq2]) in
  Requests.checked_results (IO.api e rq1) = Some results ->
  (IO.api e rq2 = Requests.ConnectionError ->
   SnapFetch.fetch_gas_price e w = (Snap.mkgas None None, after))
  /\ (forall status_code body,
        IO.api e rq2 = Requests.Response status_code body -> status_code <> 200 ->
        SnapFetch.fetch_gas_price e w
        = (Snap.mkgas (SnapFetch.first_price results) None, after))
  /\ (forall results',
        IO.api e rq2 = Requests.Response 200 (Some results') ->
        SnapFetch.fetch_gas_price e w
        = (Snap.mkgas (SnapFetch.first_price results) (SnapFetch.first_price results'),
           after)).
Proof.
  intros Hn rq1 rq2 after Hapi. subst rq1 rq2 after. unfold gas_request in *.
  assert (Hsent : forall (a : list Requests.request) x y, (a ++ [x]) ++ [y] = a ++ [x; y])
    by (intros; now rewrite <- app_assoc).
  repeat split.
  - intros H2. io_unfold. rewrite Hn. cbn [IO.files IO.sent fst snd].
    rewrite Hapi, H2. now rewrite Hsent.
  - intros code body H2 Hcode. io_unfold. rewrite Hn. cbn [IO.files IO.sent fst snd].
    rewrite Hapi, H2. apply Z.eqb_neq in Hcode. rewrite Hcode. now rewrite Hsent.
  - intros results' H2. io_unfold. rewrite Hn. cbn [IO.files IO.sent fst snd].
    rewrite Hapi, H2. cbn [Z.eqb Pos.eqb]. now rewrite Hsent.
Qed.

(** No gas price for tomorrow yet: a 404 keeps today's price. *)
Lemma snap_gas_second_request_witness :
  fst (SnapFetch.fetch_gas_price Scenario.machine_gas_today_only Scenario.start)
  = Snap.mkgas (Some 6.5%float) None.
Proof.
  destruct (snap_gas_second_request Scenario.machine_gas_today_only Scenario.start
              Sample.tomorrow Scenario.gas_rates eq_refl eq_refl) as [_ [Hstatus _]].
  rewrite (Hstatus 404 None); [reflexivity | reflexivity | discriminate].
Defined.

(* ================================================================== *)
(** * [fetch_agile_prices] of [dashboard-snap.py] *)
(* ================================================================== *)

Lemma snap_save_total (prices : list price_point) :
  Forall (fun p => date p <> None) prices ->
  exists cache_data, Snap.save_cache prices = Py.Ok cache_data.
Proof.
  intros H. unfold Snap.save_cache. apply mapM_total. intros p Hp.
  rewrite Forall_forall in H. specialize (H p Hp). unfold Snap.to_cache_item.
  destruct (date p); [eauto | congruence].
Qed.

Lemma snap_save_then_load (prices : list price_point) (items : list cache_item) :
  Forall cacheable prices -> Snap.save_cache prices = Py.Ok items ->
  Snap.load_cache items = Py.Ok prices.
Proof.
  intros Hc Hs.
  destruct (mapM_round_trip Snap.to_cache_item Snap.from_cache_item prices)
    as [ys [Hys Hback]].
  - eapply Forall_impl; [|exact Hc]. intros p Hp. now apply snap_item_round_trip.
  - unfold Snap.save_cache in Hs. unfold Snap.load_cache. congruence.
Qed.

Lemma filter_true {A : Type} (l : list A) : filter (fun _ => true) l = l.
Proof. induction l as [|a l IH]; cbn; [reflexivity | now rewrite IH]. Qed.

(** The snapshot variant asks the API once per day.  With no cache file for
    today, it sends one request for today and tomorrow together, keeps every
    point of the answer in chronological order and writes them to today's
    cache file.  From then on the file is the answer: a later call of the
    same day returns the same list and sends no request, so prices that the
    API publishes later in the day (tomorrow's) are not picked up, and an
    empty answer stays empty. *)
Theorem snap_fetch_once_per_day
    (e e' : IO.env) (w : IO.world) (tomorrow day_after : Datetime.date)
    (results : list Requests.rate) :
  Datetime.valid_date (IO.today e) = true ->
  Datetime.next_day (IO.today e) = Py.Ok tomorrow ->
  Datetime.next_day tomorrow = Py.Ok day_after ->
  Os.read (IO.files w) (Fetch.cache_name (IO.today e)) = None ->
  let rq := day_request (IO.today e) day_after in
  Requests.checked_results (IO.api e rq) = Some results ->
  (forall item, In item results -> Fetch.local_point e item <> None) ->
  let prices := Fetch.sort (local_points e results) in
  IO.today e' = IO.today e ->
  let first := SnapFetch.fetch_agile_prices e w in
  let second := SnapFetch.fetch_agile_prices e' (snd first) in
  fst first = prices
  /\ IO.sent (snd first) = IO.sent w ++ [rq]
  /\ fst second = prices
  /\ IO.sent (snd second) = IO.sent w ++ [rq].
Proof.
  intros Hv Hn Hn' Hread rq Hapi Hr prices Hsame first second.
  assert (Hc : Forall cacheable prices)
    by (apply sort_cacheable, local_points_cacheable).
  rewrite <- (read_cleaned_cache (IO.today e)) in Hread
    by (assumption || apply date_ltb_irrefl).
  destruct (snap_save_total prices) as [cache_data Hsave].
  { eapply Forall_impl; [|exact Hc]. intros p [_ Hd]. congruence. }
  assert (Hfirst : first = (prices,
            IO.mkworld (Os.write (cleaned (IO.today e) (IO.files w))
                          (Fetch.cache_name (IO.today e)) (Os.Prices cache_data))
              (IO.sent w ++ [rq]))).
  { subst first rq. unfold day_request in *. io_unfold. rewrite Hn.
    fold (cleaned (IO.today e) (IO.files w)). rewrite Hread, Hn'.
    cbn [IO.files IO.sent fst snd]. rewrite Hapi.
    rewrite (collect_readable _ _ _ _ Hr). cbn [app]. rewrite filter_true.
    fold prices. rewrite Hsave. reflexivity. }
  assert (Hsecond : second = (prices,
            IO.mkworld (cleaned (IO.today e)
                          (Os.write (cleaned (IO.today e) (IO.files w))
                             (Fetch.cache_name (IO.today e)) (Os.Prices cache_data)))
              (IO.sent w ++ [rq]))).
  { subst second. rewrite Hfirst. cbn [snd]. io_unfold. rewrite Hsame, Hn.
    match goal with
    | |- context [fold_left (Fetch.remove_if_old ?d) (Os.glob _ _ ?fs) ?fs] =>
        fold (cleaned d fs)
    end.
    cbn [IO.files IO.sent fst snd].
    rewrite read_cleaned_cache by (assumption || apply date_ltb_irrefl).
    rewrite read_write, String.eqb_refl.
    rewrite (snap_save_then_load _ _ Hc Hsave). reflexivity. }
  rewrite Hsecond, Hfirst. cbn [fst snd IO.sent]. auto.
Qed.

(** The first call is made early in the day, the second one when the API
    has tomorrow's prices: the second call returns the list of the first. *)
Lemma snap_fetch_once_per_day_witness :
  fst (SnapFetch.fetch_agile_prices Scenario.machine
         (snd (SnapFetch.fetch_agile_prices Scenario.machine_early Scenario.start)))
  = fst (SnapFetch.fetch_agile_prices Scenario.machine_early Scenario.start)
  /\ Snap.tomorrow_prices Sample.tomorrow
       (fst (SnapFetch.fetch_agile_prices Scenario.machine
               (snd (SnapFetch.fetch_agile_prices Scenario.machine_early
                       Scenario.start)))) = [].
Proof.
  destruct (snap_fetch_once_per_day Scenario.machine_early Scenario.machine
              Scenario.start Sample.tomorrow (Datetime.mkdate 2024 1 17)
              Scenario.today_rates)
    as [Hfirst [_ [Hsecond _]]].
  - reflexivity.
  - reflexivity.
  - reflexivity.
  - reflexivity.
  - reflexivity.
  - now apply today_rates_readable.
  - reflexivity.
  - rewrite Hsecond, Hfirst. split; [reflexivity | vm_compute; reflexivity].
Defined.

(* ================================================================== *)
(** * The mock data of [--mock-tomorrow] *)
(* ================================================================== *)

Lemma ltb_true_not_nan (x y : float) :
  (x <? y)%float = true -> not_nan x /\ not_nan y.
Proof.
  rewrite ltb_spec. unfold SFltb, not_nan.
  destruct (Prim2SF x) as [sx|sx| |sx mx ex], (Prim2SF y) as [sy|sy| |sy my ey];
    cbn [SFcompare]; intros H; split; congruence.
Qed.

(** [max(1, base_price)] is a number, at least 1, whatever [base_price]
    is. *)
Lemma max_with_one (b : float) :
  (1 <=? Py.max_from 1 [b])%float = true.
Proof.
  unfold Py.max_from. cbn [fold_left].
  destruct (1 <? b)%float eqn:H.
  - destruct (ltb_true_not_nan _ _ H). now apply ltb_leb.
  - reflexivity.
Qed.

Lemma mock_price_at_least_one (draw : nat -> float) (k : nat) (h : Z) :
  (1 <=? fst (Mock.mock_price draw k h))%float = true.
Proof.
  unfold Mock.mock_price.
  destruct ((16 <=? h) && (h <? 19)); [apply max_with_one|].
  destruct ((2 <=? h) && (h <? 5)); apply max_with_one.
Qed.

Lemma mock_slots_spec (draw : nat -> float) (tomorrow : Datetime.date) (tz : option Z)
    (slots : list (Z * Z)) (k : nat) :
  let mock := fst (Mock.mock_slots draw k tomorrow tz slots) in
  List.length mock = List.length slots
  /\ forall i p, nth_error mock i = Some p ->
       nth_error slots i = Some (hour p, minute p)
       /\ date p = Some tomorrow
       /\ timestamp p = Datetime.mkdatetime tomorrow (hour p) (minute p) 0 0 tz
       /\ (1 <=? price p)%float = true.
Proof.
  revert k. induction slots as [|[h m] rest IH]; intros k; cbn [Mock.mock_slots].
  - cbn. split; [reflexivity|]. intros [|i] p H; discriminate.
  - pose proof (mock_price_at_least_one draw k h) as Hone.
    destruct (Mock.mock_price draw k h) as [v k'].
    specialize (IH k'). destruct (Mock.mock_slots draw k' tomorrow tz rest) as [more k''].
    cbn [fst] in *. destruct IH as [Hlen Hall]. split; [cbn; now rewrite Hlen|].
    intros [|i] p H; cbn [nth_error] in *.
    + injection H as <-. cbn [hour minute date timestamp price]. auto.
    + now apply Hall.
Qed.

Lemma half_hours_nth (i : nat) (h m : Z) :
  nth_error Mock.half_hours i = Some (h, m) ->
  h = Z.of_nat i / 2 /\ m = Z.of_nat i mod 2 * 30 /\ (i < 48)%nat.
Proof.
  do 48 (destruct i as [|i];
         [intros H; vm_compute in H; injection H as <- <-;
          split; [reflexivity | split; [reflexivity | lia]]|]).
  intros H. vm_compute in H. destruct i; discriminate.
Qed.

Lemma existsb_app_r {A : Type} (f : A -> bool) (l1 l2 : list A) (x : A) :
  In x l2 -> f x = true -> existsb f (l1 ++ l2) = true.
Proof.
  intros Hin Hx. apply existsb_exists. exists x. split; [|exact Hx].
  apply in_or_app. now right.
Qed.

(** [add_mock_tomorrow_data] leaves a list with a point dated tomorrow as it
    is.  Otherwise it raises [IndexError] on an empty list, and on a
    non-empty one it appends 48 points, one per half hour of tomorrow in
    order, in the zone of the first point of the list, each with a price
    that is at least 1 whatever the random draws are; the result has data
    for tomorrow. *)
Theorem mock_tomorrow_data
    (today tomorrow : Datetime.date) (draw : nat -> float) (k : nat)
    (prices : list price_point) :
  Datetime.next_day today = Py.Ok tomorrow ->
  (existsb (Snap.is_tomorrow tomorrow) prices = true ->
   Mock.add_mock_tomorrow_data today draw k prices = Mock.Returns (prices, k))
  /\ (prices = [] ->
      Mock.add_mock_tomorrow_data today draw k prices = Mock.Raises Mock.IndexError)
  /\ (existsb (Snap.is_tomorrow tomorrow) prices = false ->
      forall first rest, prices = first :: rest ->
      exists mock k',
        Mock.add_mock_tomorrow_data today draw k prices
        = Mock.Returns (prices ++ mock, k')
        /\ List.length mock = 48%nat
        /\ existsb (Snap.is_tomorrow tomorrow) (prices ++ mock) = true
        /\ forall i p, nth_error mock i = Some p ->
             hour p = Z.of_nat i / 2
             /\ minute p = Z.of_nat i mod 2 * 30
             /\ date p = Some tomorrow
             /\ timestamp p
                = Datetime.mkdatetime tomorrow (hour p) (minute p) 0 0
                    (Datetime.utcoffset (timestamp first))
             /\ (1 <=? price p)%float = true).
Proof.
  intros Hn. unfold Mock.add_mock_tomorrow_data. rewrite Hn. split; [|split].
  - intros ->. reflexivity.
  - intros ->. reflexivity.
  - intros Hnone first rest ->. rewrite Hnone.
    pose proof (mock_slots_spec draw tomorrow (Datetime.utcoffset (timestamp first))
                  Mock.half_hours k) as Hspec.
    destruct (Mock.mock_slots draw k tomorrow (Datetime.utcoffset (timestamp first))
                Mock.half_hours) as [mock k'].
    cbn [fst] in Hspec. destruct Hspec as [Hlen Hall].
    exists mock, k'. split; [reflexivity|]. split; [exact Hlen|]. split.
    + destruct mock as [|p0 mock]; [discriminate Hlen|].
      apply (existsb_app_r _ _ _ p0); [now left|].
      destruct (Hall 0%nat p0 eq_refl) as [_ [Hd _]].
      unfold Snap.is_tomorrow. rewrite Hd. now apply date_eqb_eq.
    + intros i p Hp. destruct (Hall i p Hp) as [Hslot [Hd [Hts Hone]]].
      apply half_hours_nth in Hslot as [Hh [Hm _]]. auto.
Qed.

(** Two points of today get 48 mock points for tomorrow. *)
Lemma mock_tomorrow_data_witness :
  exists mock k',
    Mock.add_mock_tomorrow_data Sample.today Scenario.draw 0 Sample.marker_today
    = Mock.Returns (Sample.marker_today ++ mock, k')
    /\ List.length mock = 48%nat.
Proof.
  destruct (mock_tomorrow_data Sample.today Sample.tomorrow Scenario.draw 0
              Sample.marker_today eq_refl) as [_ [_ Hadd]].
  destruct (Hadd eq_refl _ _ eq_refl) as [mock [k' [Hrun [Hlen _]]]].
  exists mock, k'. split; [exact Hrun | exact Hlen].
Defined.



(* ================================================================== *)
(** * The frames of the mock display *)
(* ================================================================== *)

Lemma leading_number_digits (fuel : nat) (n : Z) :
  0 <= n < 2 ^ Z.of_nat fuel ->
  exists k, 0 <= k /\ forall acc rest,
    leading_number acc (Text.decimal_digits fuel n ++ rest)
    = leading_number (acc * 10 ^ k + n) rest.
Proof.
  revert n. induction fuel as [|fuel IH]; intros n Hn.
  - exists 0. split; [lia|]. intros acc rest. cbn [Text.decimal_digits append].
    f_equal. cbn in Hn. lia.
  - cbn [Text.decimal_digits]. destruct (Z.ltb_spec n 10) as [Hlt|Hge].
    + exists 1. split; [lia|]. intros acc rest. cbn [append leading_number].
      rewrite digit_val_char. rewrite Z.mod_small by lia. f_equal. lia.
    + destruct (IH (n / 10)) as [k [Hk Hdig]].
      { rewrite Nat2Z.inj_succ, Z.pow_succ_r in Hn by lia.
        split; [apply Z.div_pos; lia|].
        apply Z.div_lt_upper_bound; lia. }
      exists (k + 1). split; [lia|]. intros acc rest.
      rewrite append_assoc. rewrite Hdig. cbn [append leading_number].
      rewrite digit_val_char. f_equal.
      rewrite Z.pow_add_r by lia. pose proof (Z.div_mod n 10 ltac:(lia)). lia.
Qed.

Lemma leading_number_decimal (n : Z) (rest : string) :
  0 <= n -> leading_number 0 (Text.decimal n ++ rest) = leading_number n rest.
Proof.
  intros Hn. unfold Text.decimal.
  destruct (leading_number_digits (S (Z.to_nat (Z.log2 n))) n) as [k [_ Hk]].
  - split; [exact Hn|]. rewrite Nat2Z.inj_succ, Z2Nat.id by apply Z.log2_nonneg.
    destruct (Z.eq_dec n 0) as [->|Hne]; [reflexivity|].
    apply Z.log2_spec. lia.
  - rewrite Hk. f_equal.
Qed.

Lemma leading_number_zeros (k : nat) (s : string) :
  leading_number 0 (Text.zeros k ++ s) = leading_number 0 s.
Proof. induction k as [|k IH]; [reflexivity | exact IH]. Qed.

(** The name of a frame spells its number. *)
Lemma frame_number_filename (n : Z) :
  0 <= n -> frame_number (ST7789.filename n) = Some n.
Proof.
  intros Hn. unfold frame_number, ST7789.filename.
  replace (Text.strip_prefix "display_output_"
             ("display_output_" ++ Text.zfill 4 (Text.decimal n) ++ ".png"))
    with (Some (Text.zfill 4 (Text.decimal n) ++ ".png")%string) by reflexivity.
  cbn [option_map]. unfold Text.zfill. rewrite append_assoc.
  rewrite leading_number_zeros, leading_number_decimal by assumption. reflexivity.
Qed.

Lemma filename_inj (a b : Z) :
  0 <= a -> 0 <= b -> ST7789.filename a = ST7789.filename b -> a = b.
Proof.
  intros Ha Hb H. apply frame_number_filename in Ha, Hb. rewrite H in Ha. congruence.
Qed.

(** [display] never overwrites a frame: images displayed in turn, from
    whatever count the display has reached, are saved under names that are
    pairwise different and follow the count, so that each of them is in its
    file at the end; the count has gone up by their number, and no file other
    than these has changed. *)
Theorem display_never_overwrites
    (d : ST7789.t) (images : list (list draw_op)) (fs : Os.files) :
  0 <= ST7789.display_count d ->
  let after := display_all d images fs in
  ST7789.display_count (fst after)
  = ST7789.display_count d + Z.of_nat (List.length images)
  /\ (forall i image,
        nth_error images i = Some image ->
        Os.read (snd after) (ST7789.filename (ST7789.display_count d + Z.of_nat i))
        = Some (Os.Picture image))
  /\ (forall name,
        (forall i, (i < List.length images)%nat ->
                   name <> ST7789.filename (ST7789.display_count d + Z.of_nat i)) ->
        Os.read (snd after) name = Os.read fs name).
Proof.
  revert d fs. induction images as [|image rest IH]; intros d fs Hd; cbn zeta.
  - cbn [display_all fst snd List.length]. split; [lia|]. split; [|reflexivity].
    intros [|i] im H; discriminate.
  - cbn [display_all]. unfold ST7789.display at 1.
    set (d' := ST7789.mk _ _ _ _ _ _ _ _ _).
    set (fs' := Os.write fs _ _).
    assert (Hd' : 0 <= ST7789.display_count d') by (subst d'; cbn; lia).
    assert (Hc : ST7789.display_count d' = ST7789.display_count d + 1) by reflexivity.
    destruct (IH d' fs' Hd') as [Hcount [Hframes Hothers]].
    split; [|split].
    + rewrite Hcount, Hc. cbn [List.length]. lia.
    + intros [|i] im Him; cbn [nth_error] in Him.
      * injection Him as <-. rewrite Hothers.
        -- subst fs'. rewrite Z.add_0_r, read_write, String.eqb_refl. reflexivity.
        -- intros j _ Heq. apply filename_inj in Heq; lia.
      * rewrite <- (Hframes i im Him). f_equal. f_equal. lia.
    + intros name Hname. rewrite Hothers.
      * subst fs'. rewrite read_write.
        destruct (String.eqb_spec (ST7789.filename (ST7789.display_count d)) name)
          as [Heq|_]; [|reflexivity].
        exfalso. apply (Hname 0%nat); [cbn; lia|]. now rewrite Z.add_0_r.
      * intros j Hj Heq. apply (Hname (S j)); [cbn; lia|].
        rewrite Heq. f_equal. lia.
Qed.

Lemma display_all_witness_images :
  nth_error [draw_loading; draw_header Sample.now] 1 = Some (draw_header Sample.now).
Proof. reflexivity. Qed.

(** Two images displayed after 9999 others: the second one is in
    [display_output_10000.png]. *)
Lemma display_never_overwrites_witness :
  Os.read
    (snd (display_all (ST7789.mk 240 320 0 0 1 9 13 80000000 9999)
            [draw_loading; draw_header Sample.now] Scenario.directory))
    "display_output_10000.png"
  = Some (Os.Picture (draw_header Sample.now))
  /\ Os.read
       (snd (display_all (ST7789.mk 240 320 0 0 1 9 13 80000000 9999)
               [draw_loading; draw_header Sample.now] Scenario.directory))
       "notes.txt"
     = Some Os.Other.
Proof.
  destruct (display_never_overwrites (ST7789.mk 240 320 0 0 1 9 13 80000000 9999)
              [draw_loading; draw_header Sample.now] Scenario.directory)
    as [_ [Hframes Hothers]].
  - cbn. lia.
  - split.
    + exact (Hframes 1%nat _ display_all_witness_images).
    + rewrite Hothers; [reflexivity|].
      intros i Hi H. destruct i as [|[|i]]; [vm_compute in H; discriminate ..|].
      cbn in Hi. lia.
Defined.

(* ================================================================== *)
(** * [main] of [dashboard.py] *)
(* ================================================================== *)

Lemma gas_keeps_files (e : IO.env) (w : IO.world) :
  IO.files (snd (DashboardFetch.fetch_gas_price e w)) = IO.files w.
Proof. io_unfold. repeat io_case; reflexivity. Qed.

Lemma strip_cache_prefix (d : Datetime.date) :
  Text.strip_prefix "price-data-" (Fetch.cache_name d) <> None.
Proof. unfold Fetch.cache_name. cbn. discriminate. Qed.

(** [fetch_agile_prices] leaves the files whose names do not start with
    [price-data-] as they are. *)
Lemma fetch_keeps_other_files (e : IO.env) (w : IO.world) (name : string) :
  Text.strip_prefix "price-data-" name = None ->
  Os.read (IO.files (snd (DashboardFetch.fetch_agile_prices e w))) name
  = Os.read (IO.files w) name.
Proof.
  intros Hname. destruct (Datetime.next_day (IO.today e)) as [tomorrow|x] eqn:Hn.
  - destruct (fetch_files_shape e w tomorrow name Hn) as [H|[[H|H] _]].
    + rewrite H. unfold cleaned. rewrite read_clean_up.
      unfold Text.fnmatch_star. now rewrite Hname.
    + subst name. destruct (strip_cache_prefix _ Hname).
    + subst name. destruct (strip_cache_prefix _ Hname).
  - io_unfold. rewrite Hn. reflexivity.
Qed.

Lemma frame_name_is_no_cache (j : Z) :
  Text.strip_prefix "price-data-" (ST7789.filename j) = None.
Proof. reflexivity. Qed.

Lemma main_fetch_keeps_frames (e : IO.env) (m : DashboardMain.machine) (j : Z) :
  DashboardMain.display (snd (DashboardMain.fetch e m)) = DashboardMain.display m
  /\ Os.read (IO.files (DashboardMain.world (snd (DashboardMain.fetch e m))))
       (ST7789.filename j)
     = Os.read (IO.files (DashboardMain.world m)) (ST7789.filename j).
Proof.
  unfold DashboardMain.fetch.
  pose proof (fetch_keeps_other_files e (DashboardMain.world m) (ST7789.filename j)
                (frame_name_is_no_cache j)) as Hagile.
  destruct (DashboardFetch.fetch_agile_prices e (DashboardMain.world m))
    as [[today tomorrow] w1].
  pose proof (gas_keeps_files e w1) as Hgas.
  destruct (DashboardFetch.fetch_gas_price e w1) as [[gas gas_next] w2].
  cbn [snd DashboardMain.display DashboardMain.world] in *.
  split; [reflexivity|]. now rewrite Hgas.
Qed.

Lemma draw_keeps_frames (textbbox : metrics) (now : Datetime.datetime)
    (d : DashboardMain.data) (m m' : DashboardMain.machine) (j : Z) :
  0 <= j < ST7789.display_count (DashboardMain.display m) ->
  DashboardMain.draw_dashboard textbbox now d m = Py.Ok m' ->
  ST7789.display_count (DashboardMain.display m')
  = ST7789.display_count (DashboardMain.display m) + 1
  /\ Os.read (IO.files (DashboardMain.world m')) (ST7789.filename j)
     = Os.read (IO.files (DashboardMain.world m)) (ST7789.filename j).
Proof.
  intros Hj. unfold DashboardMain.draw_dashboard.
  destruct (Dashboard.draw_dashboard _ _ _ _ _ _) as [img|]; cbn [Py.bind];
    [|discriminate].
  unfold ST7789.display. intros H. injection H as <-.
  cbn [DashboardMain.display DashboardMain.world IO.files ST7789.display_count].
  split; [reflexivity|]. rewrite read_write.
  destruct (String.eqb_spec
              (ST7789.filename (ST7789.display_count (DashboardMain.display m)))
              (ST7789.filename j)) as [Heq|_]; [|reflexivity].
  apply filename_inj in Heq; lia.
Qed.

Lemma draw_count (textbbox : metrics) (now : Datetime.datetime)
    (d : DashboardMain.data) (m m' : DashboardMain.machine) :
  DashboardMain.draw_dashboard textbbox now d m = Py.Ok m' ->
  ST7789.display_count (DashboardMain.display m')
  = ST7789.display_count (DashboardMain.display m) + 1.
Proof.
  unfold DashboardMain.draw_dashboard.
  destruct (Dashboard.draw_dashboard _ _ _ _ _ _) as [img|]; cbn [Py.bind];
    [|discriminate].
  unfold ST7789.display. intros H. injection H as <-. reflexivity.
Qed.

Lemma turn_keeps_frames (e : IO.env) (textbbox : metrics) (current_time : float)
    (now : Datetime.datetime) (d : DashboardMain.data) (t : float)
    (m : DashboardMain.machine) :
  let m' := snd (DashboardMain.turn e textbbox current_time now (d, t, m)) in
  ST7789.display_count (DashboardMain.display m)
  <= ST7789.display_count (DashboardMain.display m')
  /\ forall j, 0 <= j < ST7789.display_count (DashboardMain.display m) ->
       Os.read (IO.files (DashboardMain.world m')) (ST7789.filename j)
       = Os.read (IO.files (DashboardMain.world m)) (ST7789.filename j).
Proof.
  cbn zeta. unfold DashboardMain.turn.
  assert (Hstep : forall d1 (t1 : float) m1,
    DashboardMain.display m1 = DashboardMain.display m ->
    (forall j, Os.read (IO.files (DashboardMain.world m1)) (ST7789.filename j)
               = Os.read (IO.files (DashboardMain.world m)) (ST7789.filename j)) ->
    let m' := snd (match DashboardMain.draw_dashboard textbbox now d1 m1 with
                   | Py.Ok m2 => (d1, t1, m2)
                   | Py.Raise _ => (d1, t1, m1)
                   end) in
    ST7789.display_count (DashboardMain.display m)
    <= ST7789.display_count (DashboardMain.display m')
    /\ forall j, 0 <= j < ST7789.display_count (DashboardMain.display m) ->
         Os.read (IO.files (DashboardMain.world m')) (ST7789.filename j)
         = Os.read (IO.files (DashboardMain.world m)) (ST7789.filename j)).
  { intros d1 t1 m1 Hd Hf. cbn zeta.
    destruct (DashboardMain.draw_dashboard textbbox now d1 m1) as [m2|x] eqn:Hdraw;
      cbn [snd].
    - split.
      + rewrite (draw_count _ _ _ _ _ Hdraw), Hd. lia.
      + intros j Hj. rewrite <- Hd in Hj.
        destruct (draw_keeps_frames _ _ _ _ _ j Hj Hdraw) as [_ ->]. apply Hf.
    - split; [rewrite Hd; lia|]. intros j _. apply Hf. }
  destruct (DashboardMain.update_interval <? current_time - t)%float.
  - pose proof (fun j => main_fetch_keeps_frames e m j) as Hfetch.
    destruct (DashboardMain.fetch e m) as [d' m1]. cbn [snd] in Hfetch.
    apply Hstep; [apply (Hfetch 0) | intros j; apply Hfetch].
  - apply Hstep; [reflexivity | reflexivity].
Qed.

Lemma turn_count_bound (e : IO.env) (textbbox : metrics) (current_time : float)
    (now : Datetime.datetime) (d : DashboardMain.data) (t : float)
    (m : DashboardMain.machine) :
  ST7789.display_count
    (DashboardMain.display
       (snd (DashboardMain.turn e textbbox current_time now (d, t, m))))
  <= ST7789.display_count (DashboardMain.display m) + 1.
Proof.
  unfold DashboardMain.turn.
  assert (Hstep : forall d1 (t1 : float) m1,
    DashboardMain.display m1 = DashboardMain.display m ->
    ST7789.display_count
      (DashboardMain.display
         (snd (match DashboardMain.draw_dashboard textbbox now d1 m1 with
               | Py.Ok m2 => (d1, t1, m2)
               | Py.Raise _ => (d1, t1, m1)
               end)))
    <= ST7789.display_count (DashboardMain.display m) + 1).
  { intros d1 t1 m1 Hd.
    destruct (DashboardMain.draw_dashboard textbbox now d1 m1) as [m2|x] eqn:Hdraw;
      cbn [snd].
    - rewrite (draw_count _ _ _ _ _ Hdraw), Hd. lia.
    - rewrite Hd. lia. }
  destruct (DashboardMain.update_interval <? current_time - t)%float.
  - pose proof (main_fetch_keeps_frames e m 0) as [Hfetch _].
    destruct (DashboardMain.fetch e m) as [d' m1]. cbn [snd] in Hfetch.
    now apply Hstep.
  - now apply Hstep.
Qed.

(** However long the loop of [main] runs, whatever the network
    answers and whatever is in the caches: the display count never goes
    down, it goes up by at most one a turn, and every frame file written
    before (the files numbered below the count) still holds the same
    picture. *)
Theorem loop_keeps_frames (textbbox : metrics)
    (turns : list (IO.env * float * Datetime.datetime))
    (d : DashboardMain.data) (t : float) (m : DashboardMain.machine) :
  let m' := snd (run textbbox turns (d, t, m)) in
  ST7789.display_count (DashboardMain.display m)
  <= ST7789.display_count (DashboardMain.display m')
  <= ST7789.display_count (DashboardMain.display m) + Z.of_nat (List.length turns)
  /\ forall j, 0 <= j < ST7789.display_count (DashboardMain.display m) ->
       Os.read (IO.files (DashboardMain.world m')) (ST7789.filename j)
       = Os.read (IO.files (DashboardMain.world m)) (ST7789.filename j).
Proof.
  cbn zeta. revert d t m.
  induction turns as [|[[e current_time] now] rest IH]; intros d t m.
  - cbn. split; [lia | reflexivity].
  - cbn [run List.length].
    pose proof (turn_keeps_frames e textbbox current_time now d t m) as [Hle Hkeep].
    pose proof (turn_count_bound e textbbox current_time now d t m) as Hup.
    destruct (DashboardMain.turn e textbbox current_time now (d, t, m))
      as [[d1 t1] m1].
    cbn [snd] in Hle, Hkeep, Hup.
    destruct (IH d1 t1 m1) as [[Hlo Hhi] Hframes].
    split; [lia|].
    intros j Hj. rewrite Hframes by lia. now apply Hkeep.
Qed.

(** When today's prices are neither cached nor to be had from the API,
    [fetch_agile_prices] returns two empty lists whatever the cache of
    tomorrow holds, and changes no file but the old caches it removes. *)
Lemma fetch_without_today (e : IO.env) (w : IO.world) (tomorrow : Datetime.date) :
  Datetime.valid_date (IO.today e) = true ->
  Datetime.next_day (IO.today e) = Py.Ok tomorrow ->
  Os.read (IO.files w) (Fetch.cache_name (IO.today e)) = None ->
  Requests.checked_results (IO.api e (day_request (IO.today e) tomorrow)) = None ->
  fst (DashboardFetch.fetch_agile_prices e w) = ([], [])
  /\ IO.files (snd (DashboardFetch.fetch_agile_prices e w))
     = cleaned (IO.today e) (IO.files w).
Proof.
  intros Hv Hn Ht Hapi.
  rewrite <- (read_cleaned_cache (IO.today e)) in Ht
    by (assumption || apply date_ltb_irrefl).
  unfold day_request in Hapi.
  io_unfold. rewrite Hn. fold (cleaned (IO.today e) (IO.files w)).
  rewrite Ht. cbn [IO.files IO.sent fst snd].
  repeat io_case; cbn [IO.files IO.sent fst snd]; try discriminate;
    rewrite ?Hapi; split; reflexivity.
Qed.

(** Started when today's prices are not in the cache and the request
    for them fails, [main] draws the [Loading...] screen as its first frame,
    whatever it has of tomorrow's prices and of the gas prices; the frame is
    the only file written. *)
Theorem start_without_prices_shows_loading
    (e : IO.env) (textbbox : metrics) (now : Datetime.datetime)
    (m : DashboardMain.machine) (tomorrow : Datetime.date) :
  Datetime.valid_date (IO.today e) = true ->
  Datetime.next_day (IO.today e) = Py.Ok tomorrow ->
  Os.read (IO.files (DashboardMain.world m)) (Fetch.cache_name (IO.today e)) = None ->
  Requests.checked_results (IO.api e (day_request (IO.today e) tomorrow)) = None ->
  exists gas gas_next m',
    DashboardMain.start e textbbox now m
    = Py.Ok (DashboardMain.mkdata [] [] gas gas_next, m')
    /\ ST7789.display_count (DashboardMain.display m')
       = ST7789.display_count (DashboardMain.display m) + 1
    /\ IO.files (DashboardMain.world m')
       = Os.write (cleaned (IO.today e) (IO.files (DashboardMain.world m)))
           (ST7789.filename (ST7789.display_count (DashboardMain.display m)))
           (Os.Picture (draw_header now ++ draw_loading)).
Proof.
  intros Hv Hn Ht Hapi.
  destruct (fetch_without_today e (DashboardMain.world m) tomorrow Hv Hn Ht Hapi)
    as [Hres Hfiles].
  unfold DashboardMain.start, DashboardMain.fetch.
  destruct (DashboardFetch.fetch_agile_prices e (DashboardMain.world m))
    as [[today_prices tomorrow_prices] w1].
  cbn [fst snd] in Hres, Hfiles. injection Hres as -> ->.
  pose proof (gas_keeps_files e w1) as Hgas.
  destruct (DashboardFetch.fetch_gas_price e w1) as [[gas gas_next] w2].
  cbn [snd] in Hgas.
  exists gas, gas_next. eexists. split; [|split].
  - unfold DashboardMain.draw_dashboard, Dashboard.draw_dashboard.
    cbn [DashboardMain.today_prices Py.bind ST7789.display DashboardMain.display
         DashboardMain.world]. reflexivity.
  - reflexivity.
  - cbn [DashboardMain.world IO.files]. now rewrite Hgas, Hfiles.
Qed.

(** Off line, in a directory with an old cache: the old cache is removed and
    frame 0 is the [Loading...] screen. *)
Lemma start_without_prices_shows_loading_witness :
  exists gas gas_next m',
    DashboardMain.start Scenario.machine_offline Sample.textbbox Sample.now
      (DashboardMain.mkmachine DashboardMain.disp Scenario.start)
    = Py.Ok (DashboardMain.mkdata [] [] gas gas_next, m')
    /\ Os.read (IO.files (DashboardMain.world m')) "display_output_0000.png"
       = Some (Os.Picture (draw_header Sample.now ++ draw_loading))
    /\ Os.read (IO.files (DashboardMain.world m')) "price-data-2024-01-14.json" = None.
Proof.
  destruct (start_without_prices_shows_loading Scenario.machine_offline
              Sample.textbbox Sample.now
              (DashboardMain.mkmachine DashboardMain.disp Scenario.start)
              Sample.tomorrow)
    as [gas [gas_next [m' [Hstart [_ Hfiles]]]]].
  - reflexivity.
  - reflexivity.
  - reflexivity.
  - reflexivity.
  - exists gas, gas_next, m'. split; [exact Hstart|].
    rewrite Hfiles. split; vm_compute; reflexivity.
Defined.

Lemma frame_name_is_no_cache_name (j : Z) (name : string) :
  frame_number name = None -> String.eqb (ST7789.filename j) name = false.
Proof.
  intros Hname. destruct (String.eqb_spec (ST7789.filename j) name) as [<-|]; [|reflexivity].
  discriminate Hname.
Qed.

Lemma turn_not_due (e : IO.env) (textbbox : metrics) (current_time : float)
    (now : Datetime.datetime) (d : DashboardMain.data) (t : float)
    (m : DashboardMain.machine) :
  due t (e, current_time, now) = false ->
  let state' := DashboardMain.turn e textbbox current_time now (d, t, m) in
  fst state' = (d, t)
  /\ IO.sent (DashboardMain.world (snd state')) = IO.sent (DashboardMain.world m)
  /\ forall name, frame_number name = None ->
       Os.read (IO.files (DashboardMain.world (snd state'))) name
       = Os.read (IO.files (DashboardMain.world m)) name.
Proof.
  unfold due. cbn [fst snd]. intros Hdue. cbn zeta. unfold DashboardMain.turn.
  rewrite Hdue. unfold DashboardMain.draw_dashboard.
  destruct (Dashboard.draw_dashboard _ _ _ _ _ _) as [img|]; cbn [Py.bind fst snd].
  - unfold ST7789.display. cbn [DashboardMain.world IO.sent IO.files fst snd].
    split; [reflexivity|]. split; [reflexivity|].
    intros name Hname. rewrite read_write.
    now rewrite frame_name_is_no_cache_name.
  - split; [reflexivity|]. split; [reflexivity|]. reflexivity.
Qed.

(** Between two updates the loop of [main] only redraws: as long as
    no more than 300 seconds have passed since the last update, the prices
    and the time of the last update stay as they are, no request is sent,
    and no file changes but the frames. *)
Theorem loop_between_updates (textbbox : metrics)
    (turns : list (IO.env * float * Datetime.datetime))
    (d : DashboardMain.data) (t : float) (m : DashboardMain.machine) :
  Forall (fun turn => due t turn = false) turns ->
  let state' := run textbbox turns (d, t, m) in
  fst state' = (d, t)
  /\ IO.sent (DashboardMain.world (snd state')) = IO.sent (DashboardMain.world m)
  /\ forall name, frame_number name = None ->
       Os.read (IO.files (DashboardMain.world (snd state'))) name
       = Os.read (IO.files (DashboardMain.world m)) name.
Proof.
  intros Hturns. cbn zeta. revert m.
  induction Hturns as [|[[e current_time] now] rest Hdue _ IH]; intros m.
  - cbn. repeat split; reflexivity.
  - cbn [run].
    destruct (turn_not_due e textbbox current_time now d t m Hdue)
      as [Hstate [Hsent Hfiles]].
    destruct (DashboardMain.turn e textbbox current_time now (d, t, m))
      as [[d1 t1] m1].
    cbn [fst snd] in Hstate, Hsent, Hfiles. injection Hstate as -> ->.
    destruct (IH m1) as [Hstate' [Hsent' Hfiles']].
    split; [exact Hstate'|]. split; [congruence|].
    intros name Hname. rewrite Hfiles' by assumption. now apply Hfiles.
Qed.

(** Two turns, 30 and exactly 300 seconds after the last update, on a
    machine whose API would answer: nothing is asked. *)
Lemma loop_between_updates_witness :
  Forall (fun turn => due 1000 turn = false)
    [ (Scenario.machine, 1030%float, Sample.now);
      (Scenario.machine, 1300%float, Sample.now) ]
  /\ IO.sent (DashboardMain.world (snd (run Sample.textbbox
       [ (Scenario.machine, 1030%float, Sample.now);
         (Scenario.machine, 1300%float, Sample.now) ]
       (DashboardMain.mkdata [] [] None None, 1000%float,
        DashboardMain.mkmachine DashboardMain.disp Scenario.start)))) = [].
Proof.
  assert (Hturns : Forall (fun turn => due 1000 turn = false)
            [ (Scenario.machine, 1030%float, Sample.now);
              (Scenario.machine, 1300%float, Sample.now) ])
    by (repeat constructor).
  split; [exact Hturns|].
  destruct (loop_between_updates Sample.textbbox _
              (DashboardMain.mkdata [] [] None None) 1000%float
              (DashboardMain.mkmachine DashboardMain.disp Scenario.start) Hturns)
    as [_ [Hsent _]].
  exact Hsent.
Defined.
